(** * AI travel photo generator: a shallow embedding of the event handlers

    The repository is a React front end over the hosted [blink] SDK.  The
    handlers of [App], [InstantIDModule], [PhotoMakerModule] and
    [FaceSwapModule] are embedded as programs of a small monad that threads
    the UI state (the [useState] cells), consults the outside world through
    oracles (storage, AI endpoints, clock) and records every observable
    effect as an event of the run.

    Conventions.
    - A JS [number] is modelled by an exact rational ([Q]); array lengths,
      loop indices and millisecond counts are [nat].
    - A JS string is a [string]; [length] and [slice] count bytes.
    - [await f(x)] is one trace event carrying the call and its outcome; a
      rejected promise is [inl e], which the monad propagates to the
      enclosing [try]. *)

From Stdlib Require Import String Ascii List Bool Arith ZArith QArith Lia.
From Stdlib Require Import DecimalString DecimalNat Permutation.
Import ListNotations.

Local Open Scope string_scope.
Local Open Scope list_scope.

Infix "+++" := String.append (right associativity, at level 60).

(** ** JavaScript string helpers *)

(** [String(n)] for a non-negative integer. *)
Definition Number_toString (n : nat) : string :=
  NilZero.string_of_uint (Nat.to_uint n).

(** [s.slice(-k)]: the last [k] characters (the whole string when shorter). *)
Definition slice_last (k : nat) (s : string) : string :=
  substring (String.length s - k) k s.

(** White space removed by [String.prototype.trim] (ASCII part). *)
Definition is_space (c : ascii) : bool :=
  match nat_of_ascii c with
  | 9%nat | 10%nat | 11%nat | 12%nat | 13%nat | 32%nat => true
  | _ => false
  end.

Fixpoint trimStart (s : string) : string :=
  match s with
  | String c r => if is_space c then trimStart r else s
  | EmptyString => EmptyString
  end.

Fixpoint trimEnd (s : string) : string :=
  match s with
  | String c r =>
      match trimEnd r with
      | EmptyString => if is_space c then EmptyString else String c EmptyString
      | r' => String c r'
      end
  | EmptyString => EmptyString
  end.

Definition trim (s : string) : string := trimEnd (trimStart s).

(** Truthiness of a string: the empty string is falsy. *)
Definition truthy (s : string) : bool :=
  match s with EmptyString => false | _ => true end.


(** ** Data model *)

Record File := mkFile { file_name : string; file_type : string }.

Record User := mkUser {
  user_id : string;
  user_email : string;
  user_displayName : option string }.

Record GeneratedImage := mkGeneratedImage {
  gi_id : string;
  gi_url : string;
  gi_destination : string;
  gi_originalImage : string;
  gi_originalImages : option (list string);
  gi_createdAt : string }.

(** [TrainingImage], [InstantIDImage], [PhotoMakerImage] and [FacePortrait]
    are the same interface under four names. *)
Record PreviewImage := mkPreviewImage {
  img_id : string;
  img_file : File;
  img_url : string;
  img_uploadedUrl : option string }.

Abbreviation TrainingImage := PreviewImage (only parsing).
Abbreviation InstantIDImage := PreviewImage (only parsing).
Abbreviation PhotoMakerImage := PreviewImage (only parsing).
Abbreviation FacePortrait := PreviewImage (only parsing).

Inductive ModelStatus := training | ready | failed.

Definition ModelStatus_eqb (a b : ModelStatus) : bool :=
  match a, b with
  | training, training | ready, ready | failed, failed => true
  | _, _ => false
  end.

Record LoRAModel := mkLoRAModel {
  lm_id : string;
  lm_name : string;
  lm_status : ModelStatus;
  lm_trainingImages : list string;
  lm_createdAt : string;
  lm_progress : option Q }.

Record Destination := mkDestination {
  d_id : string;
  d_name : string;
  d_emoji : string;
  d_description : string }.

Definition TRAVEL_DESTINATIONS : list Destination :=
  [ mkDestination "paris" "Paris, France" "üóº" "Eiffel Tower backdrop";
    mkDestination "tokyo" "Tokyo, Japan" "üèØ" "Cherry blossoms & temples";
    mkDestination "bali" "Bali, Indonesia" "üèùÔ∏è" "Tropical paradise";
    mkDestination "nyc" "New York City" "üèôÔ∏è" "Urban skyline";
    mkDestination "santorini" "Santorini, Greece" "üèõÔ∏è" "Blue domes & sunset";
    mkDestination "machu-picchu" "Machu Picchu, Peru" "‚õ∞Ô∏è" "Ancient ruins";
    mkDestination "dubai" "Dubai, UAE" "üèóÔ∏è" "Modern architecture";
    mkDestination "iceland" "Iceland" "üåã" "Northern lights & glaciers" ].

(** ** The outside world *)

(** A thrown value: [new Error(msg)] or whatever a rejected SDK promise
    carries. *)
Inductive Exn := Error (msg : string).

Record UploadResult := mkUploadResult { publicUrl : string }.

Record AiImage := mkAiImage { url : string }.

(** [{ data }] of an AI response; [data] may be missing. *)
Record AiResponse := mkAiResponse { data : option (list AiImage) }.

Record GenerateImageRequest := mkGenerateImageRequest {
  gen_prompt : string;
  gen_quality : string;
  gen_size : string;
  gen_n : nat }.

Record ModifyImageRequest := mkModifyImageRequest {
  mod_images : list string;
  mod_prompt : string;
  mod_quality : string;
  mod_size : string;
  mod_n : nat }.

(** ** UI state: the [useState] cells of the four components *)

Record AppState := mkAppState {
  user : option User;
  selectedFile : option File;
  selectedDestination : string;
  isGenerating : bool;
  generationProgress : Q;
  generatedImages : list GeneratedImage;
  generateMultiple : bool;
  trainingImages : list TrainingImage;
  currentModel : option LoRAModel;
  isTrainingModel : bool;
  trainingProgress : Q;
  useCustomModel : bool }.

Record InstantIDState := mkInstantIDState {
  iid_referenceImages : list InstantIDImage;
  iid_isGenerating : bool;
  iid_generationProgress : Q }.

Record PhotoMakerState := mkPhotoMakerState {
  pm_referenceImages : list PhotoMakerImage;
  pm_isGenerating : bool;
  pm_generationProgress : Q;
  pm_customPrompt : string;
  pm_generateMultiple : bool }.

Record FaceSwapState := mkFaceSwapState {
  fs_facePortrait : option FacePortrait;
  fs_isGenerating : bool;
  fs_generationProgress : Q }.

Record UI := mkUI {
  app : AppState;
  instantID : InstantIDState;
  photoMaker : PhotoMakerState;
  faceSwap : FaceSwapState }.

(** A call of a state setter, with the value the cell takes. *)
Inductive SetCall :=
| setIsGenerating (b : bool)
| setGenerationProgress (q : Q)
| setGeneratedImages (l : list GeneratedImage)
| setTrainingImages (l : list TrainingImage)
| setCurrentModel (m : option LoRAModel)
| setIsTrainingModel (b : bool)
| setTrainingProgress (q : Q)
| setUseCustomModel (b : bool)
| InstantID_setReferenceImages (l : list InstantIDImage)
| InstantID_setIsGenerating (b : bool)
| InstantID_setGenerationProgress (q : Q)
| PhotoMaker_setReferenceImages (l : list PhotoMakerImage)
| PhotoMaker_setIsGenerating (b : bool)
| PhotoMaker_setGenerationProgress (q : Q)
| FaceSwap_setIsGenerating (b : bool)
| FaceSwap_setGenerationProgress (q : Q).

Definition apply_app (c : SetCall) (s : AppState) : AppState :=
  let upd ig gp gi ti cm it tp uc :=
    mkAppState (user s) (selectedFile s) (selectedDestination s) ig gp gi
               (generateMultiple s) ti cm it tp uc in
  let ig := isGenerating s in
  let gp := generationProgress s in
  let gi := generatedImages s in
  let ti := trainingImages s in
  let cm := currentModel s in
  let it := isTrainingModel s in
  let tp := trainingProgress s in
  let uc := useCustomModel s in
  match c with
  | setIsGenerating b => upd b gp gi ti cm it tp uc
  | setGenerationProgress q => upd ig q gi ti cm it tp uc
  | setGeneratedImages l => upd ig gp l ti cm it tp uc
  | setTrainingImages l => upd ig gp gi l cm it tp uc
  | setCurrentModel m => upd ig gp gi ti m it tp uc
  | setIsTrainingModel b => upd ig gp gi ti cm b tp uc
  | setTrainingProgress q => upd ig gp gi ti cm it q uc
  | setUseCustomModel b => upd ig gp gi ti cm it tp b
  | _ => s
  end.

Definition apply_instantID (c : SetCall) (s : InstantIDState) : InstantIDState :=
  match c with
  | InstantID_setReferenceImages l =>
      mkInstantIDState l (iid_isGenerating s) (iid_generationProgress s)
  | InstantID_setIsGenerating b =>
      mkInstantIDState (iid_referenceImages s) b (iid_generationProgress s)
  | InstantID_setGenerationProgress q =>
      mkInstantIDState (iid_referenceImages s) (iid_isGenerating s) q
  | _ => s
  end.

Definition apply_photoMaker (c : SetCall) (s : PhotoMakerState) : PhotoMakerState :=
  let upd r g p :=
    mkPhotoMakerState r g p (pm_customPrompt s) (pm_generateMultiple s) in
  match c with
  | PhotoMaker_setReferenceImages l =>
      upd l (pm_isGenerating s) (pm_generationProgress s)
  | PhotoMaker_setIsGenerating b =>
      upd (pm_referenceImages s) b (pm_generationProgress s)
  | PhotoMaker_setGenerationProgress q =>
      upd (pm_referenceImages s) (pm_isGenerating s) q
  | _ => s
  end.

Definition apply_faceSwap (c : SetCall) (s : FaceSwapState) : FaceSwapState :=
  match c with
  | FaceSwap_setIsGenerating b =>
      mkFaceSwapState (fs_facePortrait s) b (fs_generationProgress s)
  | FaceSwap_setGenerationProgress q =>
      mkFaceSwapState (fs_facePortrait s) (fs_isGenerating s) q
  | _ => s
  end.

Definition apply_set (c : SetCall) (s : UI) : UI :=
  mkUI (apply_app c (app s)) (apply_instantID c (instantID s))
       (apply_photoMaker c (photoMaker s)) (apply_faceSwap c (faceSwap s)).

(** ** Observable effects *)

Inductive Event :=
| StorageUpload (file : File) (path : string) (upsert : bool)
                (res : Exn + UploadResult)
| AiGenerateImage (req : GenerateImageRequest) (res : Exn + AiResponse)
| AiModifyImage (req : ModifyImageRequest) (res : Exn + AiResponse)
| DateNow (t : nat)
| SetTimeout (ms : nat)
| ToastSuccess (msg : string)
| ToastError (msg : string)
| ConsoleError (label : string) (e : Exn)
| RevokeObjectURL (u : string)
| SetState (c : SetCall).

(** The hosted services and the clock.  An answer may depend on the
    logical time of the call (the number of effects performed before it),
    so any sequence of outcomes is some environment. *)
Record Env := mkEnv {
  storage_upload : nat -> File -> string -> bool -> Exn + UploadResult;
  ai_generateImage : nat -> GenerateImageRequest -> Exn + AiResponse;
  ai_modifyImage : nat -> ModifyImageRequest -> Exn + AiResponse;
  date_now : nat -> nat;
  toISOString : nat -> string;
  toLocaleDateString : nat -> string }.

Record World := mkWorld { ui : UI; tick : nat }.

(** ** The handler monad: reader of [Env], state [World], errors [Exn],
       writer of [Event]s *)

Record Run (A : Type) := mkRun {
  result : Exn + A;
  final : World;
  events : list Event }.

Arguments mkRun {A}.
Arguments result {A}.
Arguments final {A}.
Arguments events {A}.

Definition M (A : Type) : Type := Env -> World -> Run A.

Definition ret {A} (a : A) : M A := fun _ w => mkRun (inr a) w [].

Definition bind {A B} (m : M A) (k : A -> M B) : M B :=
  fun env w =>
    match m env w with
    | mkRun (inr a) w1 ev1 =>
        match k a env w1 with
        | mkRun r w2 ev2 => mkRun r w2 (ev1 ++ ev2)
        end
    | mkRun (inl e) w1 ev1 => mkRun (inl e) w1 ev1
    end.

Notation "x <- m ;; k" := (bind m (fun x => k))
  (at level 61, m at next level, right associativity).
Notation "m ;; k" := (bind m (fun _ => k))
  (at level 61, right associativity).

Definition throw {A} (e : Exn) : M A := fun _ w => mkRun (inl e) w [].

Definition ask : M Env := fun env w => mkRun (inr env) w [].

Definition emit (e : Event) : M unit :=
  fun _ w => mkRun (inr tt) (mkWorld (ui w) (S (tick w))) [e].

Definition getApp : M AppState := fun _ w => mkRun (inr (app (ui w))) w [].
Definition getInstantID : M InstantIDState :=
  fun _ w => mkRun (inr (instantID (ui w))) w [].
Definition getPhotoMaker : M PhotoMakerState :=
  fun _ w => mkRun (inr (photoMaker (ui w))) w [].
Definition getFaceSwap : M FaceSwapState :=
  fun _ w => mkRun (inr (faceSwap (ui w))) w [].

(** [setX(v)]: the cell changes and the call is recorded. *)
Definition set (c : SetCall) : M unit :=
  fun _ w =>
    mkRun (inr tt) (mkWorld (apply_set c (ui w)) (S (tick w))) [SetState c].

(** [try { body } catch (error) { handler } finally { fin }]. *)
Definition try_catch_finally (body : M unit) (handler : Exn -> M unit)
    (fin : M unit) : M unit :=
  fun env w =>
    match body env w with
    | mkRun (inr _) w1 ev1 =>
        match fin env w1 with
        | mkRun r w2 ev2 => mkRun r w2 (ev1 ++ ev2)
        end
    | mkRun (inl e) w1 ev1 =>
        match handler e env w1 with
        | mkRun (inr _) w2 ev2 =>
            match fin env w2 with
            | mkRun r w3 ev3 => mkRun r w3 (ev1 ++ ev2 ++ ev3)
            end
        | mkRun (inl e') w2 ev2 =>
            match fin env w2 with
            | mkRun (inr _) w3 ev3 => mkRun (inl e') w3 (ev1 ++ ev2 ++ ev3)
            | mkRun (inl e'') w3 ev3 => mkRun (inl e'') w3 (ev1 ++ ev2 ++ ev3)
            end
        end
    end.

(** [for (let i = i0; i < l.length; i++) { s = body(i, l[i], s) }], with
    [s] the local variables the body assigns. *)
Fixpoint for_i {A St} (l : list A) (i : nat) (body : nat -> A -> St -> M St)
    (s : St) : M St :=
  match l with
  | [] => ret s
  | x :: r => s' <- body i x s ;; for_i r (S i) body s'
  end.

(** [l.forEach(f)]. *)
Fixpoint forEach {A} (l : list A) (f : A -> M unit) : M unit :=
  match l with
  | [] => ret tt
  | x :: r => f x ;; forEach r f
  end.

(** [l.map((x, index) => f(x, index))] with an effectful callback. *)
Fixpoint map_i {A B} (l : list A) (i : nat) (f : A -> nat -> M B) : M (list B) :=
  match l with
  | [] => ret []
  | x :: r => y <- f x i ;; ys <- map_i r (S i) f ;; ret (y :: ys)
  end.

(** ** Primitive effects *)

Definition Date_now : M nat :=
  fun env w =>
    let t := date_now env (tick w) in
    mkRun (inr t) (mkWorld (ui w) (S (tick w))) [DateNow t].

(** [new Date().toISOString()] and [new Date().toLocaleDateString()]. *)
Definition new_Date_toISOString : M string :=
  t <- Date_now ;; env <- ask ;; ret (toISOString env t).

Definition new_Date_toLocaleDateString : M string :=
  t <- Date_now ;; env <- ask ;; ret (toLocaleDateString env t).

Definition blink_storage_upload (f : File) (path : string) (upsert : bool)
    : M UploadResult :=
  fun env w =>
    let r := storage_upload env (tick w) f path upsert in
    mkRun r (mkWorld (ui w) (S (tick w))) [StorageUpload f path upsert r].

Definition blink_ai_generateImage (req : GenerateImageRequest) : M AiResponse :=
  fun env w =>
    let r := ai_generateImage env (tick w) req in
    mkRun r (mkWorld (ui w) (S (tick w))) [AiGenerateImage req r].

Definition blink_ai_modifyImage (req : ModifyImageRequest) : M AiResponse :=
  fun env w =>
    let r := ai_modifyImage env (tick w) req in
    mkRun r (mkWorld (ui w) (S (tick w))) [AiModifyImage req r].

(** [await new Promise(resolve => setTimeout(resolve, ms))]. *)
Definition sleep (ms : nat) : M unit := emit (SetTimeout ms).

Definition toast_success (msg : string) : M unit := emit (ToastSuccess msg).
Definition toast_error (msg : string) : M unit := emit (ToastError msg).
Definition console_error (label : string) (e : Exn) : M unit :=
  emit (ConsoleError label e).
Definition URL_revokeObjectURL (u : string) : M unit := emit (RevokeObjectURL u).

(** [data && data.length > 0]. *)
Definition has_data (d : option (list AiImage)) : bool :=
  match d with
  | Some (_ :: _) => true
  | _ => false
  end.

(** [TRAVEL_DESTINATIONS.find(d => d.id === selectedDestination)] followed
    by [if (!destination) throw new Error('Invalid destination')]. *)
Definition find_destination (dests : list Destination) (sel : string)
    : option Destination :=
  find (fun d => String.eqb (d_id d) sel) dests.

Definition require_destination (dests : list Destination) (sel : string)
    : M Destination :=
  match find_destination dests sel with
  | Some d => ret d
  | None => throw (Error "Invalid destination")
  end.

(** The number [i / n * k] of the upload loops. *)
Definition fraction (i n : nat) (k : Q) : Q :=
  (inject_Z (Z.of_nat i) / inject_Z (Z.of_nat n)) * k.

(** ** Template literals: prompts, storage paths, ids and toasts *)

Definition travelPrompt (destination : Destination) : string :=
  "Create a realistic travel photo by placing this exact person in " +++ d_description destination +++ " in " +++ d_name destination +++ ". IMPORTANT: Preserve the person's facial features, skin tone, hair, and overall appearance exactly as shown in the original photo. Only change the background and environment to match the travel destination. The person should appear naturally integrated into the scenic location with proper lighting and shadows that match the environment. Maintain high photographic quality and realistic composition.".

Definition loraEnhancedPrompt (destination : Destination) : string :=
  "[LoRA Model Enhanced] Create a photorealistic travel photo of the person from the trained LoRA model in " +++ d_description destination +++ " in " +++ d_name destination +++ ". The LoRA model has learned this person's unique facial features, expressions, and characteristics from multiple training images. Generate a high-quality travel photo showing the person naturally enjoying the destination with authentic travel photography composition, proper environmental lighting, and seamless integration into the scenic location. Maintain the person's distinctive facial features, skin tone, hair style, and natural expressions while adapting to the travel setting.".

Definition loraGenerationPrompt (destination : Destination) : string :=
  "[LoRA Model Generation] Create a photorealistic travel photo of the person using the trained LoRA model in " +++ d_description destination +++ " in " +++ d_name destination +++ ". The LoRA model contains learned facial features, expressions, and characteristics from multiple training images. Generate a high-quality travel photo showing the person naturally enjoying and exploring the destination with authentic travel photography composition. Include proper environmental lighting, realistic shadows, and seamless integration into the scenic location. The person should appear relaxed and happy, with natural poses and expressions that match the travel setting. Maintain photographic realism with professional travel photography aesthetics.".

Definition scenePrompt (destination : Destination) : string :=
  "Create a photorealistic travel scene in " +++ d_description destination +++ " in " +++ d_name destination +++ ". Generate a beautiful, high-quality travel photography composition showing the iconic location with proper lighting, shadows, and atmospheric details. The scene should be ready for a person to be naturally integrated into it. Professional travel photography style with excellent composition and lighting.".

Definition faceSwapPrompt (destination : Destination) : string :=
  "[Advanced Face Swap] Seamlessly integrate the face from the portrait image into this travel scene in " +++ d_name destination +++ ". 

CRITICAL REQUIREMENTS:
- Preserve the EXACT facial features, skin tone, and characteristics from the portrait
- Maintain natural facial proportions and expressions
- Blend the face naturally with appropriate lighting that matches the scene
- Ensure realistic shadows and highlights on the face
- Create a natural, believable integration that looks like the person is actually there
- Maintain high photographic quality and realism
- The person should appear naturally enjoying the travel destination

The result should look like a genuine travel photo of the person at this location, with perfect face preservation and natural integration.".

Definition instantIDPrompt (destination : Destination) : string :=
  "[InstantID Technology] Create a photorealistic travel photo using InstantID face preservation technology. Place the person from the reference images in " +++ d_description destination +++ " in " +++ d_name destination +++ ". 

CRITICAL REQUIREMENTS:
- Use InstantID to maintain EXACT facial identity from reference images
- Preserve facial structure, features, skin tone, and unique characteristics
- Generate natural travel photography with authentic poses and expressions
- Ensure seamless integration with the destination environment
- Apply proper lighting and shadows that match the location
- Create high-quality, professional travel photography composition

The person should appear naturally enjoying the destination with realistic travel poses. Maintain photographic realism with professional travel photography aesthetics.".

Definition photoMakerPrompt (destination : Destination) : string :=
  "[PhotoMaker Technology] Create a photorealistic travel photo using PhotoMaker's advanced identity preservation. Place the person from the reference images in " +++ d_description destination +++ " in " +++ d_name destination +++ ".

PHOTOMAKER REQUIREMENTS:
- Use PhotoMaker's stochastic identity mixing for consistent facial features
- Preserve unique facial characteristics, expressions, and identity markers
- Generate natural travel photography with authentic poses and lighting
- Ensure seamless integration with the destination environment
- Apply realistic shadows, reflections, and environmental lighting
- Create professional travel photography composition with depth and atmosphere

The person should appear naturally enjoying the destination with realistic travel poses and expressions. Maintain photographic realism with professional travel photography aesthetics.".

Definition photoMakerStyleSuffix (customPrompt : string) : string :=
  "

Additional Style Requirements: " +++ trim customPrompt.

Definition trainingPath (u : User) (t i : nat) (image : PreviewImage) : string :=
  "lora-training/" +++ user_id u +++ "/" +++ Number_toString t +++ "-" +++ Number_toString i +++ "-" +++ file_name (img_file image).

Definition originalPath (u : User) (t : nat) (selectedFile : File) : string :=
  "originals/" +++ user_id u +++ "/" +++ Number_toString t +++ "-" +++ file_name selectedFile.

Definition instantIDPath (u : User) (t i : nat) (image : PreviewImage) : string :=
  "instant-id/" +++ user_id u +++ "/" +++ Number_toString t +++ "-" +++ Number_toString i +++ "-" +++ file_name (img_file image).

Definition photoMakerPath (u : User) (t i : nat) (image : PreviewImage) : string :=
  "photomaker/" +++ user_id u +++ "/" +++ Number_toString t +++ "-" +++ Number_toString i +++ "-" +++ file_name (img_file image).

Definition portraitPath (u : User) (t : nat) (facePortrait : FacePortrait) : string :=
  "face-portraits/" +++ user_id u +++ "/" +++ Number_toString t +++ "-" +++ file_name (img_file facePortrait).

Definition modelId (u : User) (t : nat) : string :=
  "lora_" +++ Number_toString t +++ "_" +++ slice_last 8 (user_id u).

Definition modelName (date : string) : string :=
  "Personal LoRA Model - " +++ date.

Definition genId (t index : nat) : string :=
  "gen_" +++ Number_toString t +++ "_" +++ Number_toString index.

Definition loraGenId (t index : nat) : string :=
  "lora_gen_" +++ Number_toString t +++ "_" +++ Number_toString index.

Definition instantGenId (t index : nat) : string :=
  "instant_gen_" +++ Number_toString t +++ "_" +++ Number_toString index.

Definition photoMakerGenId (t index : nat) : string :=
  "photomaker_gen_" +++ Number_toString t +++ "_" +++ Number_toString index.

Definition faceSwapGenId (t index : nat) : string :=
  "faceswap_gen_" +++ Number_toString t +++ "_" +++ Number_toString index.

Definition travelToast (data : list AiImage) (destination : Destination) : string :=
  Number_toString (List.length data) +++ " travel photo" +++ (if (1 <? List.length data)%nat then "s" else EmptyString) +++ " generated for " +++ d_name destination +++ "!".

Definition loraToast (data : list AiImage) (destination : Destination) : string :=
  Number_toString (List.length data) +++ " travel photos generated using your LoRA model for " +++ d_name destination +++ "!".

Definition instantIDToast (data : list AiImage) (destination : Destination) : string :=
  "🎉 " +++ Number_toString (List.length data) +++ " InstantID travel photos generated for " +++ d_name destination +++ "!".

Definition photoMakerToast (data : list AiImage) (destination : Destination) : string :=
  "ðŸŽ‰ " +++ Number_toString (List.length data) +++ " PhotoMaker travel photos generated for " +++ d_name destination +++ "!".

Definition faceSwapToast (finalData : list AiImage) (destination : Destination) : string :=
  "ðŸŽ‰ " +++ Number_toString (List.length finalData) +++ " face-swapped travel photos generated for " +++ d_name destination +++ "!".

Definition trainingCompletedToast : string :=
  "üéâ LoRA model training completed! Your personalized AI model is ready to generate travel photos that perfectly preserve your facial features.".


(** ** [App]: the handlers of the root component *)

(** [setGeneratedImages(prev => f(prev))] and
    [setCurrentModel(prev => prev ? f(prev) : null)]: updaters run on the
    live cell. *)
Definition updateGeneratedImages
    (f : list GeneratedImage -> list GeneratedImage) : M unit :=
  cur <- getApp ;; set (setGeneratedImages (f (generatedImages cur))).

Definition updateCurrentModel (f : LoRAModel -> LoRAModel) : M unit :=
  cur <- getApp ;; set (setCurrentModel (option_map f (currentModel cur))).

(** [{ ...m, progress: p }] and [{ ...m, status: st }]. *)
Definition with_progress (p : Q) (m : LoRAModel) : LoRAModel :=
  mkLoRAModel (lm_id m) (lm_name m) (lm_status m) (lm_trainingImages m)
              (lm_createdAt m) (Some p).

Definition with_status (st : ModelStatus) (m : LoRAModel) : LoRAModel :=
  mkLoRAModel (lm_id m) (lm_name m) st (lm_trainingImages m)
              (lm_createdAt m) (lm_progress m).

Definition removeTrainingImage (id : string) : M unit :=
  cur <- getApp ;;
  let prev := trainingImages cur in
  match find (fun img => String.eqb (img_id img) id) prev with
  | Some imageToRemove => URL_revokeObjectURL (img_url imageToRemove)
  | None => ret tt
  end ;;
  set (setTrainingImages
         (filter (fun img => negb (String.eqb (img_id img) id)) prev)).

Definition clearTrainingImages : M unit :=
  s <- getApp ;;
  forEach (trainingImages s) (fun img => URL_revokeObjectURL (img_url img)) ;;
  set (setTrainingImages []).

Definition trainingSteps : list (Q * string) :=
  [ (60, "Learning facial features...");
    (70, "Training on different angles...");
    (80, "Optimizing feature weights...");
    (90, "Finalizing model parameters...") ].

(** The upload loop of [trainLoRAModel], with [uploadedUrls] its local
    array. *)
Definition uploadTrainingImages (u : User)
    (trainingImages : list TrainingImage) : M (list string) :=
  for_i trainingImages 0 (fun i image uploadedUrls =>
    set (setTrainingProgress (fraction i (List.length trainingImages) 25)) ;;
    t <- Date_now ;;
    r <- blink_storage_upload (img_file image) (trainingPath u t i image) true ;;
    ret (uploadedUrls ++ [publicUrl r])) [].

Definition trainLoRAModel : M unit :=
  s <- getApp ;;
  let trainingImages := trainingImages s in
  if (List.length trainingImages <? 5)%nat then
    toast_error "Please upload at least 5 images to train a model"
  else
  match user s with
  | None => ret tt
  | Some u =>
    set (setIsTrainingModel true) ;;
    set (setTrainingProgress 0) ;;
    try_catch_finally
      ((* Phase 1: Upload training images (0-25%) *)
       toast_success "Starting LoRA model training..." ;;
       uploadedUrls <- uploadTrainingImages u trainingImages ;;
       (* Phase 2: Initialize model (25-35%) *)
       set (setTrainingProgress 30) ;;
       t <- Date_now ;;
       date <- new_Date_toLocaleDateString ;;
       createdAt <- new_Date_toISOString ;;
       let newModel :=
         mkLoRAModel (modelId u t) (modelName date) training uploadedUrls
                     createdAt (Some 30) in
       set (setCurrentModel (Some newModel)) ;;
       (* Phase 3: Feature extraction and preprocessing (35-50%) *)
       sleep 1500 ;;
       set (setTrainingProgress 40) ;;
       updateCurrentModel (with_progress 40) ;;
       sleep 1500 ;;
       set (setTrainingProgress 50) ;;
       updateCurrentModel (with_progress 50) ;;
       (* Phase 4: LoRA training iterations (50-90%) *)
       forEach trainingSteps (fun step =>
         sleep 2500 ;;
         set (setTrainingProgress (fst step)) ;;
         updateCurrentModel (with_progress (fst step)) ;;
         toast_success (snd step)) ;;
       (* Phase 5: Model validation and completion (90-100%) *)
       sleep 2000 ;;
       set (setTrainingProgress 95) ;;
       updateCurrentModel (with_progress 95) ;;
       sleep 1500 ;;
       set (setTrainingProgress 100) ;;
       (* Mark model as ready *)
       let completedModel := with_progress 100 (with_status ready newModel) in
       set (setCurrentModel (Some completedModel)) ;;
       set (setUseCustomModel true) ;;
       toast_success trainingCompletedToast)
      (fun error =>
         console_error "Training error:" error ;;
         toast_error "Failed to train LoRA model. Please try again." ;;
         updateCurrentModel (with_status failed))
      (set (setIsTrainingModel false) ;;
       set (setTrainingProgress 0))
  end.

(** [currentModel?.status === 'ready']. *)
Definition model_ready (m : option LoRAModel) : bool :=
  match m with
  | Some m => ModelStatus_eqb (lm_status m) ready
  | None => false
  end.

Definition generateTravelPhoto : M unit :=
  s <- getApp ;;
  match selectedFile s, truthy (selectedDestination s), user s with
  | Some selectedFile, true, Some u =>
    set (setIsGenerating true) ;;
    set (setGenerationProgress 0) ;;
    try_catch_finally
      ((* Upload the original image to storage *)
       t <- Date_now ;;
       r <- blink_storage_upload selectedFile
              (originalPath u t selectedFile) true ;;
       let originalImageUrl := publicUrl r in
       set (setGenerationProgress 25) ;;
       (* Get destination info *)
       destination <-
         require_destination TRAVEL_DESTINATIONS (selectedDestination s) ;;
       set (setGenerationProgress 50) ;;
       let prompt :=
         if useCustomModel s && model_ready (currentModel s)
         then loraEnhancedPrompt destination
         else travelPrompt destination in
       resp <- blink_ai_modifyImage
                 (mkModifyImageRequest [originalImageUrl] prompt "high"
                    "1024x1024" (if generateMultiple s then 3 else 1)) ;;
       set (setGenerationProgress 75) ;;
       match data resp with
       | Some ((_ :: _) as data) =>
           newImages <-
             map_i data 0 (fun img index =>
               t <- Date_now ;;
               createdAt <- new_Date_toISOString ;;
               ret (mkGeneratedImage (genId t index) (url img)
                      (d_name destination) originalImageUrl None createdAt)) ;;
           updateGeneratedImages (fun prev => newImages ++ prev) ;;
           set (setGenerationProgress 100) ;;
           toast_success (travelToast data destination)
       | _ => throw (Error "Failed to generate image")
       end)
      (fun error =>
         console_error "Generation error:" error ;;
         toast_error "Failed to generate travel photo. Please try again.")
      (set (setIsGenerating false) ;;
       set (setGenerationProgress 0))
  | _, _, _ => ret tt
  end.

Definition generateWithLoRAModel : M unit :=
  s <- getApp ;;
  match truthy (selectedDestination s), user s, model_ready (currentModel s) with
  | true, Some u, true =>
    set (setIsGenerating true) ;;
    set (setGenerationProgress 0) ;;
    try_catch_finally
      ((* Get destination info *)
       destination <-
         require_destination TRAVEL_DESTINATIONS (selectedDestination s) ;;
       set (setGenerationProgress 25) ;;
       let prompt := loraGenerationPrompt destination in
       set (setGenerationProgress 50) ;;
       resp <- blink_ai_generateImage
                 (mkGenerateImageRequest prompt "high" "1024x1024" 3) ;;
       set (setGenerationProgress 75) ;;
       match data resp with
       | Some ((_ :: _) as data) =>
           newImages <-
             map_i data 0 (fun img index =>
               t <- Date_now ;;
               createdAt <- new_Date_toISOString ;;
               ret (mkGeneratedImage (loraGenId t index) (url img)
                      (d_name destination) EmptyString None createdAt)) ;;
           updateGeneratedImages (fun prev => newImages ++ prev) ;;
           set (setGenerationProgress 100) ;;
           toast_success (loraToast data destination)
       | _ => throw (Error "Failed to generate image")
       end)
      (fun error =>
         console_error "LoRA generation error:" error ;;
         toast_error
           "Failed to generate travel photos with LoRA model. Please try again.")
      (set (setIsGenerating false) ;;
       set (setGenerationProgress 0))
  | _, _, _ => ret tt
  end.

Definition handleInstantIDImageGenerated (image : GeneratedImage) : M unit :=
  updateGeneratedImages (fun prev => image :: prev).

(** ** Props of the three generation modules *)

Record Props := mkProps {
  p_user : User;
  p_selectedDestination : string;
  p_TRAVEL_DESTINATIONS : list Destination;
  onImageGenerated : GeneratedImage -> M unit }.

(** The props [App] passes when it mounts a module. *)
Definition App_props (u : User) (sel : string) : Props :=
  mkProps u sel TRAVEL_DESTINATIONS handleInstantIDImageGenerated.

(** ** [InstantIDModule] *)

Module InstantIDModule.

Definition removeReferenceImage (id : string) : M unit :=
  cur <- getInstantID ;;
  let prev := iid_referenceImages cur in
  match find (fun img => String.eqb (img_id img) id) prev with
  | Some imageToRemove => URL_revokeObjectURL (img_url imageToRemove)
  | None => ret tt
  end ;;
  set (InstantID_setReferenceImages
         (filter (fun img => negb (String.eqb (img_id img) id)) prev)).

Definition clearReferenceImages : M unit :=
  s <- getInstantID ;;
  forEach (iid_referenceImages s)
          (fun img => URL_revokeObjectURL (img_url img)) ;;
  set (InstantID_setReferenceImages []).

(** The upload loop of [generateWithInstantID], with [uploadedUrls] its
    local array. *)
Definition uploadReferenceImages (user : User)
    (referenceImages : list InstantIDImage) : M (list string) :=
  for_i referenceImages 0 (fun i image uploadedUrls =>
    set (InstantID_setGenerationProgress
           (fraction i (List.length referenceImages) 30)) ;;
    t <- Date_now ;;
    r <- blink_storage_upload (img_file image)
           (instantIDPath user t i image) true ;;
    ret (uploadedUrls ++ [publicUrl r])) [].

(** [user] is an object, so [!user] is false and only the first two
    guards can fire. *)
Definition generateWithInstantID (props : Props) : M unit :=
  s <- getInstantID ;;
  let referenceImages := iid_referenceImages s in
  let user := p_user props in
  let selectedDestination := p_selectedDestination props in
  if (List.length referenceImages =? 0)%nat || negb (truthy selectedDestination)
  then ret tt
  else
    set (InstantID_setIsGenerating true) ;;
    set (InstantID_setGenerationProgress 0) ;;
    try_catch_finally
      ((* Phase 1: Upload reference images (0-30%) *)
       toast_success "Uploading reference images..." ;;
       uploadedUrls <- uploadReferenceImages user referenceImages ;;
       set (InstantID_setGenerationProgress 40) ;;
       (* Get destination info *)
       destination <-
         require_destination (p_TRAVEL_DESTINATIONS props) selectedDestination ;;
       set (InstantID_setGenerationProgress 50) ;;
       (* Phase 2: Generate with InstantID technology *)
       toast_success "Processing with InstantID..." ;;
       let instantIDPrompt := instantIDPrompt destination in
       set (InstantID_setGenerationProgress 70) ;;
       resp <- blink_ai_modifyImage
                 (mkModifyImageRequest uploadedUrls instantIDPrompt "high"
                    "1024x1024" 3) ;;
       set (InstantID_setGenerationProgress 90) ;;
       match data resp with
       | Some ((_ :: _) as data) =>
           newImages <-
             map_i data 0 (fun img index =>
               t <- Date_now ;;
               createdAt <- new_Date_toISOString ;;
               ret (mkGeneratedImage (instantGenId t index) (url img)
                      (d_name destination) EmptyString (Some uploadedUrls) createdAt)) ;;
           (* Add to parent component's state *)
           forEach newImages (fun img => onImageGenerated props img) ;;
           set (InstantID_setGenerationProgress 100) ;;
           toast_success (instantIDToast data destination)
       | _ => throw (Error "Failed to generate images")
       end)
      (fun error =>
         console_error "InstantID generation error:" error ;;
         toast_error "Failed to generate InstantID photos. Please try again.")
      (set (InstantID_setIsGenerating false) ;;
       set (InstantID_setGenerationProgress 0)).

End InstantIDModule.

(** ** [PhotoMakerModule] *)

Module PhotoMakerModule.

Definition removeReferenceImage (id : string) : M unit :=
  cur <- getPhotoMaker ;;
  let prev := pm_referenceImages cur in
  match find (fun img => String.eqb (img_id img) id) prev with
  | Some imageToRemove => URL_revokeObjectURL (img_url imageToRemove)
  | None => ret tt
  end ;;
  set (PhotoMaker_setReferenceImages
         (filter (fun img => negb (String.eqb (img_id img) id)) prev)).

Definition clearReferenceImages : M unit :=
  s <- getPhotoMaker ;;
  forEach (pm_referenceImages s)
          (fun img => URL_revokeObjectURL (img_url img)) ;;
  set (PhotoMaker_setReferenceImages []).

(** The upload loop of [generateWithPhotoMaker]. *)
Definition uploadReferenceImages (user : User)
    (referenceImages : list PhotoMakerImage) : M (list string) :=
  for_i referenceImages 0 (fun i image uploadedUrls =>
    set (PhotoMaker_setGenerationProgress
           (fraction i (List.length referenceImages) 25)) ;;
    t <- Date_now ;;
    r <- blink_storage_upload (img_file image)
           (photoMakerPath user t i image) true ;;
    ret (uploadedUrls ++ [publicUrl r])) [].

Definition generateWithPhotoMaker (props : Props) : M unit :=
  s <- getPhotoMaker ;;
  let referenceImages := pm_referenceImages s in
  let customPrompt := pm_customPrompt s in
  let generateMultiple := pm_generateMultiple s in
  let user := p_user props in
  let selectedDestination := p_selectedDestination props in
  if (List.length referenceImages =? 0)%nat || negb (truthy selectedDestination)
  then ret tt
  else
    set (PhotoMaker_setIsGenerating true) ;;
    set (PhotoMaker_setGenerationProgress 0) ;;
    try_catch_finally
      ((* Phase 1: Upload reference images (0-25%) *)
       toast_success "Uploading reference images..." ;;
       uploadedUrls <- uploadReferenceImages user referenceImages ;;
       set (PhotoMaker_setGenerationProgress 35) ;;
       (* Get destination info *)
       destination <-
         require_destination (p_TRAVEL_DESTINATIONS props) selectedDestination ;;
       set (PhotoMaker_setGenerationProgress 45) ;;
       (* Phase 2: Generate with PhotoMaker technology *)
       toast_success "Processing with PhotoMaker..." ;;
       let photoMakerPrompt :=
         if truthy (trim customPrompt)
         then photoMakerPrompt destination +++ photoMakerStyleSuffix customPrompt
         else photoMakerPrompt destination in
       set (PhotoMaker_setGenerationProgress 60) ;;
       resp <- blink_ai_modifyImage
                 (mkModifyImageRequest uploadedUrls photoMakerPrompt "high"
                    "1024x1024" (if generateMultiple then 4 else 2)) ;;
       set (PhotoMaker_setGenerationProgress 85) ;;
       match data resp with
       | Some ((_ :: _) as data) =>
           newImages <-
             map_i data 0 (fun img index =>
               t <- Date_now ;;
               createdAt <- new_Date_toISOString ;;
               ret (mkGeneratedImage (photoMakerGenId t index) (url img)
                      (d_name destination) EmptyString (Some uploadedUrls) createdAt)) ;;
           (* Add to parent component's state *)
           forEach newImages (fun img => onImageGenerated props img) ;;
           set (PhotoMaker_setGenerationProgress 100) ;;
           toast_success (photoMakerToast data destination)
       | _ => throw (Error "Failed to generate images")
       end)
      (fun error =>
         console_error "PhotoMaker generation error:" error ;;
         toast_error "Failed to generate PhotoMaker photos. Please try again.")
      (set (PhotoMaker_setIsGenerating false) ;;
       set (PhotoMaker_setGenerationProgress 0)).

End PhotoMakerModule.

(** ** [FaceSwapModule] *)

Module FaceSwapModule.

Definition generateWithFaceSwap (props : Props) : M unit :=
  s <- getFaceSwap ;;
  let user := p_user props in
  let selectedDestination := p_selectedDestination props in
  match fs_facePortrait s, truthy selectedDestination with
  | Some facePortrait, true =>
    set (FaceSwap_setIsGenerating true) ;;
    set (FaceSwap_setGenerationProgress 0) ;;
    try_catch_finally
      ((* Phase 1: Upload face portrait (0-20%) *)
       toast_success "Uploading face portrait..." ;;
       t <- Date_now ;;
       r <- blink_storage_upload (img_file facePortrait)
              (portraitPath user t facePortrait) true ;;
       let portraitUrl := publicUrl r in
       set (FaceSwap_setGenerationProgress 25) ;;
       (* Get destination info *)
       destination <-
         require_destination (p_TRAVEL_DESTINATIONS props) selectedDestination ;;
       set (FaceSwap_setGenerationProgress 40) ;;
       (* Phase 2: Generate base travel scene (40-60%) *)
       toast_success "Generating travel scene..." ;;
       sceneResp <- blink_ai_generateImage
                      (mkGenerateImageRequest (scenePrompt destination) "high"
                         "1024x1024" 1) ;;
       match data sceneResp with
       | Some (scene0 :: _) =>
           set (FaceSwap_setGenerationProgress 65) ;;
           (* Phase 3: Face swap integration (65-90%) *)
           toast_success "Performing face swap integration..." ;;
           finalResp <- blink_ai_modifyImage
                          (mkModifyImageRequest [url scene0; portraitUrl]
                             (faceSwapPrompt destination) "high"
                             "1024x1024" 3) ;;
           set (FaceSwap_setGenerationProgress 90) ;;
           match data finalResp with
           | Some ((_ :: _) as finalData) =>
               newImages <-
                 map_i finalData 0 (fun img index =>
                   t <- Date_now ;;
                   createdAt <- new_Date_toISOString ;;
                   ret (mkGeneratedImage (faceSwapGenId t index) (url img)
                          (d_name destination) portraitUrl None createdAt)) ;;
               (* Add to parent component's state *)
               forEach newImages (fun img => onImageGenerated props img) ;;
               set (FaceSwap_setGenerationProgress 100) ;;
               toast_success (faceSwapToast finalData destination)
           | _ => throw (Error "Failed to generate face-swapped images")
           end
       | _ => throw (Error "Failed to generate travel scene")
       end)
      (fun error =>
         console_error "Face swap generation error:" error ;;
         toast_error "Failed to generate face-swapped photos. Please try again.")
      (set (FaceSwap_setIsGenerating false) ;;
       set (FaceSwap_setGenerationProgress 0))
  | _, _ => ret tt
  end.

End FaceSwapModule.

(** ** The multi-file inputs *)

(** [file.type.startsWith('image/')]. *)
Definition is_image (file : File) : bool := prefix "image/" (file_type file).

(** The logical time of the next effect. *)
Definition logical_time : M nat := fun _ w => mkRun (inr (tick w)) w [].

Section FileInputs.

(** The two browser calls of the file inputs that leave no event:
    [Math.random().toString(36).substr(2, 9)] and
    [URL.createObjectURL(file)], by the logical time of the call. *)
Variable Math_random_toString36_substr : nat -> string.
Variable URL_createObjectURL : nat -> File -> string.

(** [handleMultipleFileSelect] of [App]; [files] is [e.target.files]. *)
Definition handleMultipleFileSelect (files : option (list File)) : M unit :=
  match files with
  | Some files =>
      let imageFiles := filter is_image files in
      (if negb (List.length imageFiles =? List.length files)%nat
       then toast_error "Some files were skipped. Only image files are allowed."
       else ret tt) ;;
      newTrainingImages <-
        map_i imageFiles 0 (fun file _ =>
          t <- Date_now ;;
          k <- logical_time ;;
          ret (mkPreviewImage
                 ("img_" +++ Number_toString t +++ "_" +++
                  Math_random_toString36_substr k)
                 file (URL_createObjectURL k file) None)) ;;
      (cur <- getApp ;;
       set (setTrainingImages (trainingImages cur ++ newTrainingImages))) ;;
      toast_success ("Added " +++ Number_toString (List.length imageFiles) +++
                     " images to training dataset")
  | None => ret tt
  end.

(** [handleFileSelect] of [InstantIDModule]. *)
Definition InstantID_handleFileSelect (files : option (list File)) : M unit :=
  match files with
  | Some files =>
      let imageFiles := filter is_image files in
      (if negb (List.length imageFiles =? List.length files)%nat
       then toast_error "Some files were skipped. Only image files are allowed."
       else ret tt) ;;
      newImages <-
        map_i imageFiles 0 (fun file _ =>
          t <- Date_now ;;
          k <- logical_time ;;
          ret (mkPreviewImage
                 ("instant_" +++ Number_toString t +++ "_" +++
                  Math_random_toString36_substr k)
                 file (URL_createObjectURL k file) None)) ;;
      (cur <- getInstantID ;;
       set (InstantID_setReferenceImages
              (iid_referenceImages cur ++ newImages))) ;;
      toast_success ("Added " +++ Number_toString (List.length imageFiles) +++
                     " reference images")
  | None => ret tt
  end.

(** [handleFileSelect] of [PhotoMakerModule]. *)
Definition PhotoMaker_handleFileSelect (files : option (list File)) : M unit :=
  match files with
  | Some files =>
      let imageFiles := filter is_image files in
      (if negb (List.length imageFiles =? List.length files)%nat
       then toast_error "Some files were skipped. Only image files are allowed."
       else ret tt) ;;
      newImages <-
        map_i imageFiles 0 (fun file _ =>
          t <- Date_now ;;
          k <- logical_time ;;
          ret (mkPreviewImage
                 ("photomaker_" +++ Number_toString t +++ "_" +++
                  Math_random_toString36_substr k)
                 file (URL_createObjectURL k file) None)) ;;
      (cur <- getPhotoMaker ;;
       set (PhotoMaker_setReferenceImages
              (pm_referenceImages cur ++ newImages))) ;;
      toast_success ("Added " +++ Number_toString (List.length imageFiles) +++
                     " reference images")
  | None => ret tt
  end.

End FileInputs.

(** ** The single-file inputs *)

(** [setSelectedFile] and [setFacePortrait]: the cell changes; the trace
    has no event for these two setters. *)
Definition setSelectedFile (file : option File) : M unit :=
  fun _ w =>
    let s := app (ui w) in
    mkRun (inr tt)
          (mkWorld
             (mkUI (mkAppState (user s) file (selectedDestination s)
                      (isGenerating s) (generationProgress s)
                      (generatedImages s) (generateMultiple s)
                      (trainingImages s) (currentModel s) (isTrainingModel s)
                      (trainingProgress s) (useCustomModel s))
                   (instantID (ui w)) (photoMaker (ui w)) (faceSwap (ui w)))
             (tick w))
          [].

Definition setFacePortrait (portrait : option FacePortrait) : M unit :=
  fun _ w =>
    let s := faceSwap (ui w) in
    mkRun (inr tt)
          (mkWorld
             (mkUI (app (ui w)) (instantID (ui w)) (photoMaker (ui w))
                   (mkFaceSwapState portrait (fs_isGenerating s)
                                    (fs_generationProgress s)))
             (tick w))
          [].

(** [handleFileSelect] of [App]; [files] is [e.target.files]. *)
Definition handleFileSelect (files : option (list File)) : M unit :=
  match files with
  | Some (file :: _) =>
      if is_image file then setSelectedFile (Some file)
      else toast_error "Please upload an image file"
  | _ => ret tt
  end.

Section PortraitInput.

Variable URL_createObjectURL : nat -> File -> string.

(** [handleFileSelect] of [FaceSwapModule]. *)
Definition FaceSwap_handleFileSelect (files : option (list File)) : M unit :=
  match files with
  | Some (file :: _) =>
      if is_image file then
        t <- Date_now ;;
        k <- logical_time ;;
        let newPortrait :=
          mkPreviewImage ("portrait_" +++ Number_toString t) file
                         (URL_createObjectURL k file) None in
        setFacePortrait (Some newPortrait) ;;
        toast_success "Face portrait uploaded successfully!"
      else toast_error "Please upload an image file"
  | _ => ret tt
  end.

End PortraitInput.

(** [removeFacePortrait] of [FaceSwapModule]. *)
Definition removeFacePortrait : M unit :=
  s <- getFaceSwap ;;
  match fs_facePortrait s with
  | Some facePortrait =>
      URL_revokeObjectURL (img_url facePortrait) ;;
      setFacePortrait None
  | None => ret tt
  end.

(** * Specifications *)

Local Open Scope nat_scope.

(** ** Observing a run *)

Definition is_upload (e : Event) : bool :=
  match e with StorageUpload _ _ _ _ => true | _ => false end.

Definition is_ai (e : Event) : bool :=
  match e with
  | AiGenerateImage _ _ | AiModifyImage _ _ => true
  | _ => false
  end.

(** Calls that leave the browser for the hosted platform. *)
Definition is_external (e : Event) : bool := is_upload e || is_ai e.

(** [select view tr]: what [view] retains of each event, in order. *)
Definition select {A} (view : Event -> list A) (tr : list Event) : list A :=
  flat_map view tr.

Definition external_calls : list Event -> list Event :=
  select (fun e => if is_external e then [e] else []).

Definition ai_calls : list Event -> list Event :=
  select (fun e => if is_ai e then [e] else []).

(** Each upload as (file, upsert flag, outcome), in call order. *)
Definition uploads : list Event -> list (File * bool * (Exn + UploadResult)) :=
  select (fun e => match e with
                   | StorageUpload f _ b r => [(f, b, r)]
                   | _ => []
                   end).

Definition timeouts : list Event -> list nat :=
  select (fun e => match e with SetTimeout ms => [ms] | _ => [] end).

Definition set_calls : list Event -> list SetCall :=
  select (fun e => match e with SetState c => [c] | _ => [] end).

Definition revoked : list Event -> list string :=
  select (fun e => match e with RevokeObjectURL u => [u] | _ => [] end).

Definition console_errors : list Event -> list (string * Exn) :=
  select (fun e => match e with ConsoleError l x => [(l, x)] | _ => [] end).

(** The lists handed to [setGeneratedImages]. *)
Definition image_updates : list Event -> list (list GeneratedImage) :=
  select (fun e => match e with
                   | SetState (setGeneratedImages l) => [l]
                   | _ => []
                   end).

(** Every oracle answer recorded in [evs], a run that started at logical
    time [n], is the answer the environment gives at the time of the call:
    a call is issued only after all earlier effects are over. *)
Fixpoint answered (env : Env) (n : nat) (evs : list Event) : Prop :=
  match evs with
  | [] => True
  | e :: rest =>
      match e with
      | StorageUpload f p b r => r = storage_upload env n f p b
      | AiGenerateImage req r => r = ai_generateImage env n req
      | AiModifyImage req r => r = ai_modifyImage env n req
      | DateNow t => t = date_now env n
      | _ => True
      end /\ answered env (S n) rest
  end.

(** ** The upload loops *)

Section UploadLoop.

Variable mk : Q -> SetCall.
Variable k : Q.
Variable n : nat.
Variable path : nat -> nat -> PreviewImage -> string.

(** The common shape of the three loop bodies. *)
Definition upload_step (i : nat) (image : PreviewImage)
    (uploadedUrls : list string) : M (list string) :=
  set (mk (fraction i n k)) ;;
  t <- Date_now ;;
  r <- blink_storage_upload (img_file image) (path t i image) true ;;
  ret (uploadedUrls ++ [publicUrl r]).

(** [loop_run i imgs acc evs res]: started at index [i] with [acc]
    already collected, the loop over [imgs] emits [evs] and ends in [res];
    it stops at the first rejected upload. *)
Inductive loop_run : nat -> list PreviewImage -> list string ->
                     list Event -> Exn + list string -> Prop :=
| loop_done i acc : loop_run i [] acc [] (inr acc)
| loop_next i img imgs acc t r evs res :
    loop_run (S i) imgs (acc ++ [publicUrl r]) evs res ->
    loop_run i (img :: imgs) acc
      (SetState (mk (fraction i n k)) :: DateNow t ::
       StorageUpload (img_file img) (path t i img) true (inr r) :: evs) res
| loop_stop i img imgs acc t e :
    loop_run i (img :: imgs) acc
      [SetState (mk (fraction i n k)); DateNow t;
       StorageUpload (img_file img) (path t i img) true (inl e)] (inl e).

End UploadLoop.

(** ** [trainLoRAModel]: the whole run *)

Definition training_prologue : list Event :=
  [ SetState (setIsTrainingModel true);
    SetState (setTrainingProgress 0);
    ToastSuccess "Starting LoRA model training..." ].

(** What [trainLoRAModel] does once the model record [m] is built: fixed
    delays, fixed progress values, and no call that leaves the browser. *)
Definition simulated_training (m : LoRAModel) : list Event :=
  [ SetState (setCurrentModel (Some m));
    SetTimeout 1500;
    SetState (setTrainingProgress 40);
    SetState (setCurrentModel (Some (with_progress 40 m)));
    SetTimeout 1500;
    SetState (setTrainingProgress 50);
    SetState (setCurrentModel (Some (with_progress 50 m)));
    SetTimeout 2500;
    SetState (setTrainingProgress 60);
    SetState (setCurrentModel (Some (with_progress 60 m)));
    ToastSuccess "Learning facial features...";
    SetTimeout 2500;
    SetState (setTrainingProgress 70);
    SetState (setCurrentModel (Some (with_progress 70 m)));
    ToastSuccess "Training on different angles...";
    SetTimeout 2500;
    SetState (setTrainingProgress 80);
    SetState (setCurrentModel (Some (with_progress 80 m)));
    ToastSuccess "Optimizing feature weights...";
    SetTimeout 2500;
    SetState (setTrainingProgress 90);
    SetState (setCurrentModel (Some (with_progress 90 m)));
    ToastSuccess "Finalizing model parameters...";
    SetTimeout 2000;
    SetState (setTrainingProgress 95);
    SetState (setCurrentModel (Some (with_progress 95 m)));
    SetTimeout 1500;
    SetState (setTrainingProgress 100);
    SetState (setCurrentModel (Some (with_progress 100 (with_status ready m))));
    SetState (setUseCustomModel true);
    ToastSuccess trainingCompletedToast ].

Definition training_failure (e : Exn) (prev : option LoRAModel) : list Event :=
  [ ConsoleError "Training error:" e;
    ToastError "Failed to train LoRA model. Please try again.";
    SetState (setCurrentModel (option_map (with_status failed) prev)) ].

Definition training_epilogue : list Event :=
  [ SetState (setIsTrainingModel false); SetState (setTrainingProgress 0) ].

(** The events after the upload loop, by its outcome. *)
Definition training_tail (env : Env) (u : User) (prev : option LoRAModel)
    (res : Exn + list string) (t t2 t3 : nat) : list Event :=
  match res with
  | inr urls =>
      [SetState (setTrainingProgress 30); DateNow t; DateNow t2; DateNow t3] ++
      simulated_training
        (mkLoRAModel (modelId u t) (modelName (toLocaleDateString env t2))
                     training urls (toISOString env t3) (Some 30%Q)) ++
      training_epilogue
  | inl e => training_failure e prev ++ training_epilogue
  end.

Definition trained_model (env : Env) (u : User) (urls : list string)
    (t t2 t3 : nat) : LoRAModel :=
  mkLoRAModel (modelId u t) (modelName (toLocaleDateString env t2)) ready urls
              (toISOString env t3) (Some 100%Q).

(** ** Sample inputs *)

(** A platform on which every call succeeds. *)
Definition env_ok : Env :=
  mkEnv (fun _ _ p _ => inr (mkUploadResult ("https://cdn/" +++ p)))
        (fun _ _ => inr (mkAiResponse (Some [mkAiImage "https://ai/scene"])))
        (fun _ _ => inr (mkAiResponse
                           (Some [mkAiImage "https://ai/1"; mkAiImage "https://ai/2"])))
        (fun n => 1000 + n) Number_toString Number_toString.

(** A platform whose storage rejects every upload. *)
Definition env_storage_down : Env :=
  mkEnv (fun _ _ _ _ => inl (Error "storage unavailable"))
        (ai_generateImage env_ok) (ai_modifyImage env_ok)
        (date_now env_ok) Number_toString Number_toString.

Definition sample_image (name : string) : PreviewImage :=
  mkPreviewImage ("img_" +++ name) (mkFile (name +++ ".png") "image/png")
                 ("blob:" +++ name) None.

Definition alice : User := mkUser "user-0001-alice" "alice@example.org" None.

Definition sample_app : AppState :=
  mkAppState (Some alice) (Some (mkFile "me.png" "image/png")) "paris" false 0
             [] false
             [sample_image "a"; sample_image "b"; sample_image "c";
              sample_image "d"; sample_image "e"]
             None false 0 false.

Definition sample_world : World :=
  mkWorld (mkUI sample_app
                (mkInstantIDState [sample_image "r1"; sample_image "r2"] false 0)
                (mkPhotoMakerState [sample_image "r1"] false 0 "  sunny " true)
                (mkFaceSwapState (Some (sample_image "face")) false 0))
          0.

(** The same session with only four training images. *)
Definition four_images_world : World :=
  mkWorld (apply_set (setTrainingImages
                        [sample_image "a"; sample_image "b"; sample_image "c";
                         sample_image "d"]) (ui sample_world)) 0.

(** ** The progress schedule of a training run *)




(** No upload of the run was rejected. *)
Definition all_uploads_accepted (tr : list Event) : bool :=
  forallb (fun u => match snd u with inr _ => true | inl _ => false end)
          (uploads tr).

(** ** [trainLoRAModel] trains nothing *)

(** The status of every model record written to [currentModel]. *)
Definition model_statuses (tr : list Event) : list ModelStatus :=
  flat_map (fun e => match e with
                     | SetState (setCurrentModel (Some m)) => [lm_status m]
                     | _ => []
                     end) tr.





(** ** The upload loops keep the order of the images *)

(** What holds after a loop over [imgs] has returned [urls], having
    emitted [evs] from logical time [n]. *)
Definition uploaded_in_order (env : Env) (n : nat) (imgs : list PreviewImage)
    (urls : list string) (evs : list Event) : Prop :=
  List.length urls = List.length imgs /\
  uploads evs =
    combine (map (fun img => (img_file img, true)) imgs)
            (map (fun x => inr (mkUploadResult x)) urls) /\
  ai_calls evs = [] /\
  answered env n evs.

(** ** Building and delivering generated images *)

Section Stamp.

Variable mkImg : nat -> nat -> AiImage -> string -> GeneratedImage.

(** The common shape of the [data.map] callbacks: two clock readings. *)
Definition stamp_step (img : AiImage) (index : nat) : M GeneratedImage :=
  t <- Date_now ;;
  createdAt <- new_Date_toISOString ;;
  ret (mkImg t index img createdAt).

(** The records a [data.map] started at time [n] and index [i] builds. *)
Fixpoint stamp_all (env : Env) (n i : nat) (data : list AiImage)
    : list GeneratedImage :=
  match data with
  | [] => []
  | d :: rest =>
      mkImg (date_now env n) i d (toISOString env (date_now env (S n))) ::
      stamp_all env (S (S n)) (S i) rest
  end.

(** The clock readings of a [data.map] over [k] elements from time [n]. *)
Fixpoint stamp_events (env : Env) (n k : nat) : list Event :=
  match k with
  | 0 => []
  | S k' =>
      DateNow (date_now env n) :: DateNow (date_now env (S n)) ::
      stamp_events env (S (S n)) k'
  end.

End Stamp.

(** The parent's cell after [newImages.forEach(onImageGenerated)]. *)
Definition delivered (imgs : list GeneratedImage) (u : UI) : UI :=
  fold_left (fun u g =>
               apply_set (setGeneratedImages (g :: generatedImages (app u))) u)
            imgs u.

Fixpoint delivery_events (imgs old : list GeneratedImage) : list Event :=
  match imgs with
  | [] => []
  | g :: rest =>
      SetState (setGeneratedImages (g :: old)) :: delivery_events rest (g :: old)
  end.

(** ** [generateTravelPhoto]: the whole run *)

Definition generation_prologue : list Event :=
  [SetState (setIsGenerating true); SetState (setGenerationProgress 0)].

Definition generation_epilogue : list Event :=
  [SetState (setIsGenerating false); SetState (setGenerationProgress 0)].

Definition travel_failure (e : Exn) : list Event :=
  [ConsoleError "Generation error:" e;
   ToastError "Failed to generate travel photo. Please try again."].

(** The request [generateTravelPhoto] sends for destination [d]. *)
Definition travel_request (s : AppState) (d : Destination)
    (originalImageUrl : string) : ModifyImageRequest :=
  mkModifyImageRequest [originalImageUrl]
    (if useCustomModel s && model_ready (currentModel s)
     then loraEnhancedPrompt d else travelPrompt d)
    "high" "1024x1024" (if generateMultiple s then 3 else 1).

Definition travel_image (d : Destination) (originalImageUrl : string)
    (t index : nat) (img : AiImage) (createdAt : string) : GeneratedImage :=
  mkGeneratedImage (genId t index) (url img) (d_name d) originalImageUrl None
                   createdAt.

(** The events between prologue and epilogue of a run of
    [generateTravelPhoto] started at time [tk] with the state [s], and the
    images it adds: a function of what the platform answers. *)
Definition travel_outcome (env : Env) (s : AppState) (tk : nat) (f : File)
    (u : User) : list Event * list GeneratedImage :=
  let t := date_now env (2 + tk) in
  let path := originalPath u t f in
  let up := storage_upload env (3 + tk) f path true in
  let upload := [DateNow t; StorageUpload f path true up] in
  match up with
  | inl e => (upload ++ travel_failure e, [])
  | inr res =>
      match find_destination TRAVEL_DESTINATIONS (selectedDestination s) with
      | None =>
          (upload ++ SetState (setGenerationProgress 25) ::
           travel_failure (Error "Invalid destination"), [])
      | Some d =>
          let req := travel_request s d (publicUrl res) in
          let ans := ai_modifyImage env (6 + tk) req in
          let call :=
            upload ++ [SetState (setGenerationProgress 25);
                       SetState (setGenerationProgress 50);
                       AiModifyImage req ans] in
          match ans with
          | inl e => (call ++ travel_failure e, [])
          | inr resp =>
              match data resp with
              | Some ((_ :: _) as data) =>
                  let imgs :=
                    stamp_all (travel_image d (publicUrl res)) env (8 + tk) 0
                              data in
                  (call ++ SetState (setGenerationProgress 75) ::
                   stamp_events env (8 + tk) (List.length data) ++
                   [SetState (setGeneratedImages (imgs ++ generatedImages s));
                    SetState (setGenerationProgress 100);
                    ToastSuccess (travelToast data d)], imgs)
              | _ =>
                  (call ++ SetState (setGenerationProgress 75) ::
                   travel_failure (Error "Failed to generate image"), [])
              end
          end
      end
  end.

(** ** [generateWithLoRAModel]: the whole run *)

Definition lora_failure (e : Exn) : list Event :=
  [ConsoleError "LoRA generation error:" e;
   ToastError "Failed to generate travel photos with LoRA model. Please try again."].

Definition lora_request (d : Destination) : GenerateImageRequest :=
  mkGenerateImageRequest (loraGenerationPrompt d) "high" "1024x1024" 3.

Definition lora_image (d : Destination) (t index : nat) (img : AiImage)
    (createdAt : string) : GeneratedImage :=
  mkGeneratedImage (loraGenId t index) (url img) (d_name d) EmptyString None createdAt.

Definition lora_outcome (env : Env) (s : AppState) (tk : nat)
    : list Event * list GeneratedImage :=
  match find_destination TRAVEL_DESTINATIONS (selectedDestination s) with
  | None => (lora_failure (Error "Invalid destination"), [])
  | Some d =>
      let req := lora_request d in
      let ans := ai_generateImage env (4 + tk) req in
      let call := [SetState (setGenerationProgress 25);
                   SetState (setGenerationProgress 50);
                   AiGenerateImage req ans] in
      match ans with
      | inl e => (call ++ lora_failure e, [])
      | inr resp =>
          match data resp with
          | Some ((_ :: _) as data) =>
              let imgs := stamp_all (lora_image d) env (6 + tk) 0 data in
              (call ++ SetState (setGenerationProgress 75) ::
               stamp_events env (6 + tk) (List.length data) ++
               [SetState (setGeneratedImages (imgs ++ generatedImages s));
                SetState (setGenerationProgress 100);
                ToastSuccess (loraToast data d)], imgs)
          | _ =>
              (call ++ SetState (setGenerationProgress 75) ::
               lora_failure (Error "Failed to generate image"), [])
          end
      end
  end.

(** ** [generateWithFaceSwap]: the whole run *)

Definition faceSwap_prologue : list Event :=
  [SetState (FaceSwap_setIsGenerating true);
   SetState (FaceSwap_setGenerationProgress 0);
   ToastSuccess "Uploading face portrait..."].

Definition faceSwap_epilogue : list Event :=
  [SetState (FaceSwap_setIsGenerating false);
   SetState (FaceSwap_setGenerationProgress 0)].

Definition faceSwap_failure (e : Exn) : list Event :=
  [ConsoleError "Face swap generation error:" e;
   ToastError "Failed to generate face-swapped photos. Please try again."].

Definition scene_request (d : Destination) : GenerateImageRequest :=
  mkGenerateImageRequest (scenePrompt d) "high" "1024x1024" 1.

Definition faceSwap_request (d : Destination) (sceneUrl portraitUrl : string)
    : ModifyImageRequest :=
  mkModifyImageRequest [sceneUrl; portraitUrl] (faceSwapPrompt d) "high"
                       "1024x1024" 3.

Definition faceSwap_image (d : Destination) (portraitUrl : string)
    (t index : nat) (img : AiImage) (createdAt : string) : GeneratedImage :=
  mkGeneratedImage (faceSwapGenId t index) (url img) (d_name d) portraitUrl
                   None createdAt.

(** The events between prologue and epilogue of a run of
    [generateWithFaceSwap] mounted by [App], and the images it hands to the
    parent, in the order of the calls of [onImageGenerated]. *)
Definition faceSwap_outcome (env : Env) (old : list GeneratedImage) (tk : nat)
    (portrait : FacePortrait) (u : User) (sel : string)
    : list Event * list GeneratedImage :=
  let t := date_now env (3 + tk) in
  let path := portraitPath u t portrait in
  let up := storage_upload env (4 + tk) (img_file portrait) path true in
  let upload := [DateNow t; StorageUpload (img_file portrait) path true up] in
  match up with
  | inl e => (upload ++ faceSwap_failure e, [])
  | inr res =>
      match find_destination TRAVEL_DESTINATIONS sel with
      | None =>
          (upload ++ SetState (FaceSwap_setGenerationProgress 25) ::
           faceSwap_failure (Error "Invalid destination"), [])
      | Some d =>
          let ans1 := ai_generateImage env (8 + tk) (scene_request d) in
          let stage1 :=
            upload ++ [SetState (FaceSwap_setGenerationProgress 25);
                       SetState (FaceSwap_setGenerationProgress 40);
                       ToastSuccess "Generating travel scene...";
                       AiGenerateImage (scene_request d) ans1] in
          match ans1 with
          | inl e => (stage1 ++ faceSwap_failure e, [])
          | inr sceneResp =>
              match data sceneResp with
              | Some (scene0 :: _) =>
                  let req := faceSwap_request d (url scene0) (publicUrl res) in
                  let ans2 := ai_modifyImage env (11 + tk) req in
                  let stage2 :=
                    stage1 ++ [SetState (FaceSwap_setGenerationProgress 65);
                               ToastSuccess "Performing face swap integration...";
                               AiModifyImage req ans2] in
                  match ans2 with
                  | inl e => (stage2 ++ faceSwap_failure e, [])
                  | inr finalResp =>
                      match data finalResp with
                      | Some ((_ :: _) as finalData) =>
                          let imgs :=
                            stamp_all (faceSwap_image d (publicUrl res)) env
                                      (13 + tk) 0 finalData in
                          (stage2 ++
                           SetState (FaceSwap_setGenerationProgress 90) ::
                           stamp_events env (13 + tk) (List.length finalData) ++
                           delivery_events imgs old ++
                           [SetState (FaceSwap_setGenerationProgress 100);
                            ToastSuccess (faceSwapToast finalData d)], imgs)
                      | _ =>
                          (stage2 ++
                           SetState (FaceSwap_setGenerationProgress 90) ::
                           faceSwap_failure
                             (Error "Failed to generate face-swapped images"), [])
                      end
                  end
              | _ =>
                  (stage1 ++
                   faceSwap_failure (Error "Failed to generate travel scene"), [])
              end
          end
      end
  end.

(** ** [generateWithInstantID]: the whole run *)

Definition instantID_prologue : list Event :=
  [SetState (InstantID_setIsGenerating true);
   SetState (InstantID_setGenerationProgress 0);
   ToastSuccess "Uploading reference images..."].

Definition instantID_epilogue : list Event :=
  [SetState (InstantID_setIsGenerating false);
   SetState (InstantID_setGenerationProgress 0)].

Definition instantID_failure (e : Exn) : list Event :=
  [ConsoleError "InstantID generation error:" e;
   ToastError "Failed to generate InstantID photos. Please try again."].

Definition instantID_request (d : Destination) (uploadedUrls : list string)
    : ModifyImageRequest :=
  mkModifyImageRequest uploadedUrls (instantIDPrompt d) "high" "1024x1024" 3.

Definition instantID_image (d : Destination) (uploadedUrls : list string)
    (t index : nat) (img : AiImage) (createdAt : string) : GeneratedImage :=
  mkGeneratedImage (instantGenId t index) (url img) (d_name d) EmptyString
                   (Some uploadedUrls) createdAt.

(** The events after the upload loop of [generateWithInstantID] (which
    ended in [res] at time [n]) up to the epilogue, and the images handed
    to the parent. *)
Definition instantID_outcome (env : Env) (old : list GeneratedImage) (n : nat)
    (res : Exn + list string) (sel : string)
    : list Event * list GeneratedImage :=
  match res with
  | inl e => (instantID_failure e, [])
  | inr urls =>
      match find_destination TRAVEL_DESTINATIONS sel with
      | None =>
          (SetState (InstantID_setGenerationProgress 40) ::
           instantID_failure (Error "Invalid destination"), [])
      | Some d =>
          let req := instantID_request d urls in
          let ans := ai_modifyImage env (4 + n) req in
          let call :=
            [SetState (InstantID_setGenerationProgress 40);
             SetState (InstantID_setGenerationProgress 50);
             ToastSuccess "Processing with InstantID...";
             SetState (InstantID_setGenerationProgress 70);
             AiModifyImage req ans] in
          match ans with
          | inl e => (call ++ instantID_failure e, [])
          | inr resp =>
              match data resp with
              | Some ((_ :: _) as data) =>
                  let imgs :=
                    stamp_all (instantID_image d urls) env (6 + n) 0 data in
                  (call ++ SetState (InstantID_setGenerationProgress 90) ::
                   stamp_events env (6 + n) (List.length data) ++
                   delivery_events imgs old ++
                   [SetState (InstantID_setGenerationProgress 100);
                    ToastSuccess (instantIDToast data d)], imgs)
              | _ =>
                  (call ++ SetState (InstantID_setGenerationProgress 90) ::
                   instantID_failure (Error "Failed to generate images"), [])
              end
          end
      end
  end.

(** ** [generateWithPhotoMaker]: the whole run *)

Definition photoMaker_prologue : list Event :=
  [SetState (PhotoMaker_setIsGenerating true);
   SetState (PhotoMaker_setGenerationProgress 0);
   ToastSuccess "Uploading reference images..."].

Definition photoMaker_epilogue : list Event :=
  [SetState (PhotoMaker_setIsGenerating false);
   SetState (PhotoMaker_setGenerationProgress 0)].

Definition photoMaker_failure (e : Exn) : list Event :=
  [ConsoleError "PhotoMaker generation error:" e;
   ToastError "Failed to generate PhotoMaker photos. Please try again."].

Definition photoMaker_request (s : PhotoMakerState) (d : Destination)
    (uploadedUrls : list string) : ModifyImageRequest :=
  mkModifyImageRequest uploadedUrls
    (if truthy (trim (pm_customPrompt s))
     then photoMakerPrompt d +++ photoMakerStyleSuffix (pm_customPrompt s)
     else photoMakerPrompt d)
    "high" "1024x1024" (if pm_generateMultiple s then 4 else 2).

Definition photoMaker_image (d : Destination) (uploadedUrls : list string)
    (t index : nat) (img : AiImage) (createdAt : string) : GeneratedImage :=
  mkGeneratedImage (photoMakerGenId t index) (url img) (d_name d) EmptyString
                   (Some uploadedUrls) createdAt.

(** The events after the upload loop of [generateWithPhotoMaker] (which
    ended in [res] at time [n]) up to the epilogue, and the images handed
    to the parent. *)
Definition photoMaker_outcome (env : Env) (s : PhotoMakerState)
    (old : list GeneratedImage) (n : nat) (res : Exn + list string)
    (sel : string)
    : list Event * list GeneratedImage :=
  match res with
  | inl e => (photoMaker_failure e, [])
  | inr urls =>
      match find_destination TRAVEL_DESTINATIONS sel with
      | None =>
          (SetState (PhotoMaker_setGenerationProgress 35) ::
           photoMaker_failure (Error "Invalid destination"), [])
      | Some d =>
          let req := photoMaker_request s d urls in
          let ans := ai_modifyImage env (4 + n) req in
          let call :=
            [SetState (PhotoMaker_setGenerationProgress 35);
             SetState (PhotoMaker_setGenerationProgress 45);
             ToastSuccess "Processing with PhotoMaker...";
             SetState (PhotoMaker_setGenerationProgress 60);
             AiModifyImage req ans] in
          match ans with
          | inl e => (call ++ photoMaker_failure e, [])
          | inr resp =>
              match data resp with
              | Some ((_ :: _) as data) =>
                  let imgs :=
                    stamp_all (photoMaker_image d urls) env (6 + n) 0 data in
                  (call ++ SetState (PhotoMaker_setGenerationProgress 85) ::
                   stamp_events env (6 + n) (List.length data) ++
                   delivery_events imgs old ++
                   [SetState (PhotoMaker_setGenerationProgress 100);
                    ToastSuccess (photoMakerToast data d)], imgs)
              | _ =>
                  (call ++ SetState (PhotoMaker_setGenerationProgress 85) ::
                   photoMaker_failure (Error "Failed to generate images"), [])
              end
          end
      end
  end.

(** ** Object URLs of the local previews *)

Definition id_is (id : string) (img : PreviewImage) : bool :=
  String.eqb (img_id img) id.

Definition revoke_events (imgs : list PreviewImage) : list Event :=
  map (fun img => RevokeObjectURL (img_url img)) imgs.

(** What removing the image [id] from the list [imgs] must do: [r] is the
    run, [after] the list it leaves. *)
Definition removes_only (id : string) (imgs : list PreviewImage)
    (r : Run unit) (after : list PreviewImage) : Prop :=
  result r = inr tt /\
  after = filter (fun img => negb (id_is id img)) imgs /\
  revoked (events r) =
    match find (id_is id) imgs with
    | Some img => [img_url img]
    | None => []
    end /\
  (NoDup (map img_id imgs) ->
   forall img, In img imgs -> img_id img = id ->
     exists before behind,
       imgs = before ++ img :: behind /\
       after = before ++ behind /\
       revoked (events r) = [img_url img]) /\
  (~ In id (map img_id imgs) -> after = imgs /\ revoked (events r) = []).

(** What clearing the list [imgs] must do. *)
Definition clears_all (imgs : list PreviewImage) (r : Run unit)
    (after : list PreviewImage) : Prop :=
  result r = inr tt /\ after = [] /\ revoked (events r) = map img_url imgs.

(** ** The single-photo flow *)

(** What the claim states: a run with a file, a valid destination and a
    user calls [blink.ai.modifyImage]. *)
Definition modifyImage_is_called (env : Env) (w : World) : Prop :=
  exists req ans, In (AiModifyImage req ans) (events (generateTravelPhoto env w)).

(** Upload, then AI call, then display. *)
Definition single_photo_flow (env : Env) (w : World) (f : File) (u : User)
    (d : Destination) : Prop :=
  let s := app (ui w) in
  let r := generateTravelPhoto env w in
  let after := generatedImages (app (ui (final r))) in
  let path := originalPath u (date_now env (2 + tick w)) f in
  let up := storage_upload env (3 + tick w) f path true in
  match up with
  | inl _ =>
      external_calls (events r) = [StorageUpload f path true up] /\
      after = generatedImages s
  | inr res =>
      let req :=
        mkModifyImageRequest [publicUrl res]
          (if useCustomModel s && model_ready (currentModel s)
           then loraEnhancedPrompt d else travelPrompt d)
          "high" "1024x1024" (if generateMultiple s then 3 else 1) in
      let ans := ai_modifyImage env (6 + tick w) req in
      external_calls (events r) =
        [StorageUpload f path true up; AiModifyImage req ans] /\
      match ans with
      | inr (mkAiResponse (Some ((_ :: _) as data))) =>
          exists newImages,
            after = newImages ++ generatedImages s /\
            map gi_url newImages = map url data /\
            Forall (fun g => gi_destination g = d_name d /\
                             gi_originalImage g = publicUrl res) newImages
      | _ => after = generatedImages s
      end
  end.

(** ** The face-swap pipeline *)



(** ** The identity-preservation modules *)




(** ** Error atomicity of the generation operations *)

(** An event that shows a failed step: a rejected platform call, an AI
    answer without data, or the [console.error] of a [catch] block. *)
Definition step_failed (e : Event) : bool :=
  match e with
  | StorageUpload _ _ _ (inl _) => true
  | AiGenerateImage _ (inl _) => true
  | AiModifyImage _ (inl _) => true
  | AiGenerateImage _ (inr resp) => negb (has_data (data resp))
  | AiModifyImage _ (inr resp) => negb (has_data (data resp))
  | ConsoleError _ _ => true
  | _ => false
  end.

Definition failed_steps : list Event -> list Event :=
  select (fun e => if step_failed e then [e] else []).

(** The run [r] from [w] returns with the flag [generating] cleared and
    [progress] reset, and leaves [generatedImages] alone if a step failed. *)
Definition error_atomic (generating : UI -> bool) (progress : UI -> Q)
    (w : World) (r : Run unit) : Prop :=
  result r = inr tt /\
  generating (ui (final r)) = false /\
  progress (ui (final r)) = 0%Q /\
  (failed_steps (events r) <> [] ->
   generatedImages (app (ui (final r))) = generatedImages (app (ui w))).

(** ** Destination lookup and prompt assembly *)


Definition prompt_of (e : Event) : option string :=
  match e with
  | AiGenerateImage req _ => Some (gen_prompt req)
  | AiModifyImage req _ => Some (mod_prompt req)
  | _ => None
  end.





(** ** Generation from the trained model *)

(** What a run of [generateWithLoRAModel] that passes its guard does for
    the destination [d]. *)
Definition lora_generation_flow (env : Env) (w : World) (d : Destination)
    : Prop :=
  let r := generateWithLoRAModel env w in
  let old := generatedImages (app (ui w)) in
  let after := generatedImages (app (ui (final r))) in
  let req :=
    mkGenerateImageRequest (loraGenerationPrompt d) "high" "1024x1024" 3 in
  let ans := ai_generateImage env (4 + tick w) req in
  external_calls (events r) = [AiGenerateImage req ans] /\
  match ans with
  | inr (mkAiResponse (Some ((_ :: _) as data))) =>
      exists newImages,
        after = newImages ++ old /\
        map gi_url newImages = map url data /\
        Forall (fun g => gi_destination g = d_name d /\
                         gi_originalImage g = EmptyString /\
                         gi_originalImages g = None) newImages
  | _ => after = old
  end.

(** ** Guards of the generation functions *)

(** The run did nothing at all. *)
Definition no_op (w : World) (r : Run unit) : Prop :=
  r = mkRun (inr tt) w [].

(** ** The cells a handler writes *)

(** [u'] is [u] with the cells of the setter calls [cs] rewritten, the
    first of [cs] last. *)
Definition rewritten (cs : list SetCall) (u u' : UI) : Prop :=
  u' = fold_right apply_set u cs.

(** The final UI of the runs of the handlers, past their guards. *)
Definition training_footprint (w : World) (r : Run unit) : Prop :=
  exists m b,
    rewritten [setTrainingProgress 0; setIsTrainingModel false;
               setUseCustomModel b; setCurrentModel m] (ui w) (ui (final r)).

Definition generation_footprint (generating : bool -> SetCall)
    (progress : Q -> SetCall) (w : World) (r : Run unit) : Prop :=
  exists imgs,
    rewritten [progress 0%Q; generating false; setGeneratedImages imgs]
              (ui w) (ui (final r)).

(** ** Training and the generation that follows it *)

(** The prompt of the only AI call of the run [tr], if it made one. *)
Definition sole_prompt (tr : list Event) : option string :=
  match ai_calls tr with
  | [e] => prompt_of e
  | _ => None
  end.

(** What a failed training run leaves behind. *)
Definition training_failed (env : Env) (w : World) : Prop :=
  let r := trainLoRAModel env w in
  let s := app (ui w) in
  let s' := app (ui (final r)) in
  (exists e accepted,
      map snd (uploads (events r)) =
        map (fun x => inr (mkUploadResult x)) accepted ++ [inl e] /\
      console_errors (events r) = [("Training error:", e)]) /\
  timeouts (events r) = [] /\
  model_statuses (events r) =
    match currentModel s with Some _ => [failed] | None => [] end /\
  currentModel s' = option_map (with_status failed) (currentModel s) /\
  useCustomModel s' = useCustomModel s /\
  isTrainingModel s' = false /\
  trainingProgress s' = 0%Q /\
  trainingImages s' = trainingImages s /\
  forall env', no_op (final r) (generateWithLoRAModel env' (final r)).

(** What the generation functions do after a training run that
    succeeded. *)
Definition trained_model_is_used (env : Env) (w : World) (d : Destination)
    : Prop :=
  let w1 := final (trainLoRAModel env w) in
  model_ready (currentModel (app (ui w1))) = true /\
  useCustomModel (app (ui w1)) = true /\
  (forall env',
      sole_prompt (events (generateWithLoRAModel env' w1)) =
        Some (loraGenerationPrompt d)) /\
  (forall env' f,
      selectedFile (app (ui w)) = Some f ->
      all_uploads_accepted (events (generateTravelPhoto env' w1)) = true ->
      sole_prompt (events (generateTravelPhoto env' w1)) =
        Some (loraEnhancedPrompt d)).

(** The cells that are no business of the training: everything but
    [currentModel], [useCustomModel], [isTrainingModel] and
    [trainingProgress]. *)
Definition outside_training (u : UI) :=
  (user (app u), selectedFile (app u), selectedDestination (app u),
   isGenerating (app u), generationProgress (app u), generatedImages (app u),
   generateMultiple (app u), trainingImages (app u),
   instantID u, photoMaker u, faceSwap u).

(** The cells of [App] that are no business of a generation: everything
    but [isGenerating], [generationProgress] and [generatedImages]. *)
Definition outside_generation (s : AppState) :=
  (user s, selectedFile s, selectedDestination s, generateMultiple s,
   trainingImages s, currentModel s, isTrainingModel s, trainingProgress s,
   useCustomModel s).

(** Everything the user has put in and the training has produced. *)
Definition kept_by_generation (u : UI) :=
  (outside_generation (app u), iid_referenceImages (instantID u),
   pm_referenceImages (photoMaker u), pm_customPrompt (photoMaker u),
   pm_generateMultiple (photoMaker u), fs_facePortrait (faceSwap u)).

Definition writes_own_cells (generating : bool -> SetCall)
    (progress : Q -> SetCall) (w : World) (r : Run unit) : Prop :=
  generation_footprint generating progress w r /\
  kept_by_generation (ui (final r)) = kept_by_generation (ui w).

(** ** Removing, then clearing *)

(** [first] removed an image of [imgs], [again] repeated the removal and
    [last] cleared what was left: every object URL of [imgs] was revoked
    exactly once. *)
Definition revoked_exactly_once (imgs : list PreviewImage)
    (first again last : Run unit) : Prop :=
  revoked (events again) = [] /\
  Permutation (revoked (events first) ++ revoked (events last))
              (map img_url imgs).

(** ** Where uploads go *)

(** Each upload request of a run: the file, the storage path and the
    [upsert] flag. *)
Definition upload_requests : list Event -> list (File * string * bool) :=
  select (fun e => match e with
                   | StorageUpload f p b _ => [(f, p, b)]
                   | _ => []
                   end).

Definition upload_paths (tr : list Event) : list string :=
  map (fun x => snd (fst x)) (upload_requests tr).

(** Every upload of [tr] sends one of [files] with [upsert] to a path
    under [folder] and the id of [u], and no two uploads share a path. *)
Definition uploads_confined (folder : string) (u : User) (files : list File)
    (tr : list Event) : Prop :=
  Forall (fun x => snd x = true /\ In (fst (fst x)) files /\
                   prefix (folder +++ user_id u +++ "/") (snd (fst x)) = true)
         (upload_requests tr) /\
  NoDup (upload_paths tr).

(** [c] occurs nowhere in [s]. *)
Fixpoint free_of (c : ascii) (s : string) : Prop :=
  match s with
  | EmptyString => True
  | String a r => a <> c /\ free_of c r
  end.

(** ** What a generation adds to the gallery *)

(** The run only put new images, with ids of their own, in front of the
    old ones. *)
Definition only_prepends (w : World) (r : Run unit) : Prop :=
  exists added,
    generatedImages (app (ui (final r))) = added ++ generatedImages (app (ui w)) /\
    NoDup (map gi_id added).

(** Whenever the [blink.ai.modifyImage] call of the run returned images,
    they were handed to the parent one by one, so that they stand in
    front of the old ones in reverse order; [origin] reads the fields
    [originalImage] and [originalImages] off the request. *)
Definition delivered_reversed (d : Destination)
    (origin : ModifyImageRequest -> string * option (list string))
    (w : World) (r : Run unit) : Prop :=
  forall req data,
    In (AiModifyImage req (inr (mkAiResponse (Some data)))) (events r) ->
    data <> [] ->
    exists newImages,
      generatedImages (app (ui (final r))) =
        rev newImages ++ generatedImages (app (ui w)) /\
      map gi_url newImages = map url data /\
      Forall (fun g => gi_destination g = d_name d /\
                       (gi_originalImage g, gi_originalImages g) = origin req)
             newImages.

(** ** Progress bars *)








(** ** What the user is told *)

Definition toast_errors : list Event -> list string :=
  select (fun e => match e with ToastError m => [m] | _ => [] end).

Definition toast_successes : list Event -> list string :=
  select (fun e => match e with ToastSuccess m => [m] | _ => [] end).


(** ** The custom prompt of the PhotoMaker module *)

(** [s] holds nothing but white space. *)
Fixpoint blank (s : string) : bool :=
  match s with
  | EmptyString => true
  | String c r => is_space c && blank r
  end.



(** ** The multi-file inputs *)

(** The previews built for [files] from the logical time [n]. *)
Fixpoint preview_all (rand : nat -> string) (mint : nat -> File -> string)
    (tag : string) (env : Env) (n : nat) (files : list File)
    : list PreviewImage :=
  match files with
  | [] => []
  | f :: rest =>
      mkPreviewImage (tag +++ Number_toString (date_now env n) +++ "_" +++
                      rand (S n))
                     f (mint (S n) f) None ::
      preview_all rand mint tag env (S n) rest
  end.

(** The callback of the inputs' [imageFiles.map]. *)
Definition preview_step (rand : nat -> string) (mint : nat -> File -> string)
    (tag : string) (file : File) (index : nat) : M PreviewImage :=
  t <- Date_now ;;
  k <- logical_time ;;
  ret (mkPreviewImage (tag +++ Number_toString t +++ "_" +++ rand k)
                      file (mint k file) None).

Fixpoint clock_events (env : Env) (n k : nat) : list Event :=
  match k with
  | 0 => []
  | S k' => DateNow (date_now env n) :: clock_events env (S n) k'
  end.

(** What a multi-file input does with the selection [files] when the list
    held [prev]: [r] is the run, [after] the list it leaves, [added] the
    text of its toast for a count. *)
Definition files_are_added (files : list File) (prev after : list PreviewImage)
    (added : string -> string) (r : Run unit) : Prop :=
  let imageFiles := filter is_image files in
  result r = inr tt /\
  (exists new,
      after = prev ++ new /\
      map img_file new = imageFiles /\
      Forall (fun img => img_uploadedUrl img = None) new) /\
  toast_errors (events r) =
    (if forallb is_image files then []
     else ["Some files were skipped. Only image files are allowed."]) /\
  toast_successes (events r) =
    [added (Number_toString (List.length imageFiles))] /\
  external_calls (events r) = [] /\
  revoked (events r) = [].

(** ** The single-file inputs *)

(** The UI [u] with another selected file, or another portrait. *)
Definition with_selectedFile (file : option File) (u : UI) : UI :=
  let s := app u in
  mkUI (mkAppState (user s) file (selectedDestination s) (isGenerating s)
          (generationProgress s) (generatedImages s) (generateMultiple s)
          (trainingImages s) (currentModel s) (isTrainingModel s)
          (trainingProgress s) (useCustomModel s))
       (instantID u) (photoMaker u) (faceSwap u).

Definition with_facePortrait (portrait : option FacePortrait) (u : UI) : UI :=
  mkUI (app u) (instantID u) (photoMaker u)
       (mkFaceSwapState portrait (fs_isGenerating (faceSwap u))
                        (fs_generationProgress (faceSwap u))).

(** A single-file input looks at the first file of the selection only:
    [pick] is what it does with an image, [r] the run. *)
Definition takes_first_image (files : option (list File)) (w : World)
    (r : Run unit) (pick : File -> Prop) : Prop :=
  match files with
  | Some (file :: _) =>
      if is_image file then pick file
      else r = mkRun (inr tt) (mkWorld (ui w) (S (tick w)))
                     [ToastError "Please upload an image file"]
  | _ => no_op w r
  end.

(** * Verification *)

(** ** Observing a run *)

Lemma select_app {A} (view : Event -> list A) l1 l2 :
  select view (l1 ++ l2) = select view l1 ++ select view l2.
Proof. apply flat_map_app. Qed.

Lemma select_nil {A} (view : Event -> list A) : select view [] = [].
Proof. reflexivity. Qed.

Lemma select_cons {A} (view : Event -> list A) e l :
  select view (e :: l) = view e ++ select view l.
Proof. reflexivity. Qed.



Lemma uploads_app l1 l2 : uploads (l1 ++ l2) = uploads l1 ++ uploads l2.
Proof. apply select_app. Qed.

Lemma timeouts_app l1 l2 : timeouts (l1 ++ l2) = timeouts l1 ++ timeouts l2.
Proof. apply select_app. Qed.

Lemma set_calls_app l1 l2 : set_calls (l1 ++ l2) = set_calls l1 ++ set_calls l2.
Proof. apply select_app. Qed.

Lemma revoked_app l1 l2 : revoked (l1 ++ l2) = revoked l1 ++ revoked l2.
Proof. apply select_app. Qed.

Lemma console_errors_app l1 l2 :
  console_errors (l1 ++ l2) = console_errors l1 ++ console_errors l2.
Proof. apply select_app. Qed.

(** ** The upload loops *)

Lemma for_i_cons {A St} (x : A) r i (body : nat -> A -> St -> M St) s env w :
  for_i (x :: r) i body s env w =
  match body i x s env w with
  | mkRun (inr s') w1 ev1 =>
      match for_i r (S i) body s' env w1 with
      | mkRun res w2 ev2 => mkRun res w2 (ev1 ++ ev2)
      end
  | mkRun (inl e) w1 ev1 => mkRun (inl e) w1 ev1
  end.
Proof. reflexivity. Qed.

Section UploadLoopFacts.

Variable mk : Q -> SetCall.
Variable k : Q.
Variable n : nat.
Variable path : nat -> nat -> PreviewImage -> string.

Lemma upload_step_run i image acc env w :
  let t := date_now env (S (tick w)) in
  let r := storage_upload env (S (S (tick w))) (img_file image)
                          (path t i image) true in
  upload_step mk k n path i image acc env w =
  mkRun (match r with
         | inl e => inl e
         | inr r0 => inr (acc ++ [publicUrl r0])
         end)
        (mkWorld (apply_set (mk (fraction i n k)) (ui w)) (S (S (S (tick w)))))
        [SetState (mk (fraction i n k)); DateNow t;
         StorageUpload (img_file image) (path t i image) true r].
Proof.
  cbv zeta. unfold upload_step, bind, set, Date_now, blink_storage_upload, ret.
  cbn. now destruct storage_upload.
Qed.

Lemma for_i_upload env imgs : forall i acc w,
  let r := for_i imgs i (upload_step mk k n path) acc env w in
  loop_run mk k n path i imgs acc (events r) (result r) /\
  answered env (tick w) (events r) /\
  tick (final r) = tick w + List.length (events r) /\
  (forall P : UI -> Prop,
      (forall q u, P u -> P (apply_set (mk q) u)) ->
      P (ui w) -> P (ui (final r))).
Proof.
  induction imgs as [|img imgs IH]; intros i acc w; cbv zeta.
  - cbn. repeat split; auto. constructor.
  - rewrite for_i_cons, upload_step_run.
    set (t := date_now env (S (tick w))).
    destruct (storage_upload env (S (S (tick w))) (img_file img)
                             (path t i img) true) as [e|r0] eqn:Hr.
    + cbn [result events final ui tick]. split; [|split; [|split]].
      * constructor.
      * cbn. fold t. now rewrite Hr.
      * cbn. lia.
      * intros P HP H0. now apply HP.
    + set (w3 := mkWorld _ _).
      destruct (IH (S i) (acc ++ [publicUrl r0]) w3) as (Hrun & Hans & Htick & Hfr).
      destruct (for_i imgs (S i) (upload_step mk k n path)
                      (acc ++ [publicUrl r0]) env w3)
        as [res w4 evs].
      cbn [result events final ui tick] in *. split; [|split; [|split]].
      * cbn. now constructor.
      * cbn. fold t. rewrite Hr. auto.
      * cbn. rewrite Htick. cbn. lia.
      * intros P HP H0. apply Hfr; [exact HP|]. cbn. now apply HP.
Qed.

(** What a finished loop run looks like from outside. *)

Lemma loop_run_uploads i imgs acc evs res :
  loop_run mk k n path i imgs acc evs res ->
  exists outs,
    uploads evs = combine (map (fun img => (img_file img, true)) imgs) outs /\
    List.length outs <= List.length imgs /\
    match res with
    | inr urls =>
        exists new, urls = acc ++ new /\
                    outs = map (fun u => inr (mkUploadResult u)) new /\
                    List.length new = List.length imgs
    | inl e =>
        exists new, outs = map (fun u => inr (mkUploadResult u)) new ++ [inl e]
    end.
Proof.
  induction 1 as [i acc|i img imgs acc t r evs res _ IH|i img imgs acc t e].
  - exists []. cbn. split; [reflexivity|]. split; [lia|].
    exists []. now rewrite app_nil_r.
  - destruct IH as (outs & Hu & Hlen & Hres). exists (inr r :: outs).
    unfold uploads, select in *. cbn. rewrite Hu.
    split; [reflexivity|]. split; [lia|].
    destruct res as [e|urls].
    + destruct Hres as (new & ->). exists (publicUrl r :: new). now destruct r.
    + destruct Hres as (new & -> & -> & Hn). exists (publicUrl r :: new).
      cbn. rewrite <- app_assoc. split; [reflexivity|].
      split; [now destruct r|lia].
  - exists [inl e]. cbn. split; [now destruct imgs|]. split; [lia|].
    now exists [].
Qed.

Lemma loop_run_no_ai i imgs acc evs res :
  loop_run mk k n path i imgs acc evs res -> ai_calls evs = [].
Proof. induction 1; cbn; auto. Qed.


Lemma loop_run_timeouts i imgs acc evs res :
  loop_run mk k n path i imgs acc evs res -> timeouts evs = [].
Proof. induction 1; cbn; auto. Qed.

Lemma loop_run_revoked i imgs acc evs res :
  loop_run mk k n path i imgs acc evs res -> revoked evs = [].
Proof. induction 1; cbn; auto. Qed.

Lemma loop_run_console i imgs acc evs res :
  loop_run mk k n path i imgs acc evs res -> console_errors evs = [].
Proof. induction 1; cbn; auto. Qed.

End UploadLoopFacts.

(** The three loops of the source are instances of [upload_step]. *)
Lemma uploadTrainingImages_eq u imgs :
  uploadTrainingImages u imgs =
  for_i imgs 0 (upload_step setTrainingProgress 25 (List.length imgs)
                            (trainingPath u)) [].
Proof. reflexivity. Qed.

Lemma InstantID_uploadReferenceImages_eq u imgs :
  InstantIDModule.uploadReferenceImages u imgs =
  for_i imgs 0 (upload_step InstantID_setGenerationProgress 30
                            (List.length imgs) (instantIDPath u)) [].
Proof. reflexivity. Qed.

Lemma PhotoMaker_uploadReferenceImages_eq u imgs :
  PhotoMakerModule.uploadReferenceImages u imgs =
  for_i imgs 0 (upload_step PhotoMaker_setGenerationProgress 25
                            (List.length imgs) (photoMakerPath u)) [].
Proof. reflexivity. Qed.

(** What is known once a loop has returned. *)
Lemma upload_loop_returns mk k n path env imgs w res w' evs :
  for_i imgs 0 (upload_step mk k n path) [] env w = mkRun res w' evs ->
  loop_run mk k n path 0 imgs [] evs res /\
  answered env (tick w) evs /\
  tick w' = tick w + List.length evs /\
  (forall P : UI -> Prop,
      (forall q u, P u -> P (apply_set (mk q) u)) -> P (ui w) -> P (ui w')).
Proof.
  intros H.
  pose proof (for_i_upload mk k n path env imgs 0 [] w) as H0.
  cbv zeta in H0. now rewrite H in H0.
Qed.

(** ** Symbolic evaluation *)

(** Evaluate the monadic code and leave the data functions folded. *)
Ltac run_code :=
  cbv -[List.app String.append Number_toString fraction slice_last trim
        Qmult Qdiv inject_Z
        uploadTrainingImages InstantIDModule.uploadReferenceImages
        PhotoMakerModule.uploadReferenceImages
        map_i forEach find_destination TRAVEL_DESTINATIONS
        trainingPath originalPath instantIDPath photoMakerPath portraitPath
        modelId modelName genId loraGenId instantGenId photoMakerGenId
        faceSwapGenId travelToast loraToast instantIDToast photoMakerToast
        faceSwapToast trainingCompletedToast
        travelPrompt loraEnhancedPrompt loraGenerationPrompt scenePrompt
        faceSwapPrompt instantIDPrompt photoMakerPrompt photoMakerStyleSuffix
        storage_upload ai_generateImage ai_modifyImage date_now toISOString
        toLocaleDateString
        List.length Nat.ltb Nat.eqb Nat.leb];
  repeat (cbn [List.app]; rewrite <- app_assoc); cbn [List.app].

Ltac destruct_world_as w tk :=
  let a := fresh "a" in let i := fresh "iid" in let p := fresh "pm" in
  let f := fresh "fs" in
  destruct w as [[a i p f] tk];
  destruct a as [? ? ? ? ? ? ? ? ? ? ? ?];
  destruct i as [? ? ?]; destruct p as [? ? ? ? ?]; destruct f as [? ? ?].

Ltac destruct_world w := let tk := fresh "tk" in destruct_world_as w tk.

(** [frame H f]: the cell read by [f] is the same before and after the
    loop whose frame property is [H]. *)
Ltac frame H f :=
  match type of H with
  | forall P, _ -> P ?u1 -> P ?u2 =>
      let Hn := fresh "Hframe" in
      let a := eval cbv beta in (f u2) in
      let b := eval cbv beta in (f u1) in
      assert (Hn : a = b)
        by (apply H; [intros ? ? Hq; exact Hq | reflexivity]);
      cbn in Hn
  end.

(** ** [trainLoRAModel]: the whole run *)

Lemma trainLoRAModel_run env w u0 :
  user (app (ui w)) = Some u0 ->
  5 <= List.length (trainingImages (app (ui w))) ->
  let imgs := trainingImages (app (ui w)) in
  exists evs res w' t t2 t3,
    trainLoRAModel env w =
      mkRun (inr tt) w'
            (training_prologue ++ evs ++
             training_tail env u0 (currentModel (app (ui w))) res t t2 t3) /\
    loop_run setTrainingProgress 25 (List.length imgs) (trainingPath u0)
             0 imgs [] evs res /\
    answered env (3 + tick w) evs /\
    isTrainingModel (app (ui w')) = false /\
    trainingProgress (app (ui w')) = 0%Q /\
    trainingImages (app (ui w')) = imgs /\
    match res with
    | inr urls =>
        currentModel (app (ui w')) = Some (trained_model env u0 urls t t2 t3) /\
        useCustomModel (app (ui w')) = true
    | inl e =>
        currentModel (app (ui w')) =
          option_map (with_status failed) (currentModel (app (ui w))) /\
        useCustomModel (app (ui w')) = useCustomModel (app (ui w))
    end.
Proof.
  intros Hu Hn imgs. subst imgs.
  unfold trainLoRAModel, bind at 1, getApp. cbv beta iota.
  destruct (Nat.ltb_spec (List.length (trainingImages (app (ui w)))) 5)
    as [Hlt|_]; [lia|].
  rewrite Hu. clear Hu Hn.
  destruct_world w.
  cbv beta iota zeta delta [forEach trainingSteps].
  run_code.
  destruct (uploadTrainingImages _ _ _ _) as [[e|urls] w2 evs] eqn:Hloop;
    rewrite uploadTrainingImages_eq in Hloop;
    apply upload_loop_returns in Hloop;
    destruct Hloop as (Hrun & Hans & Htick & Hfr);
    cbn [tick ui] in Hans, Hfr;
    frame Hfr (fun u => currentModel (app u));
    frame Hfr (fun u => useCustomModel (app u));
    frame Hfr (fun u => trainingImages (app u));
    clear Hfr Htick; destruct_world w2; cbn in * |-; subst;
    exists evs.
  - exists (inl e).
    run_code.
    eexists. exists 0, 0, 0.
    split; [reflexivity|]. split; [exact Hrun|]. split; [exact Hans|].
    cbn. auto.
  - exists (inr urls).
    run_code.
    do 4 eexists.
    split; [reflexivity|]. split; [exact Hrun|]. split; [exact Hans|].
    cbn. auto.
Qed.

(** ** The guard of [trainLoRAModel] *)

(** C9. Invoked with fewer than five training images, or with no user
    logged in, [trainLoRAModel] returns at once: the UI state (so
    [trainingImages], [currentModel], [isTrainingModel] and
    [trainingProgress]) is unchanged, no setter is called, nothing is
    uploaded, and the only effect is the error toast of the under-five
    case. *)
Theorem trainLoRAModel_guard env w :
  List.length (trainingImages (app (ui w))) < 5 \/ user (app (ui w)) = None ->
  let r := trainLoRAModel env w in
  result r = inr tt /\
  ui (final r) = ui w /\
  set_calls (events r) = [] /\
  uploads (events r) = [] /\
  external_calls (events r) = [] /\
  events r =
    (if List.length (trainingImages (app (ui w))) <? 5
     then [ToastError "Please upload at least 5 images to train a model"]
     else []).
Proof.
  intros H r. subst r.
  remember (trainLoRAModel env w) as r eqn:E.
  unfold trainLoRAModel, bind at 1, getApp in E. cbv beta iota in E.
  destruct (Nat.ltb_spec (List.length (trainingImages (app (ui w)))) 5)
    as [Hlt|Hge].
  - cbn in E. subst r. repeat split; reflexivity.
  - destruct H as [H|H]; [lia|]. rewrite H in E. cbn in E. subst r.
    repeat split; reflexivity.
Qed.

Lemma trainLoRAModel_guard_witness :
  let r := trainLoRAModel env_ok four_images_world in
  result r = inr tt /\
  ui (final r) = ui four_images_world /\
  set_calls (events r) = [] /\
  uploads (events r) = [] /\
  external_calls (events r) = [] /\
  events r = [ToastError "Please upload at least 5 images to train a model"].
Proof.
  apply (trainLoRAModel_guard env_ok four_images_world).
  left. vm_compute. lia.
Defined.

(** ** The progress schedule of a training run *)







Lemma loop_run_accepted mk k n path i imgs acc evs res rest :
  loop_run mk k n path i imgs acc evs res ->
  all_uploads_accepted (evs ++ rest) =
  match res with
  | inr _ => all_uploads_accepted rest
  | inl _ => false
  end.
Proof.
  unfold all_uploads_accepted, uploads, select.
  induction 1; cbn; auto.
Qed.



(** ** [trainLoRAModel] trains nothing *)

Lemma map_snd_combine {A B} (l : list A) (l' : list B) :
  List.length l' <= List.length l -> map snd (combine l l') = l'.
Proof.
  revert l'. induction l as [|a l IH]; intros [|b l'] H; cbn in *;
    try reflexivity; try lia.
  f_equal. apply IH. lia.
Qed.

Lemma files_of_combine {A B C} (f : A -> B) (b : bool) (l : list A)
    (l' : list C) :
  List.length l <= List.length l' ->
  map (fun x => fst (fst x)) (combine (map (fun i => (f i, b)) l) l') = map f l.
Proof.
  revert l'. induction l as [|a l IH]; intros [|c l'] H; cbn in *;
    try reflexivity; try lia.
  f_equal. apply IH. lia.
Qed.

Lemma model_statuses_app l1 l2 :
  model_statuses (l1 ++ l2) = model_statuses l1 ++ model_statuses l2.
Proof. apply flat_map_app. Qed.

Lemma loop_run_model_statuses mk k n path i imgs acc evs res :
  (forall q m, mk q <> setCurrentModel m) ->
  loop_run mk k n path i imgs acc evs res -> model_statuses evs = [].
Proof.
  intros Hmk. induction 1; cbn; auto;
    destruct (mk (fraction i n k)) eqn:Hq; auto;
    now apply Hmk in Hq.
Qed.






(** ** The upload loops keep the order of the images *)



(** ** Building and delivering generated images *)

Lemma map_i_cons {A B} (x : A) r i (f : A -> nat -> M B) env w :
  map_i (x :: r) i f env w =
  match f x i env w with
  | mkRun (inr y) w1 ev1 =>
      match map_i r (S i) f env w1 with
      | mkRun (inr ys) w2 ev2 => mkRun (inr (y :: ys)) w2 (ev1 ++ ev2 ++ [])
      | mkRun (inl e) w2 ev2 => mkRun (inl e) w2 (ev1 ++ ev2)
      end
  | mkRun (inl e) w1 ev1 => mkRun (inl e) w1 ev1
  end.
Proof.
  cbn [map_i]. unfold bind, ret.
  destruct (f x i env w) as [[e|y] w1 ev1]; [reflexivity|].
  now destruct (map_i r (S i) f env w1) as [[e|ys] w2 ev2].
Qed.

Lemma forEach_cons {A} (x : A) r (f : A -> M unit) env w :
  forEach (x :: r) f env w =
  match f x env w with
  | mkRun (inr _) w1 ev1 =>
      match forEach r f env w1 with
      | mkRun res w2 ev2 => mkRun res w2 (ev1 ++ ev2)
      end
  | mkRun (inl e) w1 ev1 => mkRun (inl e) w1 ev1
  end.
Proof. reflexivity. Qed.

Section StampFacts.

Variable mkImg : nat -> nat -> AiImage -> string -> GeneratedImage.

Lemma stamp_step_run img i env w :
  stamp_step mkImg img i env w =
  mkRun (inr (mkImg (date_now env (tick w)) i img
                    (toISOString env (date_now env (S (tick w))))))
        (mkWorld (ui w) (S (S (tick w))))
        [DateNow (date_now env (tick w)); DateNow (date_now env (S (tick w)))].
Proof. reflexivity. Qed.

Lemma map_i_stamp env data : forall i w,
  map_i data i (stamp_step mkImg) env w =
  mkRun (inr (stamp_all mkImg env (tick w) i data))
        (mkWorld (ui w) (2 * List.length data + tick w))
        (stamp_events env (tick w) (List.length data)).
Proof.
  induction data as [|d data IH]; intros i w.
  - now destruct w.
  - rewrite map_i_cons, stamp_step_run, IH.
    cbn [ui tick List.app List.length stamp_events stamp_all].
    rewrite app_nil_r.
    replace (2 * List.length data + S (S (tick w)))
      with (2 * S (List.length data) + tick w) by lia.
    reflexivity.
Qed.


End StampFacts.

Lemma handleInstantIDImageGenerated_run g env w :
  handleInstantIDImageGenerated g env w =
  mkRun (inr tt)
        (mkWorld (apply_set (setGeneratedImages (g :: generatedImages (app (ui w))))
                            (ui w)) (S (tick w)))
        [SetState (setGeneratedImages (g :: generatedImages (app (ui w))))].
Proof. reflexivity. Qed.

Lemma forEach_delivered env imgs : forall w,
  forEach imgs handleInstantIDImageGenerated env w =
  mkRun (inr tt) (mkWorld (delivered imgs (ui w)) (List.length imgs + tick w))
        (delivery_events imgs (generatedImages (app (ui w)))).
Proof.
  induction imgs as [|g imgs IH]; intros w.
  - now destruct w.
  - rewrite forEach_cons, handleInstantIDImageGenerated_run, IH.
    cbn [ui tick List.app List.length delivered delivery_events fold_left].
    replace (List.length imgs + S (tick w))
      with (S (List.length imgs) + tick w) by lia.
    reflexivity.
Qed.

Lemma delivered_generatedImages imgs : forall u,
  generatedImages (app (delivered imgs u)) = rev imgs ++ generatedImages (app u).
Proof.
  induction imgs as [|g imgs IH]; intros u; [reflexivity|].
  cbn [delivered fold_left rev]. fold (delivered imgs). rewrite IH.
  cbn. now rewrite <- app_assoc.
Qed.

Lemma delivered_frame imgs (P : UI -> Prop) :
  (forall l u, P u -> P (apply_set (setGeneratedImages l) u)) ->
  forall u, P u -> P (delivered imgs u).
Proof.
  intros HP. induction imgs as [|g imgs IH]; intros u Hu; [exact Hu|].
  cbn [delivered fold_left]. apply IH. now apply HP.
Qed.

Lemma delivery_events_select {A} (view : Event -> list A) imgs :
  (forall l, view (SetState (setGeneratedImages l)) = []) ->
  forall old, select view (delivery_events imgs old) = [].
Proof.
  intros H. induction imgs as [|g imgs IH]; intros old; [reflexivity|].
  cbn [delivery_events]. now rewrite select_cons, H, IH.
Qed.

Lemma stamp_events_select {A} (view : Event -> list A) env k :
  (forall t, view (DateNow t) = []) ->
  forall n, select view (stamp_events env n k) = [].
Proof.
  intros H. induction k as [|k IH]; intros n; [reflexivity|].
  cbn [stamp_events]. now rewrite !select_cons, !H, IH.
Qed.

(** Computes a view of an event list built from conses, appends, clock
    readings and deliveries. *)
Ltac project :=
  unfold external_calls, ai_calls, uploads, timeouts, set_calls, revoked,
         console_errors, image_updates;
  repeat (cbn [List.app fst snd];
          first [rewrite select_app | rewrite select_cons | rewrite select_nil]);
  rewrite ?stamp_events_select by reflexivity;
  rewrite ?delivery_events_select by reflexivity;
  cbn [List.app is_external is_upload is_ai orb].

(** ** [generateTravelPhoto]: the whole run *)

Ltac run_gen :=
  cbv -[List.app String.append Number_toString fraction slice_last trim
        Qmult Qdiv inject_Z
        uploadTrainingImages InstantIDModule.uploadReferenceImages
        PhotoMakerModule.uploadReferenceImages
        map_i forEach find_destination TRAVEL_DESTINATIONS
        stamp_all stamp_events delivered delivery_events rev
        trainingPath originalPath instantIDPath photoMakerPath portraitPath
        modelId modelName genId loraGenId instantGenId photoMakerGenId
        faceSwapGenId travelToast loraToast instantIDToast photoMakerToast
        faceSwapToast trainingCompletedToast
        travelPrompt loraEnhancedPrompt loraGenerationPrompt scenePrompt
        faceSwapPrompt instantIDPrompt photoMakerPrompt photoMakerStyleSuffix
        storage_upload ai_generateImage ai_modifyImage date_now toISOString
        toLocaleDateString
        List.length Nat.ltb Nat.eqb Nat.leb];
  repeat (cbn [List.app]; rewrite <- app_assoc); cbn [List.app].

(** Rewrite the [data.map] of the goal with [map_i_stamp] for the record
    builder [mk]. *)
Ltac use_stamp mk :=
  match goal with
  | |- context [map_i ?d ?i ?f ?e ?w] =>
      change (map_i d i f e w) with (map_i d i (stamp_step mk) e w);
      rewrite (map_i_stamp mk e d i w)
  end.

Lemma generateTravelPhoto_run env w f u :
  selectedFile (app (ui w)) = Some f ->
  truthy (selectedDestination (app (ui w))) = true ->
  user (app (ui w)) = Some u ->
  let out := travel_outcome env (app (ui w)) (tick w) f u in
  exists w',
    generateTravelPhoto env w =
      mkRun (inr tt) w' (generation_prologue ++ fst out ++ generation_epilogue) /\
    generatedImages (app (ui w')) = snd out ++ generatedImages (app (ui w)) /\
    isGenerating (app (ui w')) = false /\
    generationProgress (app (ui w')) = 0%Q.
Proof.
  intros Hf Hs Hu.
  unfold generateTravelPhoto, bind at 1, getApp. cbv beta iota.
  rewrite Hf, Hs, Hu. clear Hf Hs Hu.
  destruct_world w. run_gen.
  destruct (storage_upload _ _ _ _ _) as [e|res]; run_gen.
  { eexists. repeat split. }
  destruct (find_destination _ _) as [d|]; run_gen.
  2: { eexists. repeat split. }
  destruct (ai_modifyImage _ _ _) as [e|[[[|x xs]|]]]; run_gen;
    try (eexists; repeat split; fail).
  use_stamp (travel_image d (publicUrl res)). run_gen.
  eexists. repeat split.
Qed.

(** ** [generateWithLoRAModel]: the whole run *)

Lemma generateWithLoRAModel_run env w u :
  truthy (selectedDestination (app (ui w))) = true ->
  user (app (ui w)) = Some u ->
  model_ready (currentModel (app (ui w))) = true ->
  let out := lora_outcome env (app (ui w)) (tick w) in
  exists w',
    generateWithLoRAModel env w =
      mkRun (inr tt) w' (generation_prologue ++ fst out ++ generation_epilogue) /\
    generatedImages (app (ui w')) = snd out ++ generatedImages (app (ui w)) /\
    isGenerating (app (ui w')) = false /\
    generationProgress (app (ui w')) = 0%Q.
Proof.
  intros Hs Hu Hm.
  unfold generateWithLoRAModel, bind at 1, getApp. cbv beta iota.
  rewrite Hs, Hu, Hm. clear Hs Hu Hm.
  destruct_world w. run_gen.
  destruct (find_destination _ _) as [d|]; run_gen.
  2: { eexists. repeat split. }
  destruct (ai_generateImage _ _ _) as [e|[[[|x xs]|]]]; run_gen;
    try (eexists; repeat split; fail).
  use_stamp (lora_image d). run_gen.
  eexists. repeat split.
Qed.

(** ** Delivery to the parent *)

Lemma stamp_all_cons mkImg env n i d rest :
  stamp_all mkImg env n i (d :: rest) =
  mkImg (date_now env n) i d (toISOString env (date_now env (S n))) ::
  stamp_all mkImg env (S (S n)) (S i) rest.
Proof. reflexivity. Qed.

Lemma delivered_cons imgs : forall g u,
  delivered (g :: imgs) u =
  apply_set (setGeneratedImages (rev (g :: imgs) ++ generatedImages (app u))) u.
Proof.
  induction imgs as [|g' imgs IH]; intros g u.
  - reflexivity.
  - change (delivered (g :: g' :: imgs) u)
      with (delivered (g' :: imgs)
              (apply_set (setGeneratedImages (g :: generatedImages (app u))) u)).
    rewrite IH.
    change (generatedImages
              (app (apply_set (setGeneratedImages (g :: generatedImages (app u))) u)))
      with (g :: generatedImages (app u)).
    replace (rev (g' :: imgs) ++ g :: generatedImages (app u))
      with (rev (g :: g' :: imgs) ++ generatedImages (app u))
      by (cbn [rev]; now rewrite <- !app_assoc).
    reflexivity.
Qed.

Lemma forEach_delivered_cons env g imgs w :
  forEach (g :: imgs) handleInstantIDImageGenerated env w =
  mkRun (inr tt)
        (mkWorld (apply_set (setGeneratedImages
                               (rev (g :: imgs) ++ generatedImages (app (ui w))))
                            (ui w))
                 (S (List.length imgs) + tick w))
        (delivery_events (g :: imgs) (generatedImages (app (ui w)))).
Proof. now rewrite forEach_delivered, delivered_cons. Qed.

(** Rewrite the [newImages.forEach(onImageGenerated)] of the goal. *)
Ltac use_delivery :=
  rewrite ?stamp_all_cons;
  match goal with
  | |- context [forEach (?g :: ?l) ?f ?e ?w] =>
      change (forEach (g :: l) f e w)
        with (forEach (g :: l) handleInstantIDImageGenerated e w);
      rewrite (forEach_delivered_cons e g l w)
  end.

(** ** [generateWithFaceSwap]: the whole run *)

Lemma generateWithFaceSwap_run env w portrait u sel :
  fs_facePortrait (faceSwap (ui w)) = Some portrait ->
  truthy sel = true ->
  let out := faceSwap_outcome env (generatedImages (app (ui w))) (tick w)
                              portrait u sel in
  exists w',
    FaceSwapModule.generateWithFaceSwap (App_props u sel) env w =
      mkRun (inr tt) w' (faceSwap_prologue ++ fst out ++ faceSwap_epilogue) /\
    generatedImages (app (ui w')) = rev (snd out) ++ generatedImages (app (ui w)) /\
    fs_isGenerating (faceSwap (ui w')) = false /\
    fs_generationProgress (faceSwap (ui w')) = 0%Q.
Proof.
  intros Hp Hs.
  unfold FaceSwapModule.generateWithFaceSwap, bind at 1, getFaceSwap.
  cbv beta iota zeta. cbn [p_selectedDestination App_props].
  rewrite Hp, Hs. clear Hp Hs.
  destruct_world w. run_gen.
  destruct (storage_upload _ _ _ _ _) as [e|res]; run_gen.
  { eexists. repeat split. }
  destruct (find_destination _ _) as [d|]; run_gen.
  2: { eexists. repeat split. }
  destruct (ai_generateImage _ _ _) as [e|[[[|scene0 scenes]|]]]; run_gen;
    try (eexists; repeat split; fail).
  destruct (ai_modifyImage _ _ _) as [e|[[[|x xs]|]]]; run_gen;
    try (eexists; repeat split; fail).
  use_stamp (faceSwap_image d (publicUrl res)). run_gen.
  use_delivery. run_gen.
  eexists. repeat split.
Qed.

(** ** [generateWithInstantID]: the whole run *)

Lemma generateWithInstantID_run env w u sel :
  iid_referenceImages (instantID (ui w)) <> [] ->
  truthy sel = true ->
  let refs := iid_referenceImages (instantID (ui w)) in
  exists evs res n w',
    loop_run InstantID_setGenerationProgress 30 (List.length refs)
             (instantIDPath u) 0 refs [] evs res /\
    answered env (3 + tick w) evs /\
    let out := instantID_outcome env (generatedImages (app (ui w))) n res sel in
    InstantIDModule.generateWithInstantID (App_props u sel) env w =
      mkRun (inr tt) w'
            (instantID_prologue ++ evs ++ fst out ++ instantID_epilogue) /\
    generatedImages (app (ui w')) = rev (snd out) ++ generatedImages (app (ui w)) /\
    iid_isGenerating (instantID (ui w')) = false /\
    iid_generationProgress (instantID (ui w')) = 0%Q.
Proof.
  intros Hne Hs refs. subst refs.
  unfold InstantIDModule.generateWithInstantID, bind at 1, getInstantID.
  cbv beta iota zeta. cbn [p_selectedDestination p_user App_props].
  rewrite Hs.
  destruct (iid_referenceImages (instantID (ui w))) as [|r0 refs] eqn:Hrefs;
    [contradiction|].
  clear Hne Hs. cbn [List.length Nat.eqb orb negb].
  destruct_world w. cbn in Hrefs. subst. run_gen.
  destruct (InstantIDModule.uploadReferenceImages _ _ _ _)
    as [res w2 evs] eqn:Hloop.
  rewrite InstantID_uploadReferenceImages_eq in Hloop.
  apply upload_loop_returns in Hloop.
  destruct Hloop as (Hrun & Hans & _ & Hfr).
  cbn [tick ui] in Hans, Hfr.
  frame Hfr (fun u => generatedImages (app u)).
  clear Hfr. destruct_world_as w2 n2. cbn in * |-. subst.
  exists evs, res, n2.
  destruct res as [e|urls]; run_gen.
  { eexists. split; [exact Hrun|]. split; [exact Hans|]. repeat split. }
  destruct (find_destination _ _) as [d|]; run_gen.
  2: { eexists. split; [exact Hrun|]. split; [exact Hans|]. repeat split. }
  destruct (ai_modifyImage _ _ _) as [e|[[[|x xs]|]]]; run_gen;
    try (eexists; split; [exact Hrun|]; split; [exact Hans|]; repeat split; fail).
  use_stamp (instantID_image d urls). run_gen.
  use_delivery. run_gen.
  eexists. split; [exact Hrun|]. split; [exact Hans|]. repeat split.
Qed.

(** ** [generateWithPhotoMaker]: the whole run *)

Lemma generateWithPhotoMaker_run env w u sel :
  pm_referenceImages (photoMaker (ui w)) <> [] ->
  truthy sel = true ->
  let refs := pm_referenceImages (photoMaker (ui w)) in
  exists evs res n w',
    loop_run PhotoMaker_setGenerationProgress 25 (List.length refs)
             (photoMakerPath u) 0 refs [] evs res /\
    answered env (3 + tick w) evs /\
    let out := photoMaker_outcome env (photoMaker (ui w)) (generatedImages (app (ui w)))
                                    n res sel in
    PhotoMakerModule.generateWithPhotoMaker (App_props u sel) env w =
      mkRun (inr tt) w'
            (photoMaker_prologue ++ evs ++ fst out ++ photoMaker_epilogue) /\
    generatedImages (app (ui w')) = rev (snd out) ++ generatedImages (app (ui w)) /\
    pm_isGenerating (photoMaker (ui w')) = false /\
    pm_generationProgress (photoMaker (ui w')) = 0%Q.
Proof.
  intros Hne Hs refs. subst refs.
  unfold PhotoMakerModule.generateWithPhotoMaker, bind at 1, getPhotoMaker.
  cbv beta iota zeta. cbn [p_selectedDestination p_user App_props].
  rewrite Hs.
  destruct (pm_referenceImages (photoMaker (ui w))) as [|r0 refs] eqn:Hrefs;
    [contradiction|].
  clear Hne Hs. cbn [List.length Nat.eqb orb negb].
  destruct_world w. cbn in Hrefs. subst. run_gen.
  destruct (PhotoMakerModule.uploadReferenceImages _ _ _ _)
    as [res w2 evs] eqn:Hloop.
  rewrite PhotoMaker_uploadReferenceImages_eq in Hloop.
  apply upload_loop_returns in Hloop.
  destruct Hloop as (Hrun & Hans & _ & Hfr).
  cbn [tick ui] in Hans, Hfr.
  frame Hfr (fun u => generatedImages (app u)).
  clear Hfr. destruct_world_as w2 n2. cbn in * |-. subst.
  exists evs, res, n2.
  destruct res as [e|urls]; run_gen.
  { eexists. split; [exact Hrun|]. split; [exact Hans|]. repeat split. }
  destruct (find_destination _ _) as [d|]; run_gen.
  2: { eexists. split; [exact Hrun|]. split; [exact Hans|]. repeat split. }
  destruct (ai_modifyImage _ _ _) as [e|[[[|x xs]|]]]; run_gen;
    try (eexists; split; [exact Hrun|]; split; [exact Hans|]; repeat split; fail).
  use_stamp (photoMaker_image d urls). run_gen.
  use_delivery. run_gen.
  eexists. split; [exact Hrun|]. split; [exact Hans|]. repeat split.
Qed.

(** ** Object URLs of the local previews *)

Lemma forEach_revoke env imgs : forall w,
  forEach imgs (fun img => URL_revokeObjectURL (img_url img)) env w =
  mkRun (inr tt) (mkWorld (ui w) (List.length imgs + tick w)) (revoke_events imgs).
Proof.
  induction imgs as [|img imgs IH]; intros w.
  - now destruct w.
  - rewrite forEach_cons. unfold URL_revokeObjectURL at 1, emit. rewrite IH.
    cbn [ui tick List.app List.length revoke_events map].
    replace (List.length imgs + S (tick w))
      with (S (List.length imgs) + tick w) by lia.
    reflexivity.
Qed.

Lemma revoked_revoke_events imgs :
  revoked (revoke_events imgs) = map img_url imgs.
Proof. induction imgs as [|img imgs IH]; cbn; [|rewrite <- IH]; reflexivity. Qed.

Lemma filter_out_unique id (imgs : list PreviewImage) :
  NoDup (map img_id imgs) ->
  forall img, In img imgs -> img_id img = id ->
  exists before behind,
    imgs = before ++ img :: behind /\
    filter (fun x => negb (id_is id x)) imgs = before ++ behind /\
    find (id_is id) imgs = Some img.
Proof.
  induction imgs as [|a imgs IH]; intros Hnd img Hin Hid; [contradiction|].
  cbn [map] in Hnd. inversion Hnd as [|? ? Hnotin Hnd']; subst.
  cbn [filter find].
  destruct (id_is (img_id img) a) eqn:Ea; unfold id_is in Ea.
  - apply String.eqb_eq in Ea.
    destruct Hin as [->|Hin].
    + cbn [negb]. exists [], imgs. split; [reflexivity|]. split; [|reflexivity].
      cbn [List.app]. apply forallb_filter_id. apply forallb_forall.
      intros x Hx. unfold id_is.
      destruct (String.eqb_spec (img_id x) (img_id img)) as [E|]; [|reflexivity].
      exfalso. apply Hnotin. rewrite <- E. now apply in_map.
    + exfalso. apply Hnotin. rewrite Ea. now apply in_map.
  - apply String.eqb_neq in Ea.
    destruct Hin as [->|Hin]; [congruence|].
    cbn [negb].
    destruct (IH Hnd' img Hin eq_refl) as (before & behind & -> & Hf & Hfind).
    exists (a :: before), behind. cbn [List.app]. rewrite Hf.
    now repeat split.
Qed.

Lemma filter_out_absent id (imgs : list PreviewImage) :
  ~ In id (map img_id imgs) ->
  filter (fun x => negb (id_is id x)) imgs = imgs /\ find (id_is id) imgs = None.
Proof.
  induction imgs as [|a imgs IH]; intros Hn; [now split|].
  cbn [map In] in Hn. cbn [filter find].
  destruct (id_is id a) eqn:Ea; unfold id_is in Ea.
  - apply String.eqb_eq in Ea. tauto.
  - cbn [negb]. destruct IH as [-> ->]; [tauto|now split].
Qed.

Lemma removes_only_intro id imgs (r : Run unit) after w' :
  r = mkRun (inr tt) w'
        (match find (id_is id) imgs with
         | Some img => [RevokeObjectURL (img_url img)]
         | None => []
         end ++
         [SetState (setTrainingImages after)]) \/
  r = mkRun (inr tt) w'
        (match find (id_is id) imgs with
         | Some img => [RevokeObjectURL (img_url img)]
         | None => []
         end ++
         [SetState (InstantID_setReferenceImages after)]) ->
  after = filter (fun img => negb (id_is id img)) imgs ->
  removes_only id imgs r after.
Proof.
  intros Hr Hafter.
  assert (Hrev : revoked (events r) =
                 match find (id_is id) imgs with
                 | Some img => [img_url img]
                 | None => []
                 end).
  { destruct Hr as [-> | ->]; cbn [events]; rewrite revoked_app;
      now destruct (find (id_is id) imgs). }
  assert (Hres : result r = inr tt) by (now destruct Hr as [-> | ->]).
  split; [exact Hres|]. split; [exact Hafter|]. split; [exact Hrev|]. split.
  - intros Hnd img Hin Hid.
    destruct (filter_out_unique id imgs Hnd img Hin Hid)
      as (before & behind & E & Hf & Hfind).
    exists before, behind. rewrite Hrev, Hfind, Hafter. now repeat split.
  - intros Hn. destruct (filter_out_absent id imgs Hn) as [Hf Hfind].
    rewrite Hrev, Hfind, Hafter. now split.
Qed.

Lemma removeTrainingImage_run id env w :
  let imgs := trainingImages (app (ui w)) in
  let after := filter (fun img => negb (id_is id img)) imgs in
  removeTrainingImage id env w =
  mkRun (inr tt)
        (mkWorld (apply_set (setTrainingImages after) (ui w))
                 (match find (id_is id) imgs with
                  | Some _ => 2
                  | None => 1
                  end + tick w))
        (match find (id_is id) imgs with
         | Some img => [RevokeObjectURL (img_url img)]
         | None => []
         end ++ [SetState (setTrainingImages after)]).
Proof.
  cbv zeta.
  unfold removeTrainingImage, bind, getApp, set, URL_revokeObjectURL, emit, ret.
  fold (id_is id).
  now destruct (find (id_is id) (trainingImages (app (ui w)))).
Qed.

Lemma removeReferenceImage_run id env w :
  let imgs := iid_referenceImages (instantID (ui w)) in
  let after := filter (fun img => negb (id_is id img)) imgs in
  InstantIDModule.removeReferenceImage id env w =
  mkRun (inr tt)
        (mkWorld (apply_set (InstantID_setReferenceImages after) (ui w))
                 (match find (id_is id) imgs with
                  | Some _ => 2
                  | None => 1
                  end + tick w))
        (match find (id_is id) imgs with
         | Some img => [RevokeObjectURL (img_url img)]
         | None => []
         end ++ [SetState (InstantID_setReferenceImages after)]).
Proof.
  cbv zeta.
  unfold InstantIDModule.removeReferenceImage, bind, getInstantID, set,
    URL_revokeObjectURL, emit, ret.
  fold (id_is id).
  now destruct (find (id_is id) (iid_referenceImages (instantID (ui w)))).
Qed.

(** C8. [removeTrainingImage id] revokes the object URL of the image whose
    id is [id], when there is one, and of no other; it removes that
    element and leaves every other element in place (ids being unique);
    when no image has that id, nothing is revoked and the list is
    unchanged.  [clearTrainingImages] revokes the object URL of every
    image and leaves the list empty.  [removeReferenceImage] and
    [clearReferenceImages] of the InstantID module do the same on
    [referenceImages]. *)
Theorem preview_url_lifecycle env w id :
  let training := trainingImages (app (ui w)) in
  let reference := iid_referenceImages (instantID (ui w)) in
  removes_only id training (removeTrainingImage id env w)
    (trainingImages (app (ui (final (removeTrainingImage id env w))))) /\
  clears_all training (clearTrainingImages env w)
    (trainingImages (app (ui (final (clearTrainingImages env w))))) /\
  removes_only id reference (InstantIDModule.removeReferenceImage id env w)
    (iid_referenceImages
       (instantID (ui (final (InstantIDModule.removeReferenceImage id env w))))) /\
  clears_all reference (InstantIDModule.clearReferenceImages env w)
    (iid_referenceImages
       (instantID (ui (final (InstantIDModule.clearReferenceImages env w))))).
Proof.
  cbv zeta. split; [|split; [|split]].
  - pose proof (removeTrainingImage_run id env w) as E. cbv zeta in E.
    rewrite E. cbn [final ui].
    eapply removes_only_intro; [left; reflexivity|reflexivity].
  - unfold clearTrainingImages, bind at 1, getApp. cbv beta iota.
    unfold bind. rewrite forEach_revoke. unfold set, clears_all.
    cbn [ui tick result final events].
    rewrite app_nil_l, revoked_app, revoked_revoke_events, app_nil_r.
    now repeat split.
  - pose proof (removeReferenceImage_run id env w) as E. cbv zeta in E.
    rewrite E. cbn [final ui].
    eapply removes_only_intro; [right; reflexivity|reflexivity].
  - unfold InstantIDModule.clearReferenceImages, bind at 1, getInstantID.
    cbv beta iota.
    unfold bind. rewrite forEach_revoke. unfold set, clears_all.
    cbn [ui tick result final events].
    rewrite app_nil_l, revoked_app, revoked_revoke_events, app_nil_r.
    now repeat split.
Qed.

(** ** The destinations *)

Lemma find_destination_truthy sel d :
  find_destination TRAVEL_DESTINATIONS sel = Some d -> truthy sel = true.
Proof. destruct sel; [discriminate|reflexivity]. Qed.

Lemma stamp_all_urls mkImg env data :
  (forall t i d c, gi_url (mkImg t i d c) = url d) ->
  forall n i, map gi_url (stamp_all mkImg env n i data) = map url data.
Proof.
  intros H. induction data as [|d data IH]; intros n i; cbn; [reflexivity|].
  now rewrite H, IH.
Qed.

Lemma stamp_all_Forall mkImg env data (P : GeneratedImage -> Prop) :
  (forall t i d c, P (mkImg t i d c)) ->
  forall n i, Forall P (stamp_all mkImg env n i data).
Proof.
  intros H. induction data as [|d data IH]; intros n i; cbn; constructor; auto.
Qed.

(** ** The single-photo flow *)

(** C4 (as amended). In every run of [generateTravelPhoto] with a selected
    file, a valid destination and a logged-in user, the first call that
    leaves the browser is the [blink.storage.upload] of the selected file.
    If that upload returns a public URL, the only other such call is one
    [blink.ai.modifyImage] with exactly that URL as its single reference
    image and [n = 3] if [generateMultiple], else 1; if it answers with a
    non-empty [data], one image per element is prepended to
    [generatedImages], each with [destination] the display name of the
    selected destination and [originalImage] the uploaded URL; otherwise
    [generatedImages] is unchanged.  If the upload is rejected, no AI call
    is made and [generatedImages] is unchanged. *)
Theorem generateTravelPhoto_flow env w f u d :
  selectedFile (app (ui w)) = Some f ->
  find_destination TRAVEL_DESTINATIONS (selectedDestination (app (ui w))) = Some d ->
  user (app (ui w)) = Some u ->
  single_photo_flow env w f u d.
Proof.
  intros Hf Hd Hu.
  destruct (generateTravelPhoto_run env w f u Hf (find_destination_truthy _ _ Hd) Hu)
    as (w' & E & Himgs & _).
  unfold single_photo_flow. cbv zeta. rewrite E. cbn [final events].
  rewrite Himgs. clear E Himgs.
  unfold travel_outcome. cbv zeta. rewrite Hd.
  destruct (storage_upload env (3 + tick w) f _ true) as [e|res].
  - cbn. auto.
  - unfold travel_request.
    destruct (ai_modifyImage env (6 + tick w) _) as [e|[[[|x xs]|]]];
      cbn [data fst snd List.app]; try (cbn; auto; fail).
    split.
    + unfold generation_prologue, generation_epilogue. project. reflexivity.
    + eexists. split; [reflexivity|]. split.
      * now apply stamp_all_urls.
      * now apply stamp_all_Forall.
Qed.

Lemma generateTravelPhoto_flow_witness :
  single_photo_flow env_ok sample_world (mkFile "me.png" "image/png") alice
    (mkDestination "paris" "Paris, France"
       (d_emoji (hd (mkDestination "x" "x" "x" "x") TRAVEL_DESTINATIONS))
       "Eiffel Tower backdrop").
Proof.
  apply generateTravelPhoto_flow; reflexivity.
Defined.

(** C4 as stated fails when the storage rejects the upload: no
    [blink.ai.modifyImage] call is made at all. *)
Lemma generateTravelPhoto_modifyImage_counterexample :
  selectedFile (app (ui sample_world)) = Some (mkFile "me.png" "image/png") /\
  (exists d, find_destination TRAVEL_DESTINATIONS
               (selectedDestination (app (ui sample_world))) = Some d) /\
  user (app (ui sample_world)) = Some alice /\
  ~ modifyImage_is_called env_storage_down sample_world.
Proof.
  split; [reflexivity|]. split; [eexists; reflexivity|]. split; [reflexivity|].
  intros (req & ans & H). vm_compute in H.
  repeat (destruct H as [H|H]; [discriminate|]). exact H.
Qed.

(** ** The face-swap pipeline *)




(** ** The identity-preservation modules *)

Lemma loop_run_all_accepted mk k n path i imgs acc evs res :
  loop_run mk k n path i imgs acc evs res ->
  all_uploads_accepted evs =
  match res with inr _ => true | inl _ => false end.
Proof.
  intros H. rewrite <- (app_nil_r evs).
  rewrite (loop_run_accepted _ _ _ _ _ _ _ _ _ [] H). now destruct res.
Qed.






(** ** Error atomicity of the generation operations *)

Lemma loop_run_failed_steps mk k n path i imgs acc evs res :
  loop_run mk k n path i imgs acc evs res ->
  forall urls, res = inr urls -> failed_steps evs = [].
Proof.
  induction 1 as [i acc|i img imgs acc t r evs res _ IH|i img imgs acc t e];
    intros urls Hres; [reflexivity| |discriminate].
  exact (IH urls Hres).
Qed.

Lemma error_atomic_intro generating progress w w' (evs : list Event)
    (added : list GeneratedImage) :
  generating (ui w') = false ->
  progress (ui w') = 0%Q ->
  generatedImages (app (ui w')) = added ++ generatedImages (app (ui w)) ->
  added = [] \/ failed_steps evs = [] ->
  error_atomic generating progress w (mkRun (inr tt) w' evs).
Proof.
  intros Hg Hp Himgs Hcase. split; [reflexivity|]. split; [exact Hg|].
  split; [exact Hp|]. cbn [events final]. intros Hfailed.
  destruct Hcase as [->|Hnone]; [exact Himgs|contradiction].
Qed.

Ltac failed_steps_none :=
  unfold failed_steps; project;
  cbn [step_failed has_data data negb List.app]; reflexivity.

(** C10. Each of [generateTravelPhoto], [generateWithLoRAModel],
    [generateWithInstantID] and [generateWithFaceSwap], run past its guard,
    returns normally with its [isGenerating] flag false and its generation
    progress 0, whatever the platform answers; and if any step failed (a
    platform call was rejected, an AI call answered without data, or the
    [catch] block ran for any other reason such as an invalid destination)
    then [generatedImages] is the list it was before the run. *)
Theorem generation_is_error_atomic env w u sel :
  truthy sel = true ->
  (forall f,
      selectedFile (app (ui w)) = Some f ->
      selectedDestination (app (ui w)) = sel ->
      user (app (ui w)) = Some u ->
      error_atomic (fun s => isGenerating (app s))
                   (fun s => generationProgress (app s)) w
                   (generateTravelPhoto env w)) /\
  (selectedDestination (app (ui w)) = sel ->
   user (app (ui w)) = Some u ->
   model_ready (currentModel (app (ui w))) = true ->
   error_atomic (fun s => isGenerating (app s))
                (fun s => generationProgress (app s)) w
                (generateWithLoRAModel env w)) /\
  (iid_referenceImages (instantID (ui w)) <> [] ->
   error_atomic (fun s => iid_isGenerating (instantID s))
                (fun s => iid_generationProgress (instantID s)) w
                (InstantIDModule.generateWithInstantID (App_props u sel) env w)) /\
  (forall portrait,
      fs_facePortrait (faceSwap (ui w)) = Some portrait ->
      error_atomic (fun s => fs_isGenerating (faceSwap s))
                   (fun s => fs_generationProgress (faceSwap s)) w
                   (FaceSwapModule.generateWithFaceSwap (App_props u sel) env w)).
Proof.
  intros Hs. split; [|split; [|split]].
  - intros f Hf Hsel Hu. rewrite <- Hsel in Hs.
    destruct (generateTravelPhoto_run env w f u Hf Hs Hu)
      as (w' & E & Himgs & Hg & Hp).
    rewrite E. eapply error_atomic_intro; [exact Hg|exact Hp|exact Himgs|].
    unfold travel_outcome, generation_prologue, generation_epilogue,
           travel_failure. cbv zeta.
    destruct (storage_upload env _ _ _ _) as [e|res]; [now left|].
    destruct (find_destination _ _) as [d|]; [|now left].
    destruct (ai_modifyImage env _ _) as [e|[[[|x xs]|]]];
      cbn [data]; try (now left).
    right. failed_steps_none.
  - intros Hsel Hu Hm. rewrite <- Hsel in Hs.
    destruct (generateWithLoRAModel_run env w u Hs Hu Hm)
      as (w' & E & Himgs & Hg & Hp).
    rewrite E. eapply error_atomic_intro; [exact Hg|exact Hp|exact Himgs|].
    unfold lora_outcome, generation_prologue, generation_epilogue,
           lora_failure. cbv zeta.
    destruct (find_destination _ _) as [d|]; [|now left].
    destruct (ai_generateImage env _ _) as [e|[[[|x xs]|]]];
      cbn [data]; try (now left).
    right. failed_steps_none.
  - intros Hne.
    destruct (generateWithInstantID_run env w u sel Hne Hs)
      as (evs & res & n & w' & Hrun & _ & E & Himgs & Hg & Hp).
    rewrite E. eapply error_atomic_intro; [exact Hg|exact Hp|exact Himgs|].
    unfold instantID_outcome, instantID_prologue, instantID_epilogue,
           instantID_failure. cbv zeta.
    destruct res as [e|urls]; [now left|].
    pose proof (loop_run_failed_steps _ _ _ _ _ _ _ _ _ Hrun urls eq_refl)
      as Hevs.
    unfold failed_steps in Hevs.
    destruct (find_destination _ _) as [d|]; [|now left].
    destruct (ai_modifyImage env _ _) as [e|[[[|x xs]|]]];
      cbn [data]; try (now left).
    right. unfold failed_steps. project. rewrite Hevs.
    cbn [step_failed has_data data negb List.app]. reflexivity.
  - intros portrait Hp0.
    destruct (generateWithFaceSwap_run env w portrait u sel Hp0 Hs)
      as (w' & E & Himgs & Hg & Hp).
    rewrite E. eapply error_atomic_intro; [exact Hg|exact Hp|exact Himgs|].
    unfold faceSwap_outcome, faceSwap_prologue, faceSwap_epilogue,
           faceSwap_failure. cbv zeta.
    destruct (storage_upload env _ _ _ _) as [e|res]; [now left|].
    destruct (find_destination _ _) as [d|]; [|now left].
    destruct (ai_generateImage env _ _) as [e|[[[|scene0 scenes]|]]];
      cbn [data]; try (now left).
    destruct (ai_modifyImage env _ _) as [e|[[[|x xs]|]]];
      cbn [data]; try (now left).
    right. failed_steps_none.
Qed.

Lemma generation_is_error_atomic_witness :
  failed_steps (events (generateTravelPhoto env_storage_down sample_world)) <> [] /\
  error_atomic (fun s => isGenerating (app s))
               (fun s => generationProgress (app s)) sample_world
               (generateTravelPhoto env_storage_down sample_world) /\
  error_atomic (fun s => fs_isGenerating (faceSwap s))
               (fun s => fs_generationProgress (faceSwap s)) sample_world
               (FaceSwapModule.generateWithFaceSwap (App_props alice "paris")
                  env_storage_down sample_world).
Proof.
  split; [vm_compute; discriminate|].
  destruct (generation_is_error_atomic env_storage_down sample_world alice
              "paris" eq_refl) as (H1 & _ & _ & H4).
  split; [apply (H1 _ eq_refl eq_refl eq_refl)|apply (H4 _ eq_refl)].
Defined.

(** ** Destination lookup and prompt assembly *)

Lemma prefix_empty s : prefix EmptyString s = true.
Proof. now destruct s. Qed.

Lemma prefix_append t s : prefix t (t +++ s) = true.
Proof.
  induction t as [|a t IH]; [apply prefix_empty|].
  cbn. now destruct (ascii_dec a a).
Qed.























(** ** Generation from the trained model *)

(** X1. A run of [generateWithLoRAModel] with a valid destination, a user
    and a model whose status is ['ready'] uploads nothing: its only call
    to the platform is one [blink.ai.generateImage] with the LoRA prompt of
    the destination and [n = 3].  If the answer has a non-empty [data],
    one image per element is prepended to [generatedImages], in the order
    of the answer, each with the destination's display name, an empty
    [originalImage] and no [originalImages]; otherwise [generatedImages]
    is unchanged. *)
Theorem generateWithLoRAModel_flow env w u d :
  find_destination TRAVEL_DESTINATIONS (selectedDestination (app (ui w))) = Some d ->
  user (app (ui w)) = Some u ->
  model_ready (currentModel (app (ui w))) = true ->
  lora_generation_flow env w d.
Proof.
  intros Hd Hu Hm.
  destruct (generateWithLoRAModel_run env w u (find_destination_truthy _ _ Hd)
              Hu Hm) as (w' & E & Himgs & _).
  unfold lora_generation_flow. cbv zeta. rewrite E. cbn [final events].
  rewrite Himgs. clear E Himgs.
  unfold lora_outcome, lora_request, generation_prologue, generation_epilogue,
         lora_failure.
  cbv zeta. rewrite Hd.
  destruct (ai_generateImage env (4 + tick w) _) as [e|[[[|x xs]|]]];
    cbn [data fst snd List.app]; try (split; [project|]; reflexivity).
  split; [project; reflexivity|].
  eexists. split; [reflexivity|]. split.
  - now apply stamp_all_urls.
  - now apply stamp_all_Forall.
Qed.

(** A session with a trained model. *)
Lemma generateWithLoRAModel_flow_witness :
  lora_generation_flow env_ok
    (mkWorld (apply_set (setCurrentModel
                           (Some (trained_model env_ok alice [] 0 0 0)))
                        (ui sample_world)) 0)
    (mkDestination "paris" "Paris, France"
       (d_emoji (hd (mkDestination "x" "x" "x" "x") TRAVEL_DESTINATIONS))
       "Eiffel Tower backdrop").
Proof.
  apply (generateWithLoRAModel_flow env_ok _ alice); reflexivity.
Defined.

(** ** Guards of the generation functions *)

(** X2. Each generation function returns at once, with no effect and the
    state as it was, when its guard fails: [generateTravelPhoto] without a
    selected file, a destination or a user; [generateWithLoRAModel]
    without a destination, a user or a model of status ['ready'];
    [generateWithInstantID] and [generateWithPhotoMaker] without a
    reference image or a destination; [generateWithFaceSwap] without a
    portrait or a destination. *)
Theorem generation_guards env w u sel :
  (selectedFile (app (ui w)) = None \/
   selectedDestination (app (ui w)) = EmptyString \/
   user (app (ui w)) = None ->
   no_op w (generateTravelPhoto env w)) /\
  (selectedDestination (app (ui w)) = EmptyString \/
   user (app (ui w)) = None \/
   (forall m, currentModel (app (ui w)) = Some m -> lm_status m <> ready) ->
   no_op w (generateWithLoRAModel env w)) /\
  (iid_referenceImages (instantID (ui w)) = [] \/ sel = EmptyString ->
   no_op w (InstantIDModule.generateWithInstantID (App_props u sel) env w)) /\
  (pm_referenceImages (photoMaker (ui w)) = [] \/ sel = EmptyString ->
   no_op w (PhotoMakerModule.generateWithPhotoMaker (App_props u sel) env w)) /\
  (fs_facePortrait (faceSwap (ui w)) = None \/ sel = EmptyString ->
   no_op w (FaceSwapModule.generateWithFaceSwap (App_props u sel) env w)).
Proof.
  unfold no_op. split; [|split; [|split; [|split]]]; intros H.
  - unfold generateTravelPhoto, bind at 1, getApp. cbv beta iota.
    destruct H as [->|[->| ->]]; [reflexivity| |].
    + now destruct (selectedFile (app (ui w))).
    + destruct (selectedFile (app (ui w))); [|reflexivity].
      now destruct (truthy _).
  - unfold generateWithLoRAModel, bind at 1, getApp. cbv beta iota.
    destruct H as [->|[->|H]]; [reflexivity| |].
    + now destruct (truthy _).
    + assert (Hm : model_ready (currentModel (app (ui w))) = false).
      { unfold model_ready.
        destruct (currentModel (app (ui w))) as [m|]; [|reflexivity].
        specialize (H m eq_refl). now destruct (lm_status m). }
      rewrite Hm. destruct (truthy _); [|reflexivity].
      now destruct (user (app (ui w))).
  - unfold InstantIDModule.generateWithInstantID, bind at 1, getInstantID.
    cbv beta iota zeta. cbn [p_selectedDestination App_props].
    destruct H as [->| ->]; [reflexivity|]. cbn [truthy negb].
    now rewrite orb_true_r.
  - unfold PhotoMakerModule.generateWithPhotoMaker, bind at 1, getPhotoMaker.
    cbv beta iota zeta. cbn [p_selectedDestination App_props].
    destruct H as [->| ->]; [reflexivity|]. cbn [truthy negb].
    now rewrite orb_true_r.
  - unfold FaceSwapModule.generateWithFaceSwap, bind at 1, getFaceSwap.
    cbv beta iota zeta. cbn [p_selectedDestination App_props].
    destruct H as [->| ->]; [reflexivity|].
    now destruct (fs_facePortrait (faceSwap (ui w))).
Qed.

(** ** The cells a handler writes *)

Lemma loop_frame_ui (mk : Q -> SetCall) (u1 u2 : UI) :
  (forall q q' u, apply_set (mk q') (apply_set (mk q) u) = apply_set (mk q') u) ->
  (forall P : UI -> Prop,
      (forall q u, P u -> P (apply_set (mk q) u)) -> P u1 -> P u2) ->
  u2 = u1 \/ exists q, u2 = apply_set (mk q) u1.
Proof.
  intros Hmk H. apply H; [|now left].
  intros q u [->|[q0 ->]]; right; exists q; [reflexivity|apply Hmk].
Qed.

(** The UI after an upload loop, from its frame property [H]. *)
Ltac loop_ui H w2 :=
  apply loop_frame_ui in H;
  [ let n2 := fresh "n" in let u2 := fresh "u" in let q := fresh "q" in
    destruct w2 as [u2 n2]; cbn [ui] in H; destruct H as [->|[q ->]]
  | intros ? ? [[? ? ? ? ? ? ? ? ? ? ? ?] [? ? ?] [? ? ? ? ?] [? ? ?]];
    reflexivity ].

Lemma trainLoRAModel_footprint env w u0 :
  user (app (ui w)) = Some u0 ->
  5 <= List.length (trainingImages (app (ui w))) ->
  training_footprint w (trainLoRAModel env w).
Proof.
  intros Hu Hn. unfold training_footprint, rewritten.
  unfold trainLoRAModel, bind at 1, getApp. cbv beta iota.
  destruct (Nat.ltb_spec (List.length (trainingImages (app (ui w)))) 5)
    as [Hlt|_]; [lia|].
  rewrite Hu. clear Hu Hn.
  destruct_world w.
  cbv beta iota zeta delta [forEach trainingSteps].
  run_code.
  destruct (uploadTrainingImages _ _ _ _) as [[e|urls] w2 evs] eqn:Hloop;
    rewrite uploadTrainingImages_eq in Hloop;
    apply upload_loop_returns in Hloop;
    destruct Hloop as (_ & _ & _ & Hfr);
    cbn [tick ui] in Hfr; loop_ui Hfr w2; run_code;
    do 2 eexists; reflexivity.
Qed.

Lemma generateTravelPhoto_footprint env w f u :
  selectedFile (app (ui w)) = Some f ->
  truthy (selectedDestination (app (ui w))) = true ->
  user (app (ui w)) = Some u ->
  generation_footprint setIsGenerating setGenerationProgress w
                       (generateTravelPhoto env w).
Proof.
  intros Hf Hs Hu. unfold generation_footprint, rewritten.
  unfold generateTravelPhoto, bind at 1, getApp. cbv beta iota.
  rewrite Hf, Hs, Hu. clear Hf Hs Hu.
  destruct_world w. run_gen.
  destruct (storage_upload _ _ _ _ _) as [e|res]; run_gen.
  { eexists. reflexivity. }
  destruct (find_destination _ _) as [d|]; run_gen.
  2: { eexists. reflexivity. }
  destruct (ai_modifyImage _ _ _) as [e|[[[|x xs]|]]]; run_gen;
    try (eexists; reflexivity).
  use_stamp (travel_image d (publicUrl res)). run_gen.
  eexists. reflexivity.
Qed.

Lemma generateWithLoRAModel_footprint env w u :
  truthy (selectedDestination (app (ui w))) = true ->
  user (app (ui w)) = Some u ->
  model_ready (currentModel (app (ui w))) = true ->
  generation_footprint setIsGenerating setGenerationProgress w
                       (generateWithLoRAModel env w).
Proof.
  intros Hs Hu Hm. unfold generation_footprint, rewritten.
  unfold generateWithLoRAModel, bind at 1, getApp. cbv beta iota.
  rewrite Hs, Hu, Hm. clear Hs Hu Hm.
  destruct_world w. run_gen.
  destruct (find_destination _ _) as [d|]; run_gen.
  2: { eexists. reflexivity. }
  destruct (ai_generateImage _ _ _) as [e|[[[|x xs]|]]]; run_gen;
    try (eexists; reflexivity).
  use_stamp (lora_image d). run_gen.
  eexists. reflexivity.
Qed.

Lemma generateWithFaceSwap_footprint env w portrait u sel :
  fs_facePortrait (faceSwap (ui w)) = Some portrait ->
  truthy sel = true ->
  generation_footprint FaceSwap_setIsGenerating FaceSwap_setGenerationProgress
    w (FaceSwapModule.generateWithFaceSwap (App_props u sel) env w).
Proof.
  intros Hp Hs. unfold generation_footprint, rewritten.
  unfold FaceSwapModule.generateWithFaceSwap, bind at 1, getFaceSwap.
  cbv beta iota zeta. cbn [p_selectedDestination App_props].
  rewrite Hp, Hs. clear Hp Hs.
  destruct_world w. run_gen.
  destruct (storage_upload _ _ _ _ _) as [e|res]; run_gen.
  { eexists. reflexivity. }
  destruct (find_destination _ _) as [d|]; run_gen.
  2: { eexists. reflexivity. }
  destruct (ai_generateImage _ _ _) as [e|[[[|scene0 scenes]|]]]; run_gen;
    try (eexists; reflexivity).
  destruct (ai_modifyImage _ _ _) as [e|[[[|x xs]|]]]; run_gen;
    try (eexists; reflexivity).
  use_stamp (faceSwap_image d (publicUrl res)). run_gen.
  use_delivery. run_gen.
  eexists. reflexivity.
Qed.

Lemma generateWithInstantID_footprint env w u sel :
  iid_referenceImages (instantID (ui w)) <> [] ->
  truthy sel = true ->
  generation_footprint InstantID_setIsGenerating
    InstantID_setGenerationProgress w
    (InstantIDModule.generateWithInstantID (App_props u sel) env w).
Proof.
  intros Hne Hs. unfold generation_footprint, rewritten.
  unfold InstantIDModule.generateWithInstantID, bind at 1, getInstantID.
  cbv beta iota zeta. cbn [p_selectedDestination p_user App_props].
  rewrite Hs.
  destruct (iid_referenceImages (instantID (ui w))) as [|r0 refs] eqn:Hrefs;
    [contradiction|].
  clear Hne Hs. cbn [List.length Nat.eqb orb negb].
  destruct_world w. cbn in Hrefs. subst. run_gen.
  destruct (InstantIDModule.uploadReferenceImages _ _ _ _)
    as [res w2 evs] eqn:Hloop.
  rewrite InstantID_uploadReferenceImages_eq in Hloop.
  apply upload_loop_returns in Hloop.
  destruct Hloop as (_ & _ & _ & Hfr).
  cbn [tick ui] in Hfr.
  loop_ui Hfr w2;
    (destruct res as [e|urls]; run_gen; [eexists; reflexivity|];
     destruct (find_destination _ _) as [d|]; run_gen;
     [|eexists; reflexivity];
     destruct (ai_modifyImage _ _ _) as [e|[[[|x xs]|]]]; run_gen;
     try (eexists; reflexivity);
     use_stamp (instantID_image d urls); run_gen;
     use_delivery; run_gen;
     eexists; reflexivity).
Qed.

Lemma generateWithPhotoMaker_footprint env w u sel :
  pm_referenceImages (photoMaker (ui w)) <> [] ->
  truthy sel = true ->
  generation_footprint PhotoMaker_setIsGenerating
    PhotoMaker_setGenerationProgress w
    (PhotoMakerModule.generateWithPhotoMaker (App_props u sel) env w).
Proof.
  intros Hne Hs. unfold generation_footprint, rewritten.
  unfold PhotoMakerModule.generateWithPhotoMaker, bind at 1, getPhotoMaker.
  cbv beta iota zeta. cbn [p_selectedDestination p_user App_props].
  rewrite Hs.
  destruct (pm_referenceImages (photoMaker (ui w))) as [|r0 refs] eqn:Hrefs;
    [contradiction|].
  clear Hne Hs. cbn [List.length Nat.eqb orb negb].
  destruct_world w. cbn in Hrefs. subst. run_gen.
  destruct (PhotoMakerModule.uploadReferenceImages _ _ _ _)
    as [res w2 evs] eqn:Hloop.
  rewrite PhotoMaker_uploadReferenceImages_eq in Hloop.
  apply upload_loop_returns in Hloop.
  destruct Hloop as (_ & _ & _ & Hfr).
  cbn [tick ui] in Hfr.
  loop_ui Hfr w2;
    (destruct res as [e|urls]; run_gen; [eexists; reflexivity|];
     destruct (find_destination _ _) as [d|]; run_gen;
     [|eexists; reflexivity];
     destruct (ai_modifyImage _ _ _) as [e|[[[|x xs]|]]]; run_gen;
     try (eexists; reflexivity);
     use_stamp (photoMaker_image d urls); run_gen;
     use_delivery; run_gen;
     eexists; reflexivity).
Qed.

(** ** Training and the generation that follows it *)

Lemma generateWithLoRAModel_not_ready env w :
  model_ready (currentModel (app (ui w))) = false ->
  generateWithLoRAModel env w = mkRun (inr tt) w [].
Proof.
  intros Hm. unfold generateWithLoRAModel, bind at 1, getApp. cbv beta iota.
  rewrite Hm. destruct (truthy _); [|reflexivity].
  now destruct (user (app (ui w))).
Qed.

Lemma model_ready_failed m :
  model_ready (option_map (with_status failed) m) = false.
Proof. now destruct m. Qed.

Lemma training_tail_uploads env u prev res t t2 t3 :
  uploads (training_tail env u prev res t t2 t3) = [].
Proof. now destruct res. Qed.

(** X3. When an upload is rejected in a run of [trainLoRAModel] that
    passed the guard, the run logs that rejection under
    ['Training error:'], waits for no delay, and writes no model record
    but one: the model that was current before the run, if there was one,
    is marked ['failed'] (a model trained earlier is lost to
    [generateWithLoRAModel], which from then on returns at once), and
    [currentModel] stays [null] otherwise.  [useCustomModel] and the
    local training images are as before; [isTrainingModel] is false and
    [trainingProgress] is 0. *)
Theorem trainLoRAModel_failure env w u :
  user (app (ui w)) = Some u ->
  5 <= List.length (trainingImages (app (ui w))) ->
  all_uploads_accepted (events (trainLoRAModel env w)) = false ->
  training_failed env w.
Proof.
  intros Hu Hn Hrej. unfold training_failed. cbv zeta.
  destruct (trainLoRAModel_run env w u Hu Hn)
    as (evs & res & w' & t & t2 & t3 & E & Hrun & _ & Hit & Htp & Hti & Hres).
  rewrite E in *. cbn [events final] in *.
  assert (Hups : uploads (training_prologue ++ evs ++
                   training_tail env u (currentModel (app (ui w))) res t t2 t3)
                 = uploads evs)
    by now rewrite !uploads_app, training_tail_uploads, app_nil_r.
  unfold all_uploads_accepted in Hrej. rewrite Hups in Hrej.
  fold (all_uploads_accepted evs) in Hrej.
  rewrite (loop_run_all_accepted _ _ _ _ _ _ _ _ _ Hrun) in Hrej.
  destruct res as [e|urls]; [clear Hrej|discriminate].
  destruct Hres as [Hcm Huc].
  destruct (loop_run_uploads _ _ _ _ _ _ _ _ _ Hrun)
    as (outs & Hup & Hlen & new & ->).
  split; [|split; [|split; [|split; [|split; [|split; [|split; [|split]]]]]]];
    try assumption.
  - exists e, new. split.
    + rewrite Hups, Hup. apply map_snd_combine. now rewrite length_map.
    + rewrite !console_errors_app,
        (loop_run_console _ _ _ _ _ _ _ _ _ Hrun). reflexivity.
  - rewrite !timeouts_app, (loop_run_timeouts _ _ _ _ _ _ _ _ _ Hrun).
    reflexivity.
  - rewrite !model_statuses_app.
    assert (Hms : model_statuses evs = [])
      by (refine (loop_run_model_statuses setTrainingProgress
                    _ _ _ _ _ _ _ _ _ Hrun); intros; discriminate).
    rewrite Hms. now destruct (currentModel (app (ui w))).
  - intros env'. apply generateWithLoRAModel_not_ready.
    rewrite Hcm. apply model_ready_failed.
Qed.

Lemma trainLoRAModel_failure_witness :
  training_failed env_storage_down sample_world.
Proof.
  apply (trainLoRAModel_failure env_storage_down sample_world alice);
    [reflexivity | vm_compute; lia | vm_compute; reflexivity].
Defined.

Lemma trained_model_ready env u urls t t2 t3 :
  model_ready (Some (trained_model env u urls t t2 t3)) = true.
Proof. reflexivity. Qed.

(** X4. After a run of [trainLoRAModel] that passed the guard and in
    which no upload was rejected, the current model is ['ready'] and
    [useCustomModel] is true; so, with a valid destination selected, a
    following [generateWithLoRAModel] passes its guard and sends the LoRA
    generation prompt, and a following [generateTravelPhoto] whose upload
    is accepted sends the LoRA-enhanced prompt in place of the plain
    one. *)
Theorem trained_model_drives_generation env w u d :
  user (app (ui w)) = Some u ->
  5 <= List.length (trainingImages (app (ui w))) ->
  all_uploads_accepted (events (trainLoRAModel env w)) = true ->
  find_destination TRAVEL_DESTINATIONS (selectedDestination (app (ui w))) = Some d ->
  trained_model_is_used env w d.
Proof.
  intros Hu Hn Hacc Hd. unfold trained_model_is_used. cbv zeta.
  destruct (trainLoRAModel_footprint env w u Hu Hn) as (m & b & Hfp).
  destruct (trainLoRAModel_run env w u Hu Hn)
    as (evs & res & w' & t & t2 & t3 & E & Hrun & _ & _ & _ & _ & Hres).
  rewrite E in *. cbn [events final] in *.
  assert (Hups : uploads (training_prologue ++ evs ++
                   training_tail env u (currentModel (app (ui w))) res t t2 t3)
                 = uploads evs)
    by now rewrite !uploads_app, training_tail_uploads, app_nil_r.
  unfold all_uploads_accepted in Hacc. rewrite Hups in Hacc.
  fold (all_uploads_accepted evs) in Hacc.
  rewrite (loop_run_all_accepted _ _ _ _ _ _ _ _ _ Hrun) in Hacc.
  destruct res as [e|urls]; [discriminate|]. clear Hacc Hups.
  destruct Hres as [Hcm Huc].
  assert (Hu' : user (app (ui w')) = Some u) by now rewrite Hfp.
  assert (Hsel : selectedDestination (app (ui w')) =
                 selectedDestination (app (ui w))) by now rewrite Hfp.
  assert (Hfile : selectedFile (app (ui w')) = selectedFile (app (ui w)))
    by now rewrite Hfp.
  assert (Hd' : find_destination TRAVEL_DESTINATIONS
                  (selectedDestination (app (ui w'))) = Some d)
    by now rewrite Hsel.
  assert (Hm : model_ready (currentModel (app (ui w'))) = true)
    by now rewrite Hcm.
  split; [exact Hm|]. split; [exact Huc|]. split.
  - intros env'.
    destruct (generateWithLoRAModel_run env' w' u
                (find_destination_truthy _ _ Hd') Hu' Hm) as (w2 & E2 & _).
    rewrite E2. cbn [events]. clear E2.
    unfold lora_outcome, lora_request, generation_prologue,
           generation_epilogue, lora_failure, sole_prompt.
    cbv zeta. rewrite Hd'.
    destruct (ai_generateImage env' _ _) as [e|[[[|x xs]|]]];
      cbn [data]; project; reflexivity.
  - intros env' f Hf. rewrite <- Hfile in Hf.
    destruct (generateTravelPhoto_run env' w' f u Hf
                (find_destination_truthy _ _ Hd') Hu') as (w2 & E2 & _).
    rewrite E2. cbn [events]. clear E2.
    unfold travel_outcome, travel_request, generation_prologue,
           generation_epilogue, travel_failure, sole_prompt,
           all_uploads_accepted.
    cbv zeta. rewrite Hd', Huc, Hm.
    destruct (storage_upload env' _ _ _ _) as [e|r0];
      [project; discriminate|].
    intros _.
    destruct (ai_modifyImage env' _ _) as [e|[[[|x xs]|]]];
      cbn [data]; project; reflexivity.
Qed.

Lemma trained_model_drives_generation_witness :
  trained_model_is_used env_ok sample_world
    (mkDestination "paris" "Paris, France"
       (d_emoji (hd (mkDestination "x" "x" "x" "x") TRAVEL_DESTINATIONS))
       "Eiffel Tower backdrop").
Proof.
  apply (trained_model_drives_generation env_ok sample_world alice);
    [reflexivity | vm_compute; lia | vm_compute; reflexivity | reflexivity].
Defined.

(** X5. A run of [trainLoRAModel] that passes the guard, whatever the
    platform answers, ends in the UI state it started from with only
    [currentModel], [useCustomModel], [isTrainingModel] (false) and
    [trainingProgress] (0) rewritten: the user, the selected file and
    destination, the generated images, the local training images and the
    state of the three modules are as before. *)
Theorem trainLoRAModel_writes_training_cells env w u :
  user (app (ui w)) = Some u ->
  5 <= List.length (trainingImages (app (ui w))) ->
  let r := trainLoRAModel env w in
  training_footprint w r /\
  outside_training (ui (final r)) = outside_training (ui w).
Proof.
  intros Hu Hn r. subst r.
  pose proof (trainLoRAModel_footprint env w u Hu Hn) as H.
  split; [exact H|]. destruct H as (m & b & ->). reflexivity.
Qed.

Lemma trainLoRAModel_writes_training_cells_witness :
  let r := trainLoRAModel env_ok sample_world in
  training_footprint sample_world r /\
  outside_training (ui (final r)) = outside_training (ui sample_world).
Proof.
  apply (trainLoRAModel_writes_training_cells env_ok sample_world alice);
    [reflexivity | vm_compute; lia].
Defined.

(** X6. A run of a generation function that passes its guard, whatever the
    platform answers, ends in the UI state it started from with only
    [generatedImages] and the function's own [isGenerating] (false) and
    [generationProgress] (0) rewritten.  In particular the trained model,
    the training images and [useCustomModel] survive every generation, the
    reference images, the portrait and the custom prompt of the modules
    are kept, and no module writes a cell of another. *)
Theorem generation_writes_own_cells env w u sel :
  truthy sel = true ->
  (forall f,
      selectedFile (app (ui w)) = Some f ->
      selectedDestination (app (ui w)) = sel ->
      user (app (ui w)) = Some u ->
      writes_own_cells setIsGenerating setGenerationProgress w
                       (generateTravelPhoto env w)) /\
  (selectedDestination (app (ui w)) = sel ->
   user (app (ui w)) = Some u ->
   model_ready (currentModel (app (ui w))) = true ->
   writes_own_cells setIsGenerating setGenerationProgress w
                    (generateWithLoRAModel env w)) /\
  (iid_referenceImages (instantID (ui w)) <> [] ->
   writes_own_cells InstantID_setIsGenerating InstantID_setGenerationProgress w
     (InstantIDModule.generateWithInstantID (App_props u sel) env w)) /\
  (pm_referenceImages (photoMaker (ui w)) <> [] ->
   writes_own_cells PhotoMaker_setIsGenerating PhotoMaker_setGenerationProgress
     w (PhotoMakerModule.generateWithPhotoMaker (App_props u sel) env w)) /\
  (forall portrait,
      fs_facePortrait (faceSwap (ui w)) = Some portrait ->
      writes_own_cells FaceSwap_setIsGenerating FaceSwap_setGenerationProgress
        w (FaceSwapModule.generateWithFaceSwap (App_props u sel) env w)).
Proof.
  intros Hs. unfold writes_own_cells.
  split; [|split; [|split; [|split]]].
  - intros f Hf <- Hu.
    pose proof (generateTravelPhoto_footprint env w f u Hf Hs Hu) as H.
    split; [exact H|]. destruct H as (imgs & ->). reflexivity.
  - intros <- Hu Hm.
    pose proof (generateWithLoRAModel_footprint env w u Hs Hu Hm) as H.
    split; [exact H|]. destruct H as (imgs & ->). reflexivity.
  - intros Hne.
    pose proof (generateWithInstantID_footprint env w u sel Hne Hs) as H.
    split; [exact H|]. destruct H as (imgs & ->). reflexivity.
  - intros Hne.
    pose proof (generateWithPhotoMaker_footprint env w u sel Hne Hs) as H.
    split; [exact H|]. destruct H as (imgs & ->). reflexivity.
  - intros portrait Hp.
    pose proof (generateWithFaceSwap_footprint env w portrait u sel Hp Hs) as H.
    split; [exact H|]. destruct H as (imgs & ->). reflexivity.
Qed.

Lemma generation_writes_own_cells_witness :
  writes_own_cells setIsGenerating setGenerationProgress sample_world
                   (generateTravelPhoto env_ok sample_world) /\
  writes_own_cells InstantID_setIsGenerating InstantID_setGenerationProgress
    sample_world
    (InstantIDModule.generateWithInstantID (App_props alice "paris") env_ok
       sample_world).
Proof.
  destruct (generation_writes_own_cells env_ok sample_world alice "paris"
              eq_refl) as (H1 & _ & H3 & _).
  split; [apply (H1 _ eq_refl eq_refl eq_refl)|apply H3; discriminate].
Defined.

(** ** Object URLs of the PhotoMaker previews *)

Lemma removes_only_of_run id imgs (r : Run unit) after :
  result r = inr tt ->
  revoked (events r) =
    match find (id_is id) imgs with
    | Some img => [img_url img]
    | None => []
    end ->
  after = filter (fun img => negb (id_is id img)) imgs ->
  removes_only id imgs r after.
Proof.
  intros Hres Hrev Hafter.
  split; [exact Hres|]. split; [exact Hafter|]. split; [exact Hrev|]. split.
  - intros Hnd img Hin Hid.
    destruct (filter_out_unique id imgs Hnd img Hin Hid)
      as (before & behind & E & Hf & Hfind).
    exists before, behind. rewrite Hrev, Hfind, Hafter. now repeat split.
  - intros Hn. destruct (filter_out_absent id imgs Hn) as [Hf Hfind].
    rewrite Hrev, Hfind, Hafter. now split.
Qed.

Lemma PhotoMaker_removeReferenceImage_run id env w :
  let imgs := pm_referenceImages (photoMaker (ui w)) in
  let after := filter (fun img => negb (id_is id img)) imgs in
  PhotoMakerModule.removeReferenceImage id env w =
  mkRun (inr tt)
        (mkWorld (apply_set (PhotoMaker_setReferenceImages after) (ui w))
                 (match find (id_is id) imgs with
                  | Some _ => 2
                  | None => 1
                  end + tick w))
        (match find (id_is id) imgs with
         | Some img => [RevokeObjectURL (img_url img)]
         | None => []
         end ++ [SetState (PhotoMaker_setReferenceImages after)]).
Proof.
  cbv zeta.
  unfold PhotoMakerModule.removeReferenceImage, bind, getPhotoMaker, set,
    URL_revokeObjectURL, emit, ret.
  fold (id_is id).
  now destruct (find (id_is id) (pm_referenceImages (photoMaker (ui w)))).
Qed.

Lemma PhotoMaker_clearReferenceImages_run env w :
  let imgs := pm_referenceImages (photoMaker (ui w)) in
  PhotoMakerModule.clearReferenceImages env w =
  mkRun (inr tt)
        (mkWorld (apply_set (PhotoMaker_setReferenceImages []) (ui w))
                 (S (List.length imgs + tick w)))
        (revoke_events imgs ++ [SetState (PhotoMaker_setReferenceImages [])]).
Proof.
  cbv zeta.
  unfold PhotoMakerModule.clearReferenceImages, bind at 1, getPhotoMaker.
  cbv beta iota. unfold bind. rewrite forEach_revoke. unfold set.
  cbn [ui tick List.app]. reflexivity.
Qed.

(** X7. In the PhotoMaker module, [removeReferenceImage id] revokes the
    object URL of the first reference image whose id is [id], if there is
    one, and of no other, and drops the images with that id from
    [referenceImages], every other image staying in place; with unique
    ids exactly the image found is removed, and with no such id nothing is
    revoked and the list is unchanged.  [clearReferenceImages] revokes the
    object URL of every reference image, in list order, and leaves the
    list empty.  Neither touches any other cell. *)
Theorem PhotoMaker_preview_url_lifecycle env w id :
  let reference := pm_referenceImages (photoMaker (ui w)) in
  let removed := PhotoMakerModule.removeReferenceImage id env w in
  let cleared := PhotoMakerModule.clearReferenceImages env w in
  removes_only id reference removed
    (pm_referenceImages (photoMaker (ui (final removed)))) /\
  rewritten [PhotoMaker_setReferenceImages
               (filter (fun img => negb (id_is id img)) reference)]
            (ui w) (ui (final removed)) /\
  clears_all reference cleared
    (pm_referenceImages (photoMaker (ui (final cleared)))) /\
  rewritten [PhotoMaker_setReferenceImages []] (ui w) (ui (final cleared)).
Proof.
  cbv zeta.
  pose proof (PhotoMaker_removeReferenceImage_run id env w) as E1.
  pose proof (PhotoMaker_clearReferenceImages_run env w) as E2.
  cbv zeta in E1, E2. rewrite E1, E2. cbn [final ui].
  split; [|split; [|split]]; try reflexivity.
  - apply removes_only_of_run; [reflexivity| |reflexivity].
    cbn [events]. rewrite revoked_app.
    now destruct (find (id_is id) (pm_referenceImages (photoMaker (ui w)))).
  - unfold clears_all. cbn [result events].
    rewrite revoked_app, revoked_revoke_events, app_nil_r. now repeat split.
Qed.

(** ** Removing, then clearing *)

Lemma find_after_filter id (imgs : list PreviewImage) :
  find (id_is id) (filter (fun img => negb (id_is id img)) imgs) = None.
Proof.
  induction imgs as [|a imgs IH]; [reflexivity|].
  cbn [filter]. destruct (id_is id a) eqn:E; cbn [negb]; [exact IH|].
  cbn [find]. now rewrite E.
Qed.

Lemma filter_after_filter id (imgs : list PreviewImage) :
  filter (fun img => negb (id_is id img))
         (filter (fun img => negb (id_is id img)) imgs) =
  filter (fun img => negb (id_is id img)) imgs.
Proof.
  induction imgs as [|a imgs IH]; [reflexivity|].
  cbn [filter]. destruct (id_is id a) eqn:E; cbn [negb]; [exact IH|].
  cbn [filter]. rewrite E. cbn [negb]. now rewrite IH.
Qed.

Lemma revoke_found_then_rest id (imgs : list PreviewImage) :
  NoDup (map img_id imgs) ->
  Permutation
    (match find (id_is id) imgs with
     | Some img => [img_url img]
     | None => []
     end ++ map img_url (filter (fun img => negb (id_is id img)) imgs))
    (map img_url imgs).
Proof.
  intros Hnd.
  destruct (in_dec string_dec id (map img_id imgs)) as [Hin|Hout].
  - apply in_map_iff in Hin. destruct Hin as (img & Hid & Hin).
    destruct (filter_out_unique id imgs Hnd img Hin Hid)
      as (before & behind & E & Hf & Hfind).
    rewrite Hfind, Hf, E, !map_app. cbn [map List.app].
    apply Permutation_middle.
  - destruct (filter_out_absent id imgs Hout) as [Hf Hfind].
    rewrite Hfind, Hf. apply Permutation_refl.
Qed.

(** X8. With unique image ids, removing an image and later clearing the
    list revokes the object URL of every image exactly once, in the
    training list of [App] and in the reference lists of the InstantID
    and PhotoMaker modules alike; and removing the same id a second time
    revokes nothing. *)
Theorem remove_then_clear_revokes_once env w id :
  let training := trainingImages (app (ui w)) in
  let r1 := removeTrainingImage id env w in
  let iid := iid_referenceImages (instantID (ui w)) in
  let r2 := InstantIDModule.removeReferenceImage id env w in
  let pm := pm_referenceImages (photoMaker (ui w)) in
  let r3 := PhotoMakerModule.removeReferenceImage id env w in
  (NoDup (map img_id training) ->
   revoked_exactly_once training r1
     (removeTrainingImage id env (final r1))
     (clearTrainingImages env (final r1))) /\
  (NoDup (map img_id iid) ->
   revoked_exactly_once iid r2
     (InstantIDModule.removeReferenceImage id env (final r2))
     (InstantIDModule.clearReferenceImages env (final r2))) /\
  (NoDup (map img_id pm) ->
   revoked_exactly_once pm r3
     (PhotoMakerModule.removeReferenceImage id env (final r3))
     (PhotoMakerModule.clearReferenceImages env (final r3))).
Proof.
  cbv zeta. unfold revoked_exactly_once. split; [|split]; intros Hnd.
  - pose proof (removeTrainingImage_run id env w) as E. cbv zeta in E.
    rewrite E. cbn [final events].
    pose proof (removeTrainingImage_run id env
                  (mkWorld (apply_set (setTrainingImages
                     (filter (fun img => negb (id_is id img))
                        (trainingImages (app (ui w))))) (ui w))
                     (match find (id_is id) (trainingImages (app (ui w))) with
                      | Some _ => 2 | None => 1 end + tick w))) as E'.
    cbv zeta in E'. cbn [ui app trainingImages apply_set apply_app] in E'.
    rewrite find_after_filter in E'. rewrite E'. cbn [events].
    split; [reflexivity|].
    unfold clearTrainingImages, bind at 1, getApp. cbv beta iota.
    unfold bind. rewrite forEach_revoke. unfold set.
    cbn [ui app trainingImages apply_set apply_app events tick].
    rewrite !revoked_app, revoked_revoke_events.
    replace (revoked (match find (id_is id) (trainingImages (app (ui w))) with
                      | Some img => [RevokeObjectURL (img_url img)]
                      | None => []
                      end))
      with (match find (id_is id) (trainingImages (app (ui w))) with
            | Some img => [img_url img]
            | None => []
            end)
      by now destruct (find (id_is id) (trainingImages (app (ui w)))).
    cbn. rewrite !app_nil_r. now apply revoke_found_then_rest.
  - pose proof (removeReferenceImage_run id env w) as E. cbv zeta in E.
    rewrite E. cbn [final events].
    pose proof (removeReferenceImage_run id env
                  (mkWorld (apply_set (InstantID_setReferenceImages
                     (filter (fun img => negb (id_is id img))
                        (iid_referenceImages (instantID (ui w))))) (ui w))
                     (match find (id_is id)
                              (iid_referenceImages (instantID (ui w))) with
                      | Some _ => 2 | None => 1 end + tick w))) as E'.
    cbv zeta in E'.
    cbn [ui instantID iid_referenceImages apply_set apply_instantID] in E'.
    rewrite find_after_filter in E'. rewrite E'. cbn [events].
    split; [reflexivity|].
    unfold InstantIDModule.clearReferenceImages, bind at 1, getInstantID.
    cbv beta iota.
    unfold bind. rewrite forEach_revoke. unfold set.
    cbn [ui instantID iid_referenceImages apply_set apply_instantID events tick].
    rewrite !revoked_app, revoked_revoke_events.
    replace (revoked (match find (id_is id)
                              (iid_referenceImages (instantID (ui w))) with
                      | Some img => [RevokeObjectURL (img_url img)]
                      | None => []
                      end))
      with (match find (id_is id) (iid_referenceImages (instantID (ui w))) with
            | Some img => [img_url img]
            | None => []
            end)
      by now destruct (find (id_is id) (iid_referenceImages (instantID (ui w)))).
    cbn. rewrite !app_nil_r. now apply revoke_found_then_rest.
  - pose proof (PhotoMaker_removeReferenceImage_run id env w) as E.
    cbv zeta in E. rewrite E. cbn [final events].
    pose proof (PhotoMaker_removeReferenceImage_run id env
                  (mkWorld (apply_set (PhotoMaker_setReferenceImages
                     (filter (fun img => negb (id_is id img))
                        (pm_referenceImages (photoMaker (ui w))))) (ui w))
                     (match find (id_is id)
                              (pm_referenceImages (photoMaker (ui w))) with
                      | Some _ => 2 | None => 1 end + tick w))) as E'.
    cbv zeta in E'.
    cbn [ui photoMaker pm_referenceImages apply_set apply_photoMaker] in E'.
    rewrite find_after_filter in E'. rewrite E'. cbn [events].
    split; [reflexivity|].
    pose proof (PhotoMaker_clearReferenceImages_run env
                  (mkWorld (apply_set (PhotoMaker_setReferenceImages
                     (filter (fun img => negb (id_is id img))
                        (pm_referenceImages (photoMaker (ui w))))) (ui w))
                     (match find (id_is id)
                              (pm_referenceImages (photoMaker (ui w))) with
                      | Some _ => 2 | None => 1 end + tick w))) as E2.
    cbv zeta in E2.
    cbn [ui photoMaker pm_referenceImages apply_set apply_photoMaker] in E2.
    rewrite E2. cbn [events].
    rewrite !revoked_app, revoked_revoke_events.
    replace (revoked (match find (id_is id)
                              (pm_referenceImages (photoMaker (ui w))) with
                      | Some img => [RevokeObjectURL (img_url img)]
                      | None => []
                      end))
      with (match find (id_is id) (pm_referenceImages (photoMaker (ui w))) with
            | Some img => [img_url img]
            | None => []
            end)
      by now destruct (find (id_is id) (pm_referenceImages (photoMaker (ui w)))).
    cbn. rewrite !app_nil_r. now apply revoke_found_then_rest.
Qed.

Lemma remove_then_clear_revokes_once_witness :
  let r1 := removeTrainingImage "img_b" env_ok sample_world in
  revoked (events r1) = ["blob:b"] /\
  revoked_exactly_once (trainingImages sample_app) r1
    (removeTrainingImage "img_b" env_ok (final r1))
    (clearTrainingImages env_ok (final r1)).
Proof.
  split; [reflexivity|].
  destruct (remove_then_clear_revokes_once env_ok sample_world "img_b")
    as (H & _).
  apply H. cbn.
  repeat (constructor; [cbn; intuition discriminate|]). constructor.
Defined.

(** ** The upload loop of the PhotoMaker module *)

(** X9. When the upload loop of [generateWithPhotoMaker] runs to its end
    over [imgs], leaving [urls] in [uploadedUrls], then [urls] is as long
    as [imgs], the loop made exactly one upload per image, in list order,
    the i-th being the upload of the i-th image's file and having
    returned [urls[i]], it made no AI call, and every upload was answered
    at the time of its call, before the next one was issued. *)
Theorem PhotoMaker_upload_loop_preserves_order env w u imgs urls w' evs :
  PhotoMakerModule.uploadReferenceImages u imgs env w = mkRun (inr urls) w' evs ->
  uploaded_in_order env (tick w) imgs urls evs.
Proof.
  intros H. rewrite PhotoMaker_uploadReferenceImages_eq in H.
  apply upload_loop_returns in H. destruct H as (Hrun & Hans & _).
  destruct (loop_run_uploads _ _ _ _ _ _ _ _ _ Hrun)
    as (outs & Hup & _ & new & Hnew & -> & Hlen).
  cbn [List.app] in Hnew. subst new.
  split; [exact Hlen|]. split; [exact Hup|].
  split; [exact (loop_run_no_ai _ _ _ _ _ _ _ _ _ Hrun)|exact Hans].
Qed.

Lemma PhotoMaker_upload_loop_preserves_order_witness :
  exists urls w' evs,
    PhotoMakerModule.uploadReferenceImages alice
      [sample_image "r1"; sample_image "r2"] env_ok sample_world =
      mkRun (inr urls) w' evs /\
    uploaded_in_order env_ok 0 [sample_image "r1"; sample_image "r2"] urls evs.
Proof.
  do 3 eexists. split.
  - vm_compute. reflexivity.
  - eapply (PhotoMaker_upload_loop_preserves_order env_ok sample_world alice).
    vm_compute. reflexivity.
Defined.

(** ** Decimal numerals and the strings built from them *)

Lemma string_of_uint_free c d :
  (nat_of_ascii c < 48 \/ 57 < nat_of_ascii c) ->
  free_of c (NilEmpty.string_of_uint d).
Proof.
  intros Hc. induction d; cbn [NilEmpty.string_of_uint free_of];
    try exact I; (split; [|assumption]); intros <-; cbn in Hc; lia.
Qed.

Lemma Number_toString_free c n :
  (nat_of_ascii c < 48 \/ 57 < nat_of_ascii c) ->
  free_of c (Number_toString n).
Proof.
  intros Hc. unfold Number_toString, NilZero.string_of_uint.
  destruct (Nat.to_uint n) eqn:E;
    try (rewrite <- E; now apply string_of_uint_free).
  cbn. split; [|exact I]. intros <-. cbn in Hc. lia.
Qed.

Lemma to_uint_not_Nil n : Nat.to_uint n <> Decimal.Nil.
Proof.
  intros E. pose proof (DecimalNat.Unsigned.of_to n) as H.
  rewrite E in H. cbn in H. subst n. discriminate.
Qed.

Lemma Number_toString_inj n m :
  Number_toString n = Number_toString m -> n = m.
Proof.
  unfold Number_toString. intros E.
  apply DecimalNat.Unsigned.to_uint_inj.
  pose proof (NilZero.usu _ (to_uint_not_Nil n)) as Hn.
  pose proof (NilZero.usu _ (to_uint_not_Nil m)) as Hm.
  rewrite E in Hn. rewrite Hn in Hm. now injection Hm.
Qed.

(** A string is cut at the first occurrence of [c] in one way only. *)
Lemma split_at_first c : forall a1 a2 b1 b2,
  free_of c a1 -> free_of c a2 ->
  a1 +++ String c b1 = a2 +++ String c b2 -> a1 = a2 /\ b1 = b2.
Proof.
  induction a1 as [|x a1 IH]; intros [|y a2] b1 b2 H1 H2 E; cbn in *.
  - injection E as ->. now split.
  - injection E as <- _. now destruct H2.
  - injection E as -> _. now destruct H1.
  - injection E as -> E. destruct H1 as [_ H1], H2 as [_ H2].
    destruct (IH a2 b1 b2 H1 H2 E) as [-> ->]. now split.
Qed.

Lemma append_cancel_l p : forall a b, p +++ a = p +++ b -> a = b.
Proof.
  induction p as [|c p IH]; intros a b E; [exact E|].
  injection E as E. now apply IH.
Qed.

Lemma append_assoc3 a b c : (a +++ b) +++ c = a +++ b +++ c.
Proof. induction a as [|x a IH]; cbn; [reflexivity|now rewrite IH]. Qed.

(** In [head ++ t ++ c ++ i] and in [head ++ t ++ c ++ i ++ c ++ rest], with
    [t] and [i] decimal numerals and [c] no digit, [i] can be read back. *)
Lemma stamped_id_inj c head t t' i i' :
  (nat_of_ascii c < 48 \/ 57 < nat_of_ascii c) ->
  head +++ Number_toString t +++ String c (Number_toString i) =
  head +++ Number_toString t' +++ String c (Number_toString i') ->
  i = i'.
Proof.
  intros Hc E. apply append_cancel_l in E.
  apply split_at_first in E; try now apply Number_toString_free.
  apply Number_toString_inj. apply E.
Qed.

Lemma stamped_path_inj c head t t' i i' rest rest' :
  (nat_of_ascii c < 48 \/ 57 < nat_of_ascii c) ->
  head +++ Number_toString t +++ String c (Number_toString i +++ String c rest) =
  head +++ Number_toString t' +++
    String c (Number_toString i' +++ String c rest') ->
  i = i'.
Proof.
  intros Hc E. apply append_cancel_l in E.
  apply split_at_first in E; try now apply Number_toString_free.
  destruct E as [_ E].
  apply split_at_first in E; try now apply Number_toString_free.
  apply Number_toString_inj. apply E.
Qed.

(** ** Where uploads go *)

Lemma upload_requests_app l1 l2 :
  upload_requests (l1 ++ l2) = upload_requests l1 ++ upload_requests l2.
Proof. apply select_app. Qed.

Lemma upload_paths_app l1 l2 :
  upload_paths (l1 ++ l2) = upload_paths l1 ++ upload_paths l2.
Proof. unfold upload_paths. now rewrite upload_requests_app, map_app. Qed.

Lemma loop_run_requests mk k n path i imgs acc evs res :
  loop_run mk k n path i imgs acc evs res ->
  Forall (fun x => snd x = true /\
                   exists t j img,
                     i <= j /\ In img imgs /\
                     fst (fst x) = img_file img /\ snd (fst x) = path t j img)
         (upload_requests evs).
Proof.
  induction 1 as [i acc|i img imgs acc t r evs res _ IH|i img imgs acc t e].
  - constructor.
  - change (upload_requests
              (SetState (mk (fraction i n k)) :: DateNow t ::
               StorageUpload (img_file img) (path t i img) true (inr r) :: evs))
      with ((img_file img, path t i img, true) :: upload_requests evs).
    constructor.
    + split; [reflexivity|]. exists t, i, img. cbn. auto.
    + eapply Forall_impl; [|exact IH].
      intros x (Hb & t' & j & img' & Hj & Hin & Hf & Hp).
      split; [exact Hb|]. exists t', j, img'. cbn. split; [lia|]. auto.
  - constructor; [|constructor].
    split; [reflexivity|]. exists t, i, img. cbn. auto.
Qed.

Lemma loop_run_paths_NoDup mk k n path i imgs acc evs res :
  (forall t t' j j' a a', path t j a = path t' j' a' -> j = j') ->
  loop_run mk k n path i imgs acc evs res ->
  NoDup (upload_paths evs).
Proof.
  intros Hinj.
  induction 1 as [i acc|i img imgs acc t r evs res Hrun IH|i img imgs acc t e].
  - constructor.
  - change (upload_paths
              (SetState (mk (fraction i n k)) :: DateNow t ::
               StorageUpload (img_file img) (path t i img) true (inr r) :: evs))
      with (path t i img :: upload_paths evs).
    constructor; [|exact IH].
    intros Hin. unfold upload_paths in Hin. apply in_map_iff in Hin.
    destruct Hin as (x & Hx & Hin).
    pose proof (loop_run_requests _ _ _ _ _ _ _ _ _ Hrun) as Hall.
    rewrite Forall_forall in Hall.
    destruct (Hall x Hin) as (_ & t' & j & img' & Hj & _ & _ & Hp).
    rewrite Hp in Hx. apply Hinj in Hx. lia.
  - repeat constructor. intros [].
Qed.

Lemma prefix3 a b c rest : prefix (a +++ b +++ c) (a +++ b +++ c +++ rest) = true.
Proof.
  rewrite <- (append_assoc3 b c rest), <- (append_assoc3 a (b +++ c) rest).
  apply prefix_append.
Qed.

Lemma indexed_path_inj folder uid t t' j j' name name' :
  folder +++ uid +++ "/" +++ Number_toString t +++ "-" +++
    Number_toString j +++ "-" +++ name =
  folder +++ uid +++ "/" +++ Number_toString t' +++ "-" +++
    Number_toString j' +++ "-" +++ name' ->
  j = j'.
Proof.
  intros E. do 3 apply append_cancel_l in E.
  apply (stamped_path_inj "-" EmptyString t t' j j' name name');
    [cbn; lia|exact E].
Qed.

(** The uploads of a loop over [imgs] whose paths are built by [path]. *)
Lemma loop_run_confined mk k n path folder u i imgs acc evs res :
  (forall t j img, prefix (folder +++ user_id u +++ "/") (path t j img) = true) ->
  (forall t t' j j' a a', path t j a = path t' j' a' -> j = j') ->
  loop_run mk k n path i imgs acc evs res ->
  uploads_confined folder u (map img_file imgs) evs.
Proof.
  intros Hpre Hinj Hrun. split.
  - eapply Forall_impl; [|exact (loop_run_requests _ _ _ _ _ _ _ _ _ Hrun)].
    intros x (Hb & t & j & img & _ & Hin & Hf & Hp).
    split; [exact Hb|]. split.
    + rewrite Hf. now apply in_map.
    + rewrite Hp. apply Hpre.
  - exact (loop_run_paths_NoDup _ _ _ _ _ _ _ _ _ Hinj Hrun).
Qed.

Lemma uploads_confined_around folder u files pro evs post :
  upload_requests pro = [] -> upload_requests post = [] ->
  uploads_confined folder u files evs ->
  uploads_confined folder u files (pro ++ evs ++ post).
Proof.
  intros Hpro Hpost H. unfold uploads_confined, upload_paths in *.
  now rewrite !upload_requests_app, Hpro, Hpost, app_nil_r.
Qed.

Lemma training_tail_requests env u prev res t t2 t3 :
  upload_requests (training_tail env u prev res t t2 t3) = [].
Proof. now destruct res. Qed.

Lemma instantID_outcome_requests env old n res sel :
  upload_requests (fst (instantID_outcome env old n res sel) ++
                   instantID_epilogue) = [].
Proof.
  unfold instantID_outcome, instantID_epilogue, instantID_failure,
         upload_requests.
  destruct res as [e|urls]; [reflexivity|].
  destruct (find_destination _ _) as [d|]; [|reflexivity].
  cbv zeta.
  destruct (ai_modifyImage env _ _) as [e|[[[|x xs]|]]];
    cbn [data]; project; reflexivity.
Qed.

Lemma photoMaker_outcome_requests env s old n res sel :
  upload_requests (fst (photoMaker_outcome env s old n res sel) ++
                   photoMaker_epilogue) = [].
Proof.
  unfold photoMaker_outcome, photoMaker_epilogue, photoMaker_failure,
         upload_requests.
  destruct res as [e|urls]; [reflexivity|].
  destruct (find_destination _ _) as [d|]; [|reflexivity].
  cbv zeta.
  destruct (ai_modifyImage env _ _) as [e|[[[|x xs]|]]];
    cbn [data]; project; reflexivity.
Qed.

Lemma single_upload_confined folder u (f : File) p :
  prefix (folder +++ user_id u +++ "/") p = true ->
  Forall (fun x : File * string * bool => snd x = true /\ In (fst (fst x)) [f] /\
                   prefix (folder +++ user_id u +++ "/") (snd (fst x)) = true)
         [(f, p, true)] /\
  NoDup [p].
Proof.
  intros Hp. split.
  - constructor; [|constructor]. cbn. auto.
  - repeat constructor. intros [].
Qed.

(** X10. In every run of [trainLoRAModel], [generateTravelPhoto],
    [generateWithInstantID], [generateWithPhotoMaker] and
    [generateWithFaceSwap] that passes its guard, each upload sends one of
    the user's chosen files, with [upsert], to a path that starts with the
    handler's folder followed by the user's id and a slash
    ([lora-training/], [originals/], [instant-id/], [photomaker/],
    [face-portraits/]); and no two uploads of a run go to the same path,
    whatever the clock reads and whatever the files are called, so no
    upload of a run overwrites another. *)
Theorem uploads_stay_in_the_user_folder env w u sel :
  truthy sel = true ->
  (user (app (ui w)) = Some u ->
   5 <= List.length (trainingImages (app (ui w))) ->
   uploads_confined "lora-training/" u
     (map img_file (trainingImages (app (ui w))))
     (events (trainLoRAModel env w))) /\
  (forall f,
      selectedFile (app (ui w)) = Some f ->
      selectedDestination (app (ui w)) = sel ->
      user (app (ui w)) = Some u ->
      uploads_confined "originals/" u [f] (events (generateTravelPhoto env w))) /\
  (iid_referenceImages (instantID (ui w)) <> [] ->
   uploads_confined "instant-id/" u
     (map img_file (iid_referenceImages (instantID (ui w))))
     (events (InstantIDModule.generateWithInstantID (App_props u sel) env w))) /\
  (pm_referenceImages (photoMaker (ui w)) <> [] ->
   uploads_confined "photomaker/" u
     (map img_file (pm_referenceImages (photoMaker (ui w))))
     (events (PhotoMakerModule.generateWithPhotoMaker (App_props u sel) env w))) /\
  (forall portrait,
      fs_facePortrait (faceSwap (ui w)) = Some portrait ->
      uploads_confined "face-portraits/" u [img_file portrait]
        (events (FaceSwapModule.generateWithFaceSwap (App_props u sel) env w))).
Proof.
  intros Hs. split; [|split; [|split; [|split]]].
  - intros Hu Hn.
    destruct (trainLoRAModel_run env w u Hu Hn)
      as (evs & res & w' & t & t2 & t3 & E & Hrun & _).
    rewrite E. cbn [events].
    apply uploads_confined_around;
      [reflexivity|apply training_tail_requests|].
    eapply loop_run_confined; [| |exact Hrun].
    + intros. apply prefix3.
    + intros ? ? ? ? ? ? Hp. exact (indexed_path_inj _ _ _ _ _ _ _ _ Hp).
  - intros f Hf <- Hu.
    destruct (generateTravelPhoto_run env w f u Hf Hs Hu) as (w' & E & _).
    rewrite E. cbn [events]. clear E.
    unfold uploads_confined, upload_paths, upload_requests, travel_outcome,
           generation_prologue, generation_epilogue, travel_failure.
    cbv zeta.
    destruct (storage_upload env _ _ _ _) as [e|res];
      [project; apply single_upload_confined, prefix3|].
    destruct (find_destination _ _) as [d|];
      [|project; apply single_upload_confined, prefix3].
    destruct (ai_modifyImage env _ _) as [e|[[[|x xs]|]]];
      cbn [data]; project; apply single_upload_confined, prefix3.
  - intros Hne.
    destruct (generateWithInstantID_run env w u sel Hne Hs)
      as (evs & res & n & w' & Hrun & _ & E & _).
    rewrite E. cbn [events].
    apply uploads_confined_around;
      [reflexivity|apply instantID_outcome_requests|].
    eapply loop_run_confined; [| |exact Hrun].
    + intros. apply prefix3.
    + intros ? ? ? ? ? ? Hp. exact (indexed_path_inj _ _ _ _ _ _ _ _ Hp).
  - intros Hne.
    destruct (generateWithPhotoMaker_run env w u sel Hne Hs)
      as (evs & res & n & w' & Hrun & _ & E & _).
    rewrite E. cbn [events].
    apply uploads_confined_around;
      [reflexivity|apply photoMaker_outcome_requests|].
    eapply loop_run_confined; [| |exact Hrun].
    + intros. apply prefix3.
    + intros ? ? ? ? ? ? Hp. exact (indexed_path_inj _ _ _ _ _ _ _ _ Hp).
  - intros portrait Hp.
    destruct (generateWithFaceSwap_run env w portrait u sel Hp Hs)
      as (w' & E & _).
    rewrite E. cbn [events]. clear E.
    unfold uploads_confined, upload_paths, upload_requests, faceSwap_outcome,
           faceSwap_prologue, faceSwap_epilogue, faceSwap_failure.
    cbv zeta.
    destruct (storage_upload env _ _ _ _) as [e|res];
      [project; apply single_upload_confined, prefix3|].
    destruct (find_destination _ _) as [d|];
      [|project; apply single_upload_confined, prefix3].
    destruct (ai_generateImage env _ _) as [e|[[[|scene0 scenes]|]]];
      cbn [data]; try (project; apply single_upload_confined, prefix3).
    destruct (ai_modifyImage env _ _) as [e|[[[|x xs]|]]];
      cbn [data]; project; apply single_upload_confined, prefix3.
Qed.

Lemma uploads_stay_in_the_user_folder_witness :
  uploads_confined "lora-training/" alice
    (map img_file (trainingImages sample_app))
    (events (trainLoRAModel env_ok sample_world)) /\
  upload_paths (events (trainLoRAModel env_ok sample_world)) <> [].
Proof.
  split; [|vm_compute; discriminate].
  destruct (uploads_stay_in_the_user_folder env_ok sample_world alice "paris"
              eq_refl) as (H & _).
  apply H; [reflexivity|vm_compute; lia].
Defined.

(** ** What a generation adds to the gallery *)

Lemma stamp_all_ids mkImg head env data :
  (forall t i d c,
      gi_id (mkImg t i d c) =
      head +++ Number_toString t +++ "_" +++ Number_toString i) ->
  forall n i,
    Forall (fun id => exists t j,
                i <= j /\
                id = head +++ Number_toString t +++ "_" +++ Number_toString j)
           (map gi_id (stamp_all mkImg env n i data)).
Proof.
  intros Hid. induction data as [|d data IH]; intros n i; cbn [stamp_all map].
  - constructor.
  - constructor.
    + rewrite Hid. eauto.
    + eapply Forall_impl; [|apply IH].
      intros id (t & j & Hj & ->). exists t, j. split; [lia|reflexivity].
Qed.

Lemma stamp_all_ids_NoDup mkImg head env data :
  (forall t i d c,
      gi_id (mkImg t i d c) =
      head +++ Number_toString t +++ "_" +++ Number_toString i) ->
  forall n i, NoDup (map gi_id (stamp_all mkImg env n i data)).
Proof.
  intros Hid. induction data as [|d data IH]; intros n i; cbn [stamp_all map].
  - constructor.
  - constructor; [|apply IH].
    intros Hin.
    pose proof (stamp_all_ids mkImg head env data Hid (S (S n)) (S i)) as Hall.
    rewrite Forall_forall in Hall.
    destruct (Hall _ Hin) as (t & j & Hj & E).
    rewrite Hid in E.
    apply (stamped_id_inj "_" head) in E; [lia|cbn; lia].
Qed.

Lemma NoDup_ids_rev (l : list GeneratedImage) :
  NoDup (map gi_id l) -> NoDup (map gi_id (rev l)).
Proof.
  intros H. rewrite map_rev.
  eapply Permutation_NoDup; [apply Permutation_rev|exact H].
Qed.

Lemma travel_outcome_ids env s tk f u :
  NoDup (map gi_id (snd (travel_outcome env s tk f u))).
Proof.
  unfold travel_outcome. cbv zeta.
  destruct (storage_upload env _ _ _ _) as [e|res]; [constructor|].
  destruct (find_destination _ _) as [d|]; [|constructor].
  destruct (ai_modifyImage env _ _) as [e|[[[|x xs]|]]];
    cbn [data snd]; try apply NoDup_nil.
  now apply (stamp_all_ids_NoDup _ "gen_").
Qed.

Lemma lora_outcome_ids env s tk :
  NoDup (map gi_id (snd (lora_outcome env s tk))).
Proof.
  unfold lora_outcome. cbv zeta.
  destruct (find_destination _ _) as [d|]; [|constructor].
  destruct (ai_generateImage env _ _) as [e|[[[|x xs]|]]];
    cbn [data snd]; try apply NoDup_nil.
  now apply (stamp_all_ids_NoDup _ "lora_gen_").
Qed.

Lemma faceSwap_outcome_ids env old tk portrait u sel :
  NoDup (map gi_id (snd (faceSwap_outcome env old tk portrait u sel))).
Proof.
  unfold faceSwap_outcome. cbv zeta.
  destruct (storage_upload env _ _ _ _) as [e|res]; [constructor|].
  destruct (find_destination _ _) as [d|]; [|constructor].
  destruct (ai_generateImage env _ _) as [e|[[[|scene0 scenes]|]]];
    cbn [data snd]; try apply NoDup_nil.
  destruct (ai_modifyImage env _ _) as [e|[[[|x xs]|]]];
    cbn [data snd]; try apply NoDup_nil.
  now apply (stamp_all_ids_NoDup _ "faceswap_gen_").
Qed.

Lemma instantID_outcome_ids env old n res sel :
  NoDup (map gi_id (snd (instantID_outcome env old n res sel))).
Proof.
  unfold instantID_outcome. cbv zeta.
  destruct res as [e|urls]; [constructor|].
  destruct (find_destination _ _) as [d|]; [|constructor].
  destruct (ai_modifyImage env _ _) as [e|[[[|x xs]|]]];
    cbn [data snd]; try apply NoDup_nil.
  now apply (stamp_all_ids_NoDup _ "instant_gen_").
Qed.

Lemma photoMaker_outcome_ids env s old n res sel :
  NoDup (map gi_id (snd (photoMaker_outcome env s old n res sel))).
Proof.
  unfold photoMaker_outcome. cbv zeta.
  destruct res as [e|urls]; [constructor|].
  destruct (find_destination _ _) as [d|]; [|constructor].
  destruct (ai_modifyImage env _ _) as [e|[[[|x xs]|]]];
    cbn [data snd]; try apply NoDup_nil.
  now apply (stamp_all_ids_NoDup _ "photomaker_gen_").
Qed.

(** X11. A run of a generation function that passes its guard never
    drops or reorders an image of the gallery: what it leaves in
    [generatedImages] is the old list with the new images in front of it.
    The ids of the images added by one run are pairwise distinct,
    whatever the clock reads, since each carries its index in the
    answer. *)
Theorem generation_only_prepends env w u sel :
  truthy sel = true ->
  (forall f,
      selectedFile (app (ui w)) = Some f ->
      selectedDestination (app (ui w)) = sel ->
      user (app (ui w)) = Some u ->
      only_prepends w (generateTravelPhoto env w)) /\
  (selectedDestination (app (ui w)) = sel ->
   user (app (ui w)) = Some u ->
   model_ready (currentModel (app (ui w))) = true ->
   only_prepends w (generateWithLoRAModel env w)) /\
  (iid_referenceImages (instantID (ui w)) <> [] ->
   only_prepends w
     (InstantIDModule.generateWithInstantID (App_props u sel) env w)) /\
  (pm_referenceImages (photoMaker (ui w)) <> [] ->
   only_prepends w
     (PhotoMakerModule.generateWithPhotoMaker (App_props u sel) env w)) /\
  (forall portrait,
      fs_facePortrait (faceSwap (ui w)) = Some portrait ->
      only_prepends w
        (FaceSwapModule.generateWithFaceSwap (App_props u sel) env w)).
Proof.
  intros Hs. unfold only_prepends. split; [|split; [|split; [|split]]].
  - intros f Hf <- Hu.
    destruct (generateTravelPhoto_run env w f u Hf Hs Hu)
      as (w' & E & Himgs & _).
    rewrite E. cbn [final]. eexists. split; [exact Himgs|].
    apply travel_outcome_ids.
  - intros <- Hu Hm.
    destruct (generateWithLoRAModel_run env w u Hs Hu Hm)
      as (w' & E & Himgs & _).
    rewrite E. cbn [final]. eexists. split; [exact Himgs|].
    apply lora_outcome_ids.
  - intros Hne.
    destruct (generateWithInstantID_run env w u sel Hne Hs)
      as (evs & res & n & w' & _ & _ & E & Himgs & _).
    rewrite E. cbn [final]. eexists. split; [exact Himgs|].
    apply NoDup_ids_rev, instantID_outcome_ids.
  - intros Hne.
    destruct (generateWithPhotoMaker_run env w u sel Hne Hs)
      as (evs & res & n & w' & _ & _ & E & Himgs & _).
    rewrite E. cbn [final]. eexists. split; [exact Himgs|].
    apply NoDup_ids_rev, photoMaker_outcome_ids.
  - intros portrait Hp.
    destruct (generateWithFaceSwap_run env w portrait u sel Hp Hs)
      as (w' & E & Himgs & _).
    rewrite E. cbn [final]. eexists. split; [exact Himgs|].
    apply NoDup_ids_rev, faceSwap_outcome_ids.
Qed.

Lemma generation_only_prepends_witness :
  only_prepends sample_world (generateTravelPhoto env_ok sample_world) /\
  List.length (generatedImages
                 (app (ui (final (generateTravelPhoto env_ok sample_world))))) = 2.
Proof.
  split; [|reflexivity].
  destruct (generation_only_prepends env_ok sample_world alice "paris" eq_refl)
    as (H & _).
  apply (H _ eq_refl eq_refl eq_refl).
Defined.

Lemma In_ai_calls e tr : In e tr -> is_ai e = true -> In e (ai_calls tr).
Proof.
  intros Hin Hai. unfold ai_calls, select. apply in_flat_map.
  exists e. split; [exact Hin|]. rewrite Hai. now left.
Qed.

(** X12. The three modules hand their images to the parent one at a time,
    each put in front of the gallery: whenever the [blink.ai.modifyImage]
    call of a run of [generateWithInstantID], [generateWithPhotoMaker] or
    [generateWithFaceSwap] returned a non-empty [data], the gallery ends
    with one new image per element in front of the old ones, in the
    reverse of the order of [data]; each new image carries the
    destination's display name and, for InstantID and PhotoMaker, an empty
    [originalImage] and the uploaded reference URLs as [originalImages];
    for the face swap, the portrait's URL as [originalImage]. *)
Theorem modules_deliver_in_reverse env w u sel d :
  find_destination TRAVEL_DESTINATIONS sel = Some d ->
  (iid_referenceImages (instantID (ui w)) <> [] ->
   delivered_reversed d (fun req => (EmptyString, Some (mod_images req))) w
     (InstantIDModule.generateWithInstantID (App_props u sel) env w)) /\
  (pm_referenceImages (photoMaker (ui w)) <> [] ->
   delivered_reversed d (fun req => (EmptyString, Some (mod_images req))) w
     (PhotoMakerModule.generateWithPhotoMaker (App_props u sel) env w)) /\
  (forall portrait,
      fs_facePortrait (faceSwap (ui w)) = Some portrait ->
      delivered_reversed d
        (fun req => (last (mod_images req) EmptyString, None)) w
        (FaceSwapModule.generateWithFaceSwap (App_props u sel) env w)).
Proof.
  intros Hd. pose proof (find_destination_truthy _ _ Hd) as Hs.
  unfold delivered_reversed. split; [|split].
  - intros Hne req got Hin Hgot.
    destruct (generateWithInstantID_run env w u sel Hne Hs)
      as (evs & res & n & w' & Hrun & _ & E & Himgs & _).
    rewrite E in *. cbn [events final] in *. rewrite Himgs. clear E Himgs.
    pose proof (loop_run_no_ai _ _ _ _ _ _ _ _ _ Hrun) as Hai.
    unfold ai_calls in Hai. revert Hin.
    unfold instantID_outcome, instantID_request, instantID_prologue,
           instantID_epilogue, instantID_failure.
    cbv zeta. rewrite Hd.
    destruct res as [e|urls].
    { intros Hin. apply In_ai_calls in Hin; [|reflexivity]. revert Hin.
      project. rewrite Hai. intros []. }
    destruct (ai_modifyImage env _ _) as [e|[[[|x xs]|]]]; cbn [data];
      intros Hin; apply In_ai_calls in Hin; try reflexivity; revert Hin;
      project; rewrite Hai; cbn [List.app];
      intros [Hin|[]]; inversion Hin; subst; try contradiction.
    eexists. split; [reflexivity|]. split.
    + now apply stamp_all_urls.
    + now apply stamp_all_Forall.
  - intros Hne req got Hin Hgot.
    destruct (generateWithPhotoMaker_run env w u sel Hne Hs)
      as (evs & res & n & w' & Hrun & _ & E & Himgs & _).
    rewrite E in *. cbn [events final] in *. rewrite Himgs. clear E Himgs.
    pose proof (loop_run_no_ai _ _ _ _ _ _ _ _ _ Hrun) as Hai.
    unfold ai_calls in Hai. revert Hin.
    unfold photoMaker_outcome, photoMaker_request, photoMaker_prologue,
           photoMaker_epilogue, photoMaker_failure.
    cbv zeta. rewrite Hd.
    destruct res as [e|urls].
    { intros Hin. apply In_ai_calls in Hin; [|reflexivity]. revert Hin.
      project. rewrite Hai. intros []. }
    destruct (ai_modifyImage env _ _) as [e|[[[|x xs]|]]]; cbn [data];
      intros Hin; apply In_ai_calls in Hin; try reflexivity; revert Hin;
      project; rewrite Hai; cbn [List.app];
      intros [Hin|[]]; inversion Hin; subst; try contradiction.
    eexists. split; [reflexivity|]. split.
    + now apply stamp_all_urls.
    + now apply stamp_all_Forall.
  - intros portrait Hp req got Hin Hgot.
    destruct (generateWithFaceSwap_run env w portrait u sel Hp Hs)
      as (w' & E & Himgs & _).
    rewrite E in *. cbn [events final] in *. rewrite Himgs. clear E Himgs.
    revert Hin.
    unfold faceSwap_outcome, faceSwap_request, scene_request,
           faceSwap_prologue, faceSwap_epilogue, faceSwap_failure.
    cbv zeta. rewrite Hd.
    destruct (storage_upload env _ _ _ _) as [e|res].
    { intros Hin. apply In_ai_calls in Hin; [|reflexivity]. revert Hin.
      project. intros []. }
    destruct (ai_generateImage env _ _) as [e|[[[|scene0 scenes]|]]];
      cbn [data];
      try (intros Hin; apply In_ai_calls in Hin; [|reflexivity]; revert Hin;
           project; intros [Hin|[]]; discriminate).
    destruct (ai_modifyImage env _ _) as [e|[[[|x xs]|]]]; cbn [data];
      intros Hin; apply In_ai_calls in Hin; try reflexivity; revert Hin;
      project; cbn [List.app];
      intros [Hin|[Hin|[]]]; try discriminate; inversion Hin; subst;
      try contradiction.
    eexists. split; [reflexivity|]. split.
    + now apply stamp_all_urls.
    + now apply stamp_all_Forall.
Qed.

Lemma modules_deliver_in_reverse_witness :
  let r := InstantIDModule.generateWithInstantID (App_props alice "paris")
             env_ok sample_world in
  map gi_url (generatedImages (app (ui (final r)))) =
    ["https://ai/2"; "https://ai/1"] /\
  delivered_reversed
    (mkDestination "paris" "Paris, France"
       (d_emoji (hd (mkDestination "x" "x" "x" "x") TRAVEL_DESTINATIONS))
       "Eiffel Tower backdrop")
    (fun req => (EmptyString, Some (mod_images req))) sample_world r.
Proof.
  split; [reflexivity|].
  destruct (modules_deliver_in_reverse env_ok sample_world alice "paris" _
              eq_refl) as (H & _).
  apply H. discriminate.
Defined.

(** ** Progress bars *)


















(** ** What the user is told *)












(** ** The custom prompt of the PhotoMaker module *)


Lemma trimEnd_blank s : blank s = true -> trimEnd s = EmptyString.
Proof.
  induction s as [|c s IH]; [reflexivity|]. cbn.
  destruct (is_space c); [|discriminate].
  intros H. now rewrite (IH H).
Qed.











(** ** The multi-file inputs *)

Section FileInputFacts.

Variable rand : nat -> string.
Variable mint : nat -> File -> string.

Lemma preview_step_run tag file i env w :
  preview_step rand mint tag file i env w =
  mkRun (inr (mkPreviewImage
                (tag +++ Number_toString (date_now env (tick w)) +++ "_" +++
                 rand (S (tick w)))
                file (mint (S (tick w)) file) None))
        (mkWorld (ui w) (S (tick w)))
        [DateNow (date_now env (tick w))].
Proof. reflexivity. Qed.

Lemma previewImages_run tag env files : forall i w,
  map_i files i (preview_step rand mint tag) env w =
  mkRun (inr (preview_all rand mint tag env (tick w) files))
        (mkWorld (ui w) (List.length files + tick w))
        (clock_events env (tick w) (List.length files)).
Proof.
  induction files as [|f files IH]; intros i w.
  - now destruct w.
  - rewrite map_i_cons, preview_step_run, IH.
    cbn [ui tick List.app List.length preview_all clock_events].
    rewrite app_nil_r.
    replace (List.length files + S (tick w))
      with (S (List.length files + tick w)) by lia.
    reflexivity.
Qed.

Lemma preview_all_files tag env files : forall n,
  map img_file (preview_all rand mint tag env n files) = files /\
  Forall (fun img => img_uploadedUrl img = None)
         (preview_all rand mint tag env n files).
Proof.
  induction files as [|f files IH]; intros n; cbn; [now split|].
  destruct (IH (S n)) as [-> H]. split; [reflexivity|now constructor].
Qed.

Lemma clock_events_select {A} (view : Event -> list A) env k :
  (forall t, view (DateNow t) = []) ->
  forall n, select view (clock_events env n k) = [].
Proof.
  intros H. induction k as [|k IH]; intros n; [reflexivity|].
  cbn [clock_events]. now rewrite select_cons, H, IH.
Qed.

Lemma all_images_length (files : list File) :
  negb (List.length (filter is_image files) =? List.length files) =
  negb (forallb is_image files).
Proof.
  f_equal. induction files as [|f files IH]; [reflexivity|].
  cbn [filter forallb]. destruct (is_image f); cbn [andb List.length].
  - exact IH.
  - apply Nat.eqb_neq.
    pose proof (filter_length_le is_image files). lia.
Qed.

Lemma files_are_added_intro files prev after added w' (r : Run unit) c
    (mk : list PreviewImage -> SetCall) :
  r = mkRun (inr tt) w'
        ((if negb (List.length (filter is_image files) =? List.length files)
          then [ToastError
                  "Some files were skipped. Only image files are allowed."]
          else []) ++
         clock_events (fst c) (snd c) (List.length (filter is_image files)) ++
         [SetState (mk after);
          ToastSuccess
            (added (Number_toString (List.length (filter is_image files))))]) ->
  (exists n tag,
      after = prev ++ preview_all rand mint tag (fst c) n (filter is_image files)) ->
  files_are_added files prev after added r.
Proof.
  intros -> (n & tag & ->). unfold files_are_added. cbv zeta.
  cbn [result events].
  split; [reflexivity|]. split.
  { eexists. split; [reflexivity|]. apply preview_all_files. }
  rewrite all_images_length.
  unfold toast_errors, toast_successes, external_calls, revoked.
  rewrite !select_app, !clock_events_select by reflexivity.
  now destruct (forallb is_image files).
Qed.

End FileInputFacts.

(** Rewrite the [imageFiles.map] of the goal. *)
Ltac use_previews rand mint tag :=
  match goal with
  | |- context [map_i ?l ?i ?f ?e ?w] =>
      change (map_i l i f e w) with (map_i l i (preview_step rand mint tag) e w);
      rewrite (previewImages_run rand mint tag e l i w)
  end.

Section FileInputRuns.

Variable rand : nat -> string.
Variable mint : nat -> File -> string.

Lemma handleMultipleFileSelect_run files env w :
  let imageFiles := filter is_image files in
  let skipped := negb (List.length imageFiles =? List.length files) in
  let n := (if skipped then 1 else 0) + tick w in
  let after := trainingImages (app (ui w)) ++
               preview_all rand mint "img_" env n imageFiles in
  handleMultipleFileSelect rand mint (Some files) env w =
  mkRun (inr tt)
        (mkWorld (apply_set (setTrainingImages after) (ui w))
                 (2 + List.length imageFiles + n))
        ((if skipped
          then [ToastError
                  "Some files were skipped. Only image files are allowed."]
          else []) ++
         clock_events env n (List.length imageFiles) ++
         [SetState (setTrainingImages after);
          ToastSuccess ("Added " +++ Number_toString (List.length imageFiles) +++
                        " images to training dataset")]).
Proof.
  cbv zeta. unfold handleMultipleFileSelect. cbv zeta.
  unfold bind at 1.
  destruct (negb (List.length (filter is_image files) =? List.length files));
    unfold toast_error, emit, ret at 1; cbv beta iota;
    unfold bind at 1; use_previews rand mint "img_"; cbv beta iota;
    unfold bind, getApp, set, toast_success, emit;
    cbn [ui tick app List.app Nat.add]; rewrite <- ?app_assoc;
    cbn [List.app]; repeat f_equal; lia.
Qed.

Lemma InstantID_handleFileSelect_run files env w :
  let imageFiles := filter is_image files in
  let skipped := negb (List.length imageFiles =? List.length files) in
  let n := (if skipped then 1 else 0) + tick w in
  let after := iid_referenceImages (instantID (ui w)) ++
               preview_all rand mint "instant_" env n imageFiles in
  InstantID_handleFileSelect rand mint (Some files) env w =
  mkRun (inr tt)
        (mkWorld (apply_set (InstantID_setReferenceImages after) (ui w))
                 (2 + List.length imageFiles + n))
        ((if skipped
          then [ToastError
                  "Some files were skipped. Only image files are allowed."]
          else []) ++
         clock_events env n (List.length imageFiles) ++
         [SetState (InstantID_setReferenceImages after);
          ToastSuccess ("Added " +++ Number_toString (List.length imageFiles) +++
                        " reference images")]).
Proof.
  cbv zeta. unfold InstantID_handleFileSelect. cbv zeta.
  unfold bind at 1.
  destruct (negb (List.length (filter is_image files) =? List.length files));
    unfold toast_error, emit, ret at 1; cbv beta iota;
    unfold bind at 1; use_previews rand mint "instant_"; cbv beta iota;
    unfold bind, getInstantID, set, toast_success, emit;
    cbn [ui tick instantID List.app Nat.add]; rewrite <- ?app_assoc;
    cbn [List.app]; repeat f_equal; lia.
Qed.

Lemma PhotoMaker_handleFileSelect_run files env w :
  let imageFiles := filter is_image files in
  let skipped := negb (List.length imageFiles =? List.length files) in
  let n := (if skipped then 1 else 0) + tick w in
  let after := pm_referenceImages (photoMaker (ui w)) ++
               preview_all rand mint "photomaker_" env n imageFiles in
  PhotoMaker_handleFileSelect rand mint (Some files) env w =
  mkRun (inr tt)
        (mkWorld (apply_set (PhotoMaker_setReferenceImages after) (ui w))
                 (2 + List.length imageFiles + n))
        ((if skipped
          then [ToastError
                  "Some files were skipped. Only image files are allowed."]
          else []) ++
         clock_events env n (List.length imageFiles) ++
         [SetState (PhotoMaker_setReferenceImages after);
          ToastSuccess ("Added " +++ Number_toString (List.length imageFiles) +++
                        " reference images")]).
Proof.
  cbv zeta. unfold PhotoMaker_handleFileSelect. cbv zeta.
  unfold bind at 1.
  destruct (negb (List.length (filter is_image files) =? List.length files));
    unfold toast_error, emit, ret at 1; cbv beta iota;
    unfold bind at 1; use_previews rand mint "photomaker_"; cbv beta iota;
    unfold bind, getPhotoMaker, set, toast_success, emit;
    cbn [ui tick photoMaker List.app Nat.add]; rewrite <- ?app_assoc;
    cbn [List.app]; repeat f_equal; lia.
Qed.

(** X16. The multi-file inputs ([handleMultipleFileSelect] of [App],
    [handleFileSelect] of the InstantID and PhotoMaker modules) do nothing
    when the input has no file list.  Given a selection, they append to
    their list one preview per file whose type starts with [image/], in
    the order of the selection, with no uploaded URL, and leave the
    previews already there in place and every other cell alone; they
    show the error toast exactly when some file was skipped, and always
    the success toast with the number of files kept, which is 0 for an
    empty selection or one without images; they call neither the storage
    nor an AI endpoint and revoke no object URL. *)
Theorem file_inputs_keep_images_only files env w :
  let training := trainingImages (app (ui w)) in
  let r1 := handleMultipleFileSelect rand mint (Some files) env w in
  let iid := iid_referenceImages (instantID (ui w)) in
  let r2 := InstantID_handleFileSelect rand mint (Some files) env w in
  let pm := pm_referenceImages (photoMaker (ui w)) in
  let r3 := PhotoMaker_handleFileSelect rand mint (Some files) env w in
  (no_op w (handleMultipleFileSelect rand mint None env w) /\
   no_op w (InstantID_handleFileSelect rand mint None env w) /\
   no_op w (PhotoMaker_handleFileSelect rand mint None env w)) /\
  (files_are_added files training (trainingImages (app (ui (final r1))))
     (fun n => "Added " +++ n +++ " images to training dataset") r1 /\
   rewritten [setTrainingImages (trainingImages (app (ui (final r1))))]
             (ui w) (ui (final r1))) /\
  (files_are_added files iid (iid_referenceImages (instantID (ui (final r2))))
     (fun n => "Added " +++ n +++ " reference images") r2 /\
   rewritten [InstantID_setReferenceImages
                (iid_referenceImages (instantID (ui (final r2))))]
             (ui w) (ui (final r2))) /\
  (files_are_added files pm (pm_referenceImages (photoMaker (ui (final r3))))
     (fun n => "Added " +++ n +++ " reference images") r3 /\
   rewritten [PhotoMaker_setReferenceImages
                (pm_referenceImages (photoMaker (ui (final r3))))]
             (ui w) (ui (final r3))).
Proof.
  cbv zeta. split; [now repeat split|].
  pose proof (handleMultipleFileSelect_run files env w) as E1.
  pose proof (InstantID_handleFileSelect_run files env w) as E2.
  pose proof (PhotoMaker_handleFileSelect_run files env w) as E3.
  cbv zeta in E1, E2, E3. rewrite E1, E2, E3. cbn [final ui].
  split; [|split]; (split; [|reflexivity]).
  - eapply (files_are_added_intro rand mint files _ _ _ _ _ (env, _)
              setTrainingImages); [reflexivity|].
    now eexists _, _.
  - eapply (files_are_added_intro rand mint files _ _ _ _ _ (env, _)
              InstantID_setReferenceImages); [reflexivity|].
    now eexists _, _.
  - eapply (files_are_added_intro rand mint files _ _ _ _ _ (env, _)
              PhotoMaker_setReferenceImages); [reflexivity|].
    now eexists _, _.
Qed.

(** X17. Only image files reach the storage: when [trainLoRAModel] runs
    after [handleMultipleFileSelect] and no upload is rejected, the files
    it uploads are those of the previews that were already in the
    training list followed by the selected files whose type starts with
    [image/], in the order of the selection, and no other selected
    file. *)
Theorem only_selected_images_are_uploaded files env env' w u :
  user (app (ui w)) = Some u ->
  5 <= List.length (trainingImages (app (ui w))) +
       List.length (filter is_image files) ->
  let w1 := final (handleMultipleFileSelect rand mint (Some files) env w) in
  let r := trainLoRAModel env' w1 in
  all_uploads_accepted (events r) = true ->
  map (fun x => fst (fst x)) (uploads (events r)) =
    map img_file (trainingImages (app (ui w))) ++ filter is_image files.
Proof.
  intros Hu Hn w1 r. subst r w1.
  pose proof (handleMultipleFileSelect_run files env w) as E1.
  cbv zeta in E1. rewrite E1. cbn [final]. clear E1.
  set (n := (if negb (List.length (filter is_image files) =? List.length files)
             then 1 else 0) + tick w).
  set (after := trainingImages (app (ui w)) ++
                preview_all rand mint "img_" env n (filter is_image files)).
  set (w1 := mkWorld (apply_set (setTrainingImages after) (ui w)) _).
  assert (Hu1 : user (app (ui w1)) = Some u) by exact Hu.
  assert (Himgs : trainingImages (app (ui w1)) = after) by reflexivity.
  assert (Hfiles : map img_file after =
                   map img_file (trainingImages (app (ui w))) ++
                   filter is_image files).
  { unfold after. rewrite map_app.
    now rewrite (proj1 (preview_all_files rand mint "img_" env
                          (filter is_image files) n)). }
  assert (Hn1 : 5 <= List.length (trainingImages (app (ui w1)))).
  { rewrite Himgs, <- (length_map img_file), Hfiles, length_app, length_map.
    exact Hn. }
  destruct (trainLoRAModel_run env' w1 u Hu1 Hn1)
    as (evs & res & w' & t & t2 & t3 & E & Hrun & _).
  rewrite E. cbn [events]. clear E. rewrite Himgs in Hrun.
  assert (Hups : uploads (training_prologue ++ evs ++
                   training_tail env' u (currentModel (app (ui w1))) res t t2 t3)
                 = uploads evs)
    by now rewrite !uploads_app, training_tail_uploads, app_nil_r.
  unfold all_uploads_accepted. rewrite Hups.
  fold (all_uploads_accepted evs).
  rewrite (loop_run_all_accepted _ _ _ _ _ _ _ _ _ Hrun).
  destruct res as [e|urls]; [discriminate|]. intros _.
  destruct (loop_run_uploads _ _ _ _ _ _ _ _ _ Hrun)
    as (outs & Hup & _ & new & _ & -> & Hlen).
  rewrite Hup, files_of_combine; [exact Hfiles|].
  rewrite !length_map. lia.
Qed.

End FileInputRuns.

Lemma only_selected_images_are_uploaded_witness :
  let files := [mkFile "f.png" "image/png"; mkFile "notes.txt" "text/plain"] in
  let w1 := final (handleMultipleFileSelect Number_toString
                     (fun k f => "blob:" +++ file_name f) (Some files)
                     env_ok sample_world) in
  map (fun x => fst (fst x)) (uploads (events (trainLoRAModel env_ok w1))) =
    map img_file (trainingImages sample_app) ++ [mkFile "f.png" "image/png"].
Proof.
  apply (only_selected_images_are_uploaded Number_toString
           (fun k f => "blob:" +++ file_name f)
           [mkFile "f.png" "image/png"; mkFile "notes.txt" "text/plain"]
           env_ok env_ok sample_world alice);
    [reflexivity|vm_compute; lia|vm_compute; reflexivity].
Defined.

(** ** The single-file inputs *)

(** X18. The single-file inputs look at the first file of the selection
    only.  With no file list or an empty one they do nothing; a first
    file whose type does not start with [image/] gets the error toast and
    changes nothing.  For an image, [handleFileSelect] of [App] makes it
    the selected file and does nothing else, and [handleFileSelect] of
    the face-swap module makes a fresh portrait of it, with no uploaded
    URL, and shows the success toast; it revokes nothing, so the object
    URL of a portrait it replaces stays allocated.  [removeFacePortrait]
    revokes the portrait's object URL and clears the portrait, and does
    nothing without a portrait. *)
Theorem single_file_inputs mint files env w :
  let r1 := handleFileSelect files env w in
  let r2 := FaceSwap_handleFileSelect mint files env w in
  let r3 := removeFacePortrait env w in
  takes_first_image files w r1
    (fun file =>
       r1 = mkRun (inr tt)
                  (mkWorld (with_selectedFile (Some file) (ui w)) (tick w)) []) /\
  takes_first_image files w r2
    (fun file =>
       exists portrait,
         img_file portrait = file /\ img_uploadedUrl portrait = None /\
         r2 = mkRun (inr tt)
                    (mkWorld (with_facePortrait (Some portrait) (ui w))
                             (2 + tick w))
                    [DateNow (date_now env (tick w));
                     ToastSuccess "Face portrait uploaded successfully!"]) /\
  match fs_facePortrait (faceSwap (ui w)) with
  | Some portrait =>
      r3 = mkRun (inr tt) (mkWorld (with_facePortrait None (ui w)) (S (tick w)))
                 [RevokeObjectURL (img_url portrait)]
  | None => no_op w r3
  end.
Proof.
  cbv zeta. unfold takes_first_image, no_op. split; [|split].
  - destruct files as [[|file rest]|]; try reflexivity.
    unfold handleFileSelect. destruct (is_image file); reflexivity.
  - destruct files as [[|file rest]|]; try reflexivity.
    unfold FaceSwap_handleFileSelect. destruct (is_image file); [|reflexivity].
    eexists. split; [|split]; [| |reflexivity]; reflexivity.
  - destruct (fs_facePortrait (faceSwap (ui w))) as [p|] eqn:E;
      unfold removeFacePortrait, bind at 1, getFaceSwap; cbv beta iota;
      rewrite E; reflexivity.
Qed.

Lemma travel_outcome_requests env s tk f u :
  exists path,
    upload_requests (generation_prologue ++ fst (travel_outcome env s tk f u) ++
                     generation_epilogue) = [(f, path, true)].
Proof.
  unfold upload_requests, travel_outcome, generation_prologue,
         generation_epilogue, travel_failure.
  cbv zeta. eexists.
  destruct (storage_upload env _ _ _ _) as [e|res]; [project; reflexivity|].
  destruct (find_destination _ _) as [d|]; [|project; reflexivity].
  destruct (ai_modifyImage env _ _) as [e|[[[|x xs]|]]];
    cbn [data]; project; reflexivity.
Qed.

Lemma faceSwap_outcome_requests env old tk portrait u sel :
  exists path,
    upload_requests (faceSwap_prologue ++
                     fst (faceSwap_outcome env old tk portrait u sel) ++
                     faceSwap_epilogue) = [(img_file portrait, path, true)].
Proof.
  unfold upload_requests, faceSwap_outcome, faceSwap_prologue,
         faceSwap_epilogue, faceSwap_failure.
  cbv zeta. eexists.
  destruct (storage_upload env _ _ _ _) as [e|res]; [project; reflexivity|].
  destruct (find_destination _ _) as [d|]; [|project; reflexivity].
  destruct (ai_generateImage env _ _) as [e|[[[|scene0 scenes]|]]];
    cbn [data]; try (project; reflexivity).
  destruct (ai_modifyImage env _ _) as [e|[[[|x xs]|]]];
    cbn [data]; project; reflexivity.
Qed.

(** X19. The file a single-file input has accepted is the file the next
    generation uploads, and the only one: after [handleFileSelect] of
    [App] on a selection whose first file is an image, a run of
    [generateTravelPhoto] (with a destination and a user) makes exactly
    one upload, of that file; and after [handleFileSelect] of the
    face-swap module, a run of [generateWithFaceSwap] does.  The other
    files of the selection are never uploaded. *)
Theorem accepted_file_is_uploaded mint file rest env env' w u sel :
  is_image file = true ->
  truthy sel = true ->
  let w1 := final (handleFileSelect (Some (file :: rest)) env w) in
  let w2 := final (FaceSwap_handleFileSelect mint (Some (file :: rest)) env w) in
  (selectedDestination (app (ui w)) = sel ->
   user (app (ui w)) = Some u ->
   map (fun x => fst (fst x))
       (upload_requests (events (generateTravelPhoto env' w1))) = [file]) /\
  map (fun x => fst (fst x))
      (upload_requests
         (events (FaceSwapModule.generateWithFaceSwap (App_props u sel) env' w2)))
    = [file].
Proof.
  intros Himg Hs. cbv zeta.
  unfold handleFileSelect, FaceSwap_handleFileSelect. rewrite Himg. split.
  - intros <- Hu.
    set (w1 := final (setSelectedFile (Some file) env w)).
    destruct (generateTravelPhoto_run env' w1 file u eq_refl Hs Hu)
      as (w' & E & _).
    rewrite E. cbn [events].
    destruct (travel_outcome_requests env' (app (ui w1)) (tick w1) file u)
      as (path & ->).
    reflexivity.
  - set (w2 := final _).
    destruct (generateWithFaceSwap_run env' w2 _ u sel eq_refl Hs)
      as (w' & E & _).
    rewrite E. cbn [events].
    match goal with
    | |- context [faceSwap_outcome ?e ?o ?t ?p ?u ?s] =>
        destruct (faceSwap_outcome_requests e o t p u s) as (path & ->)
    end.
    reflexivity.
Qed.

Lemma accepted_file_is_uploaded_witness :
  let files := [mkFile "new.png" "image/png"; mkFile "other.png" "image/png"] in
  let w1 := final (handleFileSelect (Some files) env_ok sample_world) in
  map (fun x => fst (fst x))
      (upload_requests (events (generateTravelPhoto env_ok w1))) =
    [mkFile "new.png" "image/png"].
Proof.
  destruct (accepted_file_is_uploaded (fun k f => "blob:" +++ file_name f)
              (mkFile "new.png" "image/png") [mkFile "other.png" "image/png"]
              env_ok env_ok sample_world alice "paris" eq_refl eq_refl)
    as [H _].
  apply H; reflexivity.
Defined.
